(** * WebFitTracker: nutrition calculator, daily ledger and fasting timer

    A shallow embedding of the calculation core of the application:

    - [services/nutritionCalculator] : [calculateBMR], [calculateTDEE],
      [suggestMacros], [sumFoodEntryMacros];
    - [components/FoodLogger]        : [determineEffectiveGoals];
    - [components/IFTimerDisplay]    : the fasting-timer handlers and the
      one-second sampling step [calculateRemainingTime].

    Modelling conventions.

    - A JavaScript [number] that carries a nutrition quantity is read in
      two ways.  In the planner, the ledger and the forms it is an exact
      rational ([Q]): every finite value is covered, [NaN], the infinities
      and the rounding error of binary floating point are not.  In module
      [Double] it is the IEEE 754 binary64 value itself ([float]), with the
      operations of the hardware; [calculateBMR], [calculateTDEE] and
      [determineEffectiveGoals], whose results turn on that rounding, are
      specified there, and a lookup in a table finds the properties the
      table inherits from [Object.prototype] as well as its own.
    - An instant ([Date], or the ISO string [toISOString] makes of it) is
      the integer count of milliseconds since the epoch ([Z]); an optional
      field is an [option].  Fasting and eating hours are integers: every
      writer of these fields stores a table constant or [parseInt(..) || 0].
    - A string is a sequence of code units below 256.
    - A React state update [setState (prev => ..)] together with the handler
      that issues it is one atomic step.  A handler reads the clock once,
      at the instant [now]; the sampling step reads it up to three times,
      and [TimerView] tells these readings apart. *)

From Stdlib Require Import ZArith QArith Qround Lia Lqa Bool.
From Stdlib Require Import Strings.String Strings.Ascii Numbers.DecimalString.
From Stdlib Require Import Lists.List.
From Stdlib Require Numbers.DecimalN.
From Stdlib Require Floats.
From stdpp Require Import base option strings gmap.
Import ListNotations.

Set Warnings "-inexact-float".

(* ================================================================== *)
(** ** The JavaScript primitives used by the code *)
(* ================================================================== *)

Module JS.

Local Open Scope Q_scope.

(** [Math.round x]: the integer nearest to [x], ties towards +infinity. *)
Definition Math_round (x : Q) : Q := inject_Z (Qfloor (x + (1 # 2))).

(** [Math.max a b] *)
Definition Math_max (a b : Q) : Q := if Qle_bool a b then b else a.

(** [a < b] and [a > b] on numbers *)
Definition lt (a b : Q) : bool := negb (Qle_bool b a).
Definition gt (a b : Q) : bool := lt b a.

(** Truthiness of a number: every number except zero. *)
Definition truthy (x : Q) : bool := negb (Qeq_bool x 0).

(** [x || d] on numbers *)
Definition or_num (x d : Q) : Q := if truthy x then x else d.

(** [h || d] where [h] is an optional integer field *)
Definition or_int (h : option Z) (d : Z) : Z :=
  match h with
  | Some v => if (v =? 0)%Z then d else v
  | None => d
  end.

(** Result of a call that may [throw new Error(msg)]. *)
Inductive result (A : Type) : Type :=
| Ok (value : A)
| Throw (message : string).
Arguments Ok {A} value.
Arguments Throw {A} message.

Definition code (c : ascii) : nat := nat_of_ascii c.

(** [String.prototype.toLowerCase], on code units below 256: the ASCII
    capitals and the Latin-1 capitals U+00C0..U+00DE (but the
    multiplication sign U+00D7) move up by 32. *)
Definition lowerChar (c : ascii) : ascii :=
  let n := code c in
  if ((65 <=? n) && (n <=? 90))%nat then ascii_of_nat (n + 32)
  else if ((192 <=? n) && (n <=? 222) && negb (n =? 215))%nat
       then ascii_of_nat (n + 32)
  else c.

Fixpoint toLowerCase (s : string) : string :=
  match s with
  | EmptyString => EmptyString
  | String c r => String (lowerChar c) (toLowerCase r)
  end.

(** [s.includes(k)]: [k] occurs in [s] at some position. *)
Fixpoint includes (s k : string) : bool :=
  String.prefix k s ||
  match s with
  | EmptyString => false
  | String _ r => includes r k
  end.

(** White space skipped by [parseInt] (code units below 256): TAB, LF,
    VT, FF, CR, SP and NBSP. *)
Definition isWhiteSpace (c : ascii) : bool :=
  let n := code c in
  ((9 <=? n) && (n <=? 13) || (n =? 32) || (n =? 160))%nat.

Fixpoint trimStart (s : string) : string :=
  match s with
  | EmptyString => EmptyString
  | String c r => if isWhiteSpace c then trimStart r else s
  end.

(** Value of a digit character: [0-9], [a-z], [A-Z]. *)
Definition digitValue (c : ascii) : option Z :=
  let n := code c in
  if ((48 <=? n) && (n <=? 57))%nat then Some (Z.of_nat (n - 48))
  else if ((97 <=? n) && (n <=? 122))%nat then Some (Z.of_nat (n - 87))
  else if ((65 <=? n) && (n <=? 90))%nat then Some (Z.of_nat (n - 55))
  else None.

(** The longest prefix of radix-[R] digits, read as an integer; [acc] is
    [None] until a digit has been read. *)
Fixpoint parseDigits (R : Z) (s : string) (acc : option Z) : option Z :=
  match s with
  | EmptyString => acc
  | String c r =>
      match digitValue c with
      | Some d =>
          if (d <? R)%Z
          then parseDigits R r (Some (default 0%Z acc * R + d)%Z)
          else acc
      | None => acc
      end
  end.

(** [parseInt(s)] without a radix argument; [None] stands for [NaN].
    The result is the exact integer read. *)
Definition parseInt (s : string) : option Z :=
  let S0 := trimStart s in
  let '(sign, S1) :=
    match S0 with
    | String "-"%char r => ((-1)%Z, r)
    | String "+"%char r => (1%Z, r)
    | _ => (1%Z, S0)
    end in
  let '(R, S2) :=
    match S1 with
    | String "0"%char (String "x"%char r) => (16%Z, r)
    | String "0"%char (String "X"%char r) => (16%Z, r)
    | _ => (10%Z, S1)
    end in
  match parseDigits R S2 None with
  | Some n => Some (sign * n)%Z
  | None => None
  end.

(** The sign character [parseInt] looks for after the white space. *)
Definition startsWithMinus (s : string) : bool :=
  match trimStart s with
  | String "-"%char _ => true
  | _ => false
  end.

(** [String(n)] for an integer [n >= 0]. *)
Definition String_of (n : Z) : string :=
  NilZero.string_of_uint (N.to_uint (Z.to_N n)).

(** [s.padStart(2, '0')] *)
Definition padStart2 (s : string) : string :=
  match String.length s with
  | 0%nat => "00"
  | 1%nat => String "0"%char s
  | _ => s
  end.

End JS.

(* ================================================================== *)
(** ** types.ts *)
(* ================================================================== *)

Module IFProtocol.
Inductive IFProtocolType := SIXTEEN_EIGHT | EIGHTEEN_SIX | CUSTOM.
Record t := mk {
  type : IFProtocolType;
  fastingHours : option Z;
  eatingHours : option Z
}.
End IFProtocol.

Module PersonalDetails.
(** [sex] holds the enum's runtime value, the string ["Male"] or
    ["Female"]; it is the key looked up in the coefficient table. *)
Record t := mk {
  age : Q;
  sex : string;
  heightCm : Q;
  currentWeightKg : Q
}.
End PersonalDetails.

Module UserGoals.
Record t := mk {
  targetWeightKg : Q;
  targetDate : string;
  planDescription : string
}.
End UserGoals.

Module DietaryPreferences.
Record t := mk {
  interestedInIF : bool;
  ifProtocol : IFProtocol.t;
  interestedInRefeedDays : bool
}.
End DietaryPreferences.

Module CalculatedNutrition.
Record t := mk { bmr : Q; tdee : Q }.
End CalculatedNutrition.

Module MacroNutrients.
Record t := mk {
  protein : Q;
  carbs : Q;
  fat : Q;
  calories : Q
}.
End MacroNutrients.

Module UserProfile.
Record t := mk {
  personalDetails : PersonalDetails.t;
  activityLevel : string;
  goals : UserGoals.t;
  dietaryPreferences : DietaryPreferences.t;
  calculatedNutrition : CalculatedNutrition.t;
  targetMacros : MacroNutrients.t;
  quizCompleted : bool
}.
End UserProfile.

Module FoodEntry.
(** The optional fields ([photoIdentifier], [notes], [apiSource],
    [aiAssisted]) play no part in the calculations and are left out. *)
Record t := mk {
  id : string;
  name : string;
  calories : Q;
  protein : Q;
  carbs : Q;
  fat : Q;
  servingSize : string;
  quantity : Q;
  loggedAt : string;
  mealTime : string
}.
End FoodEntry.

Inductive FastingPhase := FASTING | EATING.

Inductive TimerStatus := NOT_ACTIVE | ACTIVE | PAUSED.

Module FastingTimerState.
Record t := mk {
  status : TimerStatus;
  currentPhase : FastingPhase;
  startTime : option Z;
  endTime : option Z;
  phaseStartTime : option Z;
  pausedDurationMs : Z;
  lastPauseTime : option Z;
  protocol : IFProtocol.t
}.
End FastingTimerState.

(* ================================================================== *)
(** ** constants.ts *)
(* ================================================================== *)

Module Constants.

Import IFProtocol.
Local Open Scope Q_scope.

Module Coeffs.
Record t := mk { weight : Q; height : Q; age : Q; constant : Q }.
End Coeffs.

(** The two entries of the table, as exact numbers. *)
Definition MIFFLIN_ST_JEOR_COEFFICIENTS : gmap string Coeffs.t :=
  <[ "Male"%string := Coeffs.mk 10 6.25 5 5 ]>
    (<[ "Female"%string := Coeffs.mk 10 6.25 5 (-161) ]> ∅).

Definition DEFAULT_IF_PROTOCOLS (type : IFProtocolType) : IFProtocol.t :=
  match type with
  | SIXTEEN_EIGHT => IFProtocol.mk SIXTEEN_EIGHT (Some 16%Z) (Some 8%Z)
  | EIGHTEEN_SIX => IFProtocol.mk EIGHTEEN_SIX (Some 18%Z) (Some 6%Z)
  | CUSTOM => IFProtocol.mk CUSTOM (Some 12%Z) (Some 12%Z)
  end.

Module MacroSplit.
Record t := mk { proteinRatio : Q; carbRatio : Q; fatRatio : Q }.
End MacroSplit.

Definition DEFAULT_MACRO_SPLIT_GENERAL := MacroSplit.mk 0.3 0.4 0.3.
Definition DEFAULT_MACRO_SPLIT_MUSCLE_GAIN := MacroSplit.mk 0.35 0.45 0.2.
Definition DEFAULT_MACRO_SPLIT_WEIGHT_LOSS := MacroSplit.mk 0.4 0.3 0.3.
Definition DEFAULT_MACRO_SPLIT_KETO := MacroSplit.mk 0.25 0.05 0.7.

Definition PROTEIN_KCAL_PER_GRAM : Q := 4.
Definition CARBS_KCAL_PER_GRAM : Q := 4.
Definition FAT_KCAL_PER_GRAM : Q := 9.

Definition DEFAULT_INITIAL_MACROS : MacroNutrients.t :=
  {| MacroNutrients.calories := 2000;
     MacroNutrients.protein := 150;
     MacroNutrients.carbs := 200;
     MacroNutrients.fat := 67 |}.

(** [protocol || DEFAULT_IF_PROTOCOLS[SIXTEEN_EIGHT]] covers a missing
    argument. *)
Definition INITIAL_FASTING_TIMER_STATE (protocol : option IFProtocol.t)
  : FastingTimerState.t :=
  {| FastingTimerState.status := NOT_ACTIVE;
     FastingTimerState.currentPhase := FASTING;
     FastingTimerState.startTime := None;
     FastingTimerState.endTime := None;
     FastingTimerState.phaseStartTime := None;
     FastingTimerState.pausedDurationMs := 0%Z;
     FastingTimerState.lastPauseTime := None;
     FastingTimerState.protocol :=
       default (DEFAULT_IF_PROTOCOLS SIXTEEN_EIGHT) protocol |}.

End Constants.

(* ================================================================== *)
(** ** services/nutritionCalculator.ts *)
(* ================================================================== *)

Module NutritionCalculator.

Import JS Constants.
Local Open Scope Q_scope.

(** [calculateBMR] in exact arithmetic, for the two keys of the table;
    [Double.calculateBMR] below is the function on binary64 numbers, with
    the properties the table inherits. *)
Definition calculateBMR (details : PersonalDetails.t) : result Q :=
  let age := PersonalDetails.age details in
  let sex := PersonalDetails.sex details in
  let heightCm := PersonalDetails.heightCm details in
  let currentWeightKg := PersonalDetails.currentWeightKg details in
  match MIFFLIN_ST_JEOR_COEFFICIENTS !! sex with
  | None => Throw "Invalid sex provided for BMR calculation."
  | Some coeffs =>
      let bmr := (Coeffs.weight coeffs * currentWeightKg)
                 + (Coeffs.height coeffs * heightCm)
                 - (Coeffs.age coeffs * age)
                 + Coeffs.constant coeffs in
      Ok (Math_round bmr)
  end.

(** Lines 24-33 of [suggestMacros]: the calorie target before the split
    is applied. *)
Definition targetCalories (tdee : Q) (goals : UserGoals.t)
           (currentWeightKg : Q) : Q :=
  let calories := tdee in
  let weightDiff := UserGoals.targetWeightKg goals - currentWeightKg in
  let calories :=
    if lt weightDiff (-1) then calories - 500
    else if gt weightDiff 1 then calories + 300
    else calories in
  Math_max 1200 calories.

(** Lines 35-44 of [suggestMacros]: the split chosen from the plan
    description. *)
Definition selectSplit (planDescription : string) : MacroSplit.t :=
  let planDesc := toLowerCase planDescription in
  if includes planDesc "muscle" || includes planDesc "gain"
  then DEFAULT_MACRO_SPLIT_MUSCLE_GAIN
  else if includes planDesc "keto" || includes planDesc "low carb"
  then DEFAULT_MACRO_SPLIT_KETO
  else if includes planDesc "lose weight" || includes planDesc "fat loss"
          || includes planDesc "cut"
  then DEFAULT_MACRO_SPLIT_WEIGHT_LOSS
  else DEFAULT_MACRO_SPLIT_GENERAL.

(** Lines 46-59 of [suggestMacros]: grams from the split, calories from
    the grams. *)
Definition macrosOfSplit (calories : Q) (split : MacroSplit.t)
  : MacroNutrients.t :=
  let proteinGrams :=
    Math_round ((calories * MacroSplit.proteinRatio split) / PROTEIN_KCAL_PER_GRAM) in
  let carbsGrams :=
    Math_round ((calories * MacroSplit.carbRatio split) / CARBS_KCAL_PER_GRAM) in
  let fatGrams :=
    Math_round ((calories * MacroSplit.fatRatio split) / FAT_KCAL_PER_GRAM) in
  let calculatedCalories :=
    (proteinGrams * PROTEIN_KCAL_PER_GRAM)
    + (carbsGrams * CARBS_KCAL_PER_GRAM)
    + (fatGrams * FAT_KCAL_PER_GRAM) in
  {| MacroNutrients.calories := Math_round calculatedCalories;
     MacroNutrients.protein := proteinGrams;
     MacroNutrients.carbs := carbsGrams;
     MacroNutrients.fat := fatGrams |}.

Definition suggestMacros (tdee : Q) (goals : UserGoals.t)
           (currentWeightKg : Q) : MacroNutrients.t :=
  let calories := targetCalories tdee goals currentWeightKg in
  let split := selectSplit (UserGoals.planDescription goals) in
  macrosOfSplit calories split.

(** The multiplier applied to an entry: [entry.quantity || 1]. *)
Definition appliedQuantity (entry : FoodEntry.t) : Q :=
  or_num (FoodEntry.quantity entry) 1.

(** The callback of the [reduce]; its in-place updates of [acc] become
    the construction of the next accumulator. *)
Definition addEntry (acc : MacroNutrients.t) (entry : FoodEntry.t)
  : MacroNutrients.t :=
  let quantity := appliedQuantity entry in
  {| MacroNutrients.calories :=
       MacroNutrients.calories acc + or_num (FoodEntry.calories entry) 0 * quantity;
     MacroNutrients.protein :=
       MacroNutrients.protein acc + or_num (FoodEntry.protein entry) 0 * quantity;
     MacroNutrients.carbs :=
       MacroNutrients.carbs acc + or_num (FoodEntry.carbs entry) 0 * quantity;
     MacroNutrients.fat :=
       MacroNutrients.fat acc + or_num (FoodEntry.fat entry) 0 * quantity |}.

Definition zeroMacros : MacroNutrients.t :=
  {| MacroNutrients.calories := 0; MacroNutrients.protein := 0;
     MacroNutrients.carbs := 0; MacroNutrients.fat := 0 |}.

Definition sumFoodEntryMacros (entries : list FoodEntry.t)
  : MacroNutrients.t :=
  fold_left addEntry entries zeroMacros.

End NutritionCalculator.

(* ================================================================== *)
(** ** The planner's selection rule, as specified *)
(* ================================================================== *)

Module PlannerSpec.

Import JS Constants.

(** Case-insensitive substring match, in the words of the specification:
    some stretch of the description reads as the key once case is
    dropped. *)
Definition containsIgnoringCase (description key : string) : Prop :=
  exists pre mid post,
    description = pre +:+ mid +:+ post /\ toLowerCase mid = key.

(** The selection rule of the specification, first match winning. *)
Inductive splitFor (d : string) : MacroSplit.t -> Prop :=
| SplitMuscleGain :
    containsIgnoringCase d "muscle" \/ containsIgnoringCase d "gain" ->
    splitFor d (MacroSplit.mk 0.35 0.45 0.2)
| SplitKeto :
    ~ (containsIgnoringCase d "muscle" \/ containsIgnoringCase d "gain") ->
    containsIgnoringCase d "keto" \/ containsIgnoringCase d "low carb" ->
    splitFor d (MacroSplit.mk 0.25 0.05 0.7)
| SplitWeightLoss :
    ~ (containsIgnoringCase d "muscle" \/ containsIgnoringCase d "gain") ->
    ~ (containsIgnoringCase d "keto" \/ containsIgnoringCase d "low carb") ->
    containsIgnoringCase d "lose weight" \/ containsIgnoringCase d "fat loss"
      \/ containsIgnoringCase d "cut" ->
    splitFor d (MacroSplit.mk 0.4 0.3 0.3)
| SplitGeneral :
    ~ (containsIgnoringCase d "muscle" \/ containsIgnoringCase d "gain") ->
    ~ (containsIgnoringCase d "keto" \/ containsIgnoringCase d "low carb") ->
    ~ (containsIgnoringCase d "lose weight" \/ containsIgnoringCase d "fat loss"
       \/ containsIgnoringCase d "cut") ->
    splitFor d (MacroSplit.mk 0.3 0.4 0.3).

End PlannerSpec.

(* ================================================================== *)
(** ** components/FoodLogger.tsx *)
(* ================================================================== *)

Module FoodLogger.

Import JS Constants.
Local Open Scope Q_scope.

(** [determineEffectiveGoals] in exact arithmetic, as the daily logs below
    use it; [Double.determineEffectiveGoals] is the function on binary64
    numbers. *)
Definition determineEffectiveGoals (userProfile : option UserProfile.t)
           (isRefeed : bool) : MacroNutrients.t :=
  match userProfile with
  | None => DEFAULT_INITIAL_MACROS
  | Some userProfile =>
      let targetMacros := UserProfile.targetMacros userProfile in
      if isRefeed
         && DietaryPreferences.interestedInRefeedDays
              (UserProfile.dietaryPreferences userProfile)
      then
        let refeedCalories :=
          Math_round (CalculatedNutrition.tdee
                        (UserProfile.calculatedNutrition userProfile) * 1.15) in
        let calorieRatio :=
          if gt (MacroNutrients.calories targetMacros) 0
          then refeedCalories / MacroNutrients.calories targetMacros
          else 1 in
        {| MacroNutrients.calories := refeedCalories;
           MacroNutrients.protein :=
             Math_round (MacroNutrients.protein targetMacros * calorieRatio);
           MacroNutrients.carbs :=
             Math_round (MacroNutrients.carbs targetMacros * calorieRatio);
           MacroNutrients.fat :=
             Math_round (MacroNutrients.fat targetMacros * calorieRatio) |}
      else targetMacros
  end.

(** The entry row of the list shows [item.calories * item.quantity] (and
    likewise the three macros): the contribution of one entry as
    displayed. *)
Definition displayedEntryMacros (item : FoodEntry.t) : MacroNutrients.t :=
  {| MacroNutrients.calories := FoodEntry.calories item * FoodEntry.quantity item;
     MacroNutrients.protein := FoodEntry.protein item * FoodEntry.quantity item;
     MacroNutrients.carbs := FoodEntry.carbs item * FoodEntry.quantity item;
     MacroNutrients.fat := FoodEntry.fat item * FoodEntry.quantity item |}.

End FoodLogger.

(* ================================================================== *)
(** ** The daily ledger, as specified *)
(* ================================================================== *)

Module LedgerSpec.

Import JS.
Local Open Scope Q_scope.

(** Two macro records that hold the same numbers. *)
Definition sameMacros (m1 m2 : MacroNutrients.t) : Prop :=
  MacroNutrients.calories m1 == MacroNutrients.calories m2 /\
  MacroNutrients.protein m1 == MacroNutrients.protein m2 /\
  MacroNutrients.carbs m1 == MacroNutrients.carbs m2 /\
  MacroNutrients.fat m1 == MacroNutrients.fat m2.

(** The sum over the entries of [field] times the multiplier [qty]. *)
Definition weightedSum (qty field : FoodEntry.t -> Q)
           (entries : list FoodEntry.t) : Q :=
  fold_right (fun e acc => field e * qty e + acc) 0 entries.

Definition weightedTotals (qty : FoodEntry.t -> Q)
           (entries : list FoodEntry.t) : MacroNutrients.t :=
  {| MacroNutrients.calories := weightedSum qty FoodEntry.calories entries;
     MacroNutrients.protein := weightedSum qty FoodEntry.protein entries;
     MacroNutrients.carbs := weightedSum qty FoodEntry.carbs entries;
     MacroNutrients.fat := weightedSum qty FoodEntry.fat entries |}.

(** [totals(entries)]: the sum of [entry.field * entry.quantity] over all
    entries, for each of the four fields. *)
Definition totals (entries : list FoodEntry.t) : MacroNutrients.t :=
  weightedTotals FoodEntry.quantity entries.

End LedgerSpec.

(* ================================================================== *)
(** ** Sample data *)
(* ================================================================== *)

Module Samples.

Import Constants.
Local Open Scope Q_scope.

(** A profile with the given target macros, TDEE and refeed preference. *)
Definition profile (targetMacros : MacroNutrients.t) (tdee : Q)
           (refeed : bool) : UserProfile.t :=
  {| UserProfile.personalDetails := PersonalDetails.mk 30 "Male" 175 70;
     UserProfile.activityLevel :=
       "Moderately active (moderate exercise/sports 3-5 days/week)";
     UserProfile.goals :=
       UserGoals.mk 70 "2026-01-31" "General fitness and health improvement.";
     UserProfile.dietaryPreferences :=
       DietaryPreferences.mk true (DEFAULT_IF_PROTOCOLS IFProtocol.SIXTEEN_EIGHT)
                             refeed;
     UserProfile.calculatedNutrition := CalculatedNutrition.mk 1649 tdee;
     UserProfile.targetMacros := targetMacros;
     UserProfile.quizCompleted := true |}.

(** A logged serving of rice with the given quantity. *)
Definition rice (quantity : Q) : FoodEntry.t :=
  {| FoodEntry.id := "e1"; FoodEntry.name := "Rice";
     FoodEntry.calories := 200; FoodEntry.protein := 4;
     FoodEntry.carbs := 45; FoodEntry.fat := 1;
     FoodEntry.servingSize := "1 cup"; FoodEntry.quantity := quantity;
     FoodEntry.loggedAt := "2026-01-31T12:00:00.000Z";
     FoodEntry.mealTime := "2026-01-31T12:00:00.000Z" |}.

Definition egg (quantity : Q) : FoodEntry.t :=
  {| FoodEntry.id := "e2"; FoodEntry.name := "Egg";
     FoodEntry.calories := 78; FoodEntry.protein := 6;
     FoodEntry.carbs := 0.6; FoodEntry.fat := 5;
     FoodEntry.servingSize := "1 large"; FoodEntry.quantity := quantity;
     FoodEntry.loggedAt := "2026-01-31T08:00:00.000Z";
     FoodEntry.mealTime := "2026-01-31T08:00:00.000Z" |}.

End Samples.

(* ================================================================== *)
(** ** components/IFTimerDisplay.tsx *)
(* ================================================================== *)

Module IFTimerDisplay.

Import JS Constants IFProtocol FastingTimerState.
Local Open Scope Z_scope.

(** The component's own state next to the timer state it is handed. *)
Record CustomHours := {
  customFastingHours : Z;
  customEatingHours : Z
}.

(** The [name] argument of [handleCustomHoursChange]. *)
Inductive CustomHoursName := customFastingHoursName | customEatingHoursName.

(** Functional record updates of the spread [{...prev, field: v}]. *)
Definition set_status v (s : FastingTimerState.t) :=
  mk v (currentPhase s) (startTime s) (endTime s) (phaseStartTime s)
     (pausedDurationMs s) (lastPauseTime s) (protocol s).
Definition set_lastPauseTime v (s : FastingTimerState.t) :=
  mk (status s) (currentPhase s) (startTime s) (endTime s) (phaseStartTime s)
     (pausedDurationMs s) v (protocol s).
Definition set_protocol v (s : FastingTimerState.t) :=
  mk (status s) (currentPhase s) (startTime s) (endTime s) (phaseStartTime s)
     (pausedDurationMs s) (lastPauseTime s) v.

(** The [HH:MM:SS] text of a positive number of milliseconds. *)
Definition formatRemaining (diff : Z) : string :=
  let hours := diff / (1000 * 60 * 60) in
  let diff := diff - hours * (1000 * 60 * 60) in
  let minutes := diff / (1000 * 60) in
  let diff := diff - minutes * (1000 * 60) in
  let seconds := diff / 1000 in
  (padStart2 (String_of hours) ++ ":" ++ padStart2 (String_of minutes)
     ++ ":" ++ padStart2 (String_of seconds))%string.

(** The state update issued by [calculateRemainingTime] when the phase
    has run out (lines 28-43). *)
Definition flipPhase (now : Z) (prev : FastingTimerState.t)
  : FastingTimerState.t :=
  let newPhase :=
    match currentPhase prev with FASTING => EATING | EATING => FASTING end in
  let phaseDurationHours :=
    match newPhase with
    | FASTING => or_int (fastingHours (protocol prev)) 0
    | EATING => or_int (eatingHours (protocol prev)) 0
    end in
  let phaseDurationMs := phaseDurationHours * 60 * 60 * 1000 in
  let newStartTime := now in
  let newEndTime := now + phaseDurationMs in
  {| status := status prev;
     currentPhase := newPhase;
     startTime := Some newStartTime;
     endTime := Some newEndTime;
     phaseStartTime := Some newStartTime;
     pausedDurationMs := 0;
     lastPauseTime := lastPauseTime prev;
     protocol := protocol prev |}.

(** One sampling of the clock: the text to display and the timer state
    after the sampling. *)
Definition calculateRemainingTime (now : Z) (timerState : FastingTimerState.t)
  : string * FastingTimerState.t :=
  match status timerState, endTime timerState with
  | ACTIVE, Some end_ =>
      let diff := end_ - now in
      if diff <=? 0 then ("00:00:00"%string, flipPhase now timerState)
      else (formatRemaining diff, timerState)
  | _, _ => ("00:00:00"%string, timerState)
  end.

Definition handleStartFast (userProfile : option UserProfile.t) (now : Z)
           (timerState : FastingTimerState.t) : FastingTimerState.t :=
  match userProfile with
  | None => timerState
  | Some _ =>
      let protocol_ := protocol timerState in
      let fastingDurationMs :=
        or_int (fastingHours protocol_) 0 * 60 * 60 * 1000 in
      {| status := ACTIVE;
         currentPhase := FASTING;
         startTime := Some now;
         endTime := Some (now + fastingDurationMs);
         phaseStartTime := Some now;
         pausedDurationMs := 0;
         lastPauseTime := None;
         protocol := protocol_ |}
  end.

Definition handlePauseResumeFast (now : Z) (timerState : FastingTimerState.t)
  : FastingTimerState.t :=
  match status timerState with
  | ACTIVE =>
      set_lastPauseTime (Some now) (set_status PAUSED timerState)
  | PAUSED =>
      let prev := timerState in
      match lastPauseTime prev, endTime prev, phaseStartTime prev with
      | Some lastPause, Some end_, Some _ =>
          let pauseMsThisSegment := now - lastPause in
          let newPausedDurationMsTotal :=
            pausedDurationMs prev + pauseMsThisSegment in
          let newEndTime := end_ + pauseMsThisSegment in
          {| status := ACTIVE;
             currentPhase := currentPhase prev;
             startTime := startTime prev;
             endTime := Some newEndTime;
             phaseStartTime := phaseStartTime prev;
             pausedDurationMs := newPausedDurationMsTotal;
             lastPauseTime := None;
             protocol := protocol prev |}
      | _, _, _ => prev
      end
  | NOT_ACTIVE => timerState
  end.

Definition handleEndFast (userProfile : option UserProfile.t)
           (timerState : FastingTimerState.t) : FastingTimerState.t :=
  match userProfile with
  | None => timerState
  | Some userProfile =>
      INITIAL_FASTING_TIMER_STATE
        (Some (DietaryPreferences.ifProtocol
                 (UserProfile.dietaryPreferences userProfile)))
  end.

Definition handleProtocolChange (custom : CustomHours)
           (value : IFProtocolType) (timerState : FastingTimerState.t)
  : FastingTimerState.t :=
  let newProtocol :=
    match value with
    | CUSTOM =>
        {| type := CUSTOM;
           fastingHours := Some (customFastingHours custom);
           eatingHours := Some (customEatingHours custom) |}
    | _ => DEFAULT_IF_PROTOCOLS value
    end in
  set_protocol newProtocol timerState.

Definition handleCustomHoursChange (name : CustomHoursName) (value : string)
           (custom : CustomHours) (timerState : FastingTimerState.t)
  : CustomHours * FastingTimerState.t :=
  let hours := or_int (parseInt value) 0 in
  let custom' :=
    match name with
    | customFastingHoursName =>
        {| customFastingHours := hours;
           customEatingHours := customEatingHours custom |}
    | customEatingHoursName =>
        {| customFastingHours := customFastingHours custom;
           customEatingHours := hours |}
    end in
  let prev := timerState in
  (custom',
   set_protocol
     {| type := CUSTOM;
        fastingHours :=
          Some (match name with
                | customFastingHoursName => hours
                | customEatingHoursName => or_int (fastingHours (protocol prev)) 0
                end);
        eatingHours :=
          Some (match name with
                | customEatingHoursName => hours
                | customFastingHoursName => or_int (eatingHours (protocol prev)) 0
                end) |}
     prev).

(** The remaining time shown while the timer runs: [endTime - now]. *)
Definition remainingMs (now : Z) (timerState : FastingTimerState.t)
  : option Z :=
  match endTime timerState with
  | Some end_ => Some (end_ - now)
  | None => None
  end.

(** What acts on the timer state: the handlers of the component, with the
    profile the component holds at that moment, the sampling of the clock,
    and the writes of [App.tsx], each of which stores
    [INITIAL_FASTING_TIMER_STATE(protocol)]. *)
Inductive action :=
| StartFast (userProfile : option UserProfile.t) (now : Z)
| PauseResumeFast (now : Z)
| EndFast (userProfile : option UserProfile.t)
| ProtocolChange (custom : CustomHours) (value : IFProtocolType)
| CustomHoursChange (name : CustomHoursName) (value : string)
                    (custom : CustomHours)
| Sample (now : Z)
| Reset (protocol : option IFProtocol.t).

Definition step (a : action) (s : FastingTimerState.t) : FastingTimerState.t :=
  match a with
  | StartFast userProfile now => handleStartFast userProfile now s
  | PauseResumeFast now => handlePauseResumeFast now s
  | EndFast userProfile => handleEndFast userProfile s
  | ProtocolChange custom value => handleProtocolChange custom value s
  | CustomHoursChange name value custom =>
      snd (handleCustomHoursChange name value custom s)
  | Sample now => snd (calculateRemainingTime now s)
  | Reset protocol => INITIAL_FASTING_TIMER_STATE protocol
  end.

Definition run (l : list action) (s : FastingTimerState.t)
  : FastingTimerState.t :=
  fold_left (fun s a => step a s) l s.

(** A timer that is running or paused carries the instants it was given
    by [handleStartFast]. *)
Definition stamped (s : FastingTimerState.t) : bool :=
  match status s with
  | NOT_ACTIVE => true
  | _ =>
      match endTime s, phaseStartTime s with
      | Some _, Some _ => true
      | _, _ => false
      end
  end.

End IFTimerDisplay.

(* ================================================================== *)
(** ** More JavaScript arithmetic *)
(* ================================================================== *)

Module JSMath.

Local Open Scope Q_scope.

(** [Math.floor x] *)
Definition Math_floor (x : Q) : Q := inject_Z (Qfloor x).

(** [Math.min a b] *)
Definition Math_min (a b : Q) : Q := if Qle_bool a b then a else b.

(** The integer part of [x], towards zero. *)
Definition truncate (x : Q) : Z :=
  if Qle_bool 0 x then Qfloor x else Qceiling x.

(** [a % b]: the remainder has the sign of [a]. *)
Definition rem (a b : Q) : Q := a - b * inject_Z (truncate (a / b)).

End JSMath.

(* ================================================================== *)
(** ** services/nutritionCalculator.ts: unit conversion *)
(* ================================================================== *)

Module UnitConversion.

Import JS JSMath.
Local Open Scope Q_scope.

Inductive WeightUnit := kg | lbs.

Definition WeightUnit_eqb (a b : WeightUnit) : bool :=
  match a, b with
  | kg, kg | lbs, lbs => true
  | _, _ => false
  end.

Definition convertWeight (value : Q) (fromUnit toUnit : WeightUnit) : Q :=
  if WeightUnit_eqb fromUnit toUnit then value
  else match fromUnit, toUnit with
       | lbs, kg => value * 0.453592
       | kg, lbs => value / 0.453592
       | _, _ => value
       end.

Inductive HeightUnit := cm | ft_in.

(** The result of [convertHeight]: a number, or an object with [feet] and
    [inches]. *)
Inductive Height :=
| Centimetres (value : Q)
| FeetInches (feet inches : Q).

Definition convertHeight (valueCm : Q) (toUnit : HeightUnit) : Height :=
  match toUnit with
  | cm => Centimetres valueCm
  | ft_in =>
      let totalInches := valueCm / 2.54 in
      let feet := Math_floor (totalInches / 12) in
      let inches := Math_round (rem totalInches 12) in
      FeetInches feet inches
  end.

(** The height the profile forms store for the numbers read from the feet
    and inches inputs (OnboardingQuiz line 43, EditProfileModal line 59). *)
Definition heightCmOfFeetInches (feet inches : Q) : Q :=
  Math_round ((feet * 12 + inches) * 2.54).

End UnitConversion.

(* ================================================================== *)
(** ** The macro fields of the profile forms *)
(* ================================================================== *)

Module MacroForm.

Import JS.
Local Open Scope Q_scope.

(** [keyof MacroNutrients] *)
Inductive MacroKey := protein | carbs | fat | calories.

(** [{...prev, [name]: numValue}] *)
Definition setMacro (name : MacroKey) (numValue : Q) (prev : MacroNutrients.t)
  : MacroNutrients.t :=
  match name with
  | protein => MacroNutrients.mk numValue (MacroNutrients.carbs prev)
                 (MacroNutrients.fat prev) (MacroNutrients.calories prev)
  | carbs => MacroNutrients.mk (MacroNutrients.protein prev) numValue
               (MacroNutrients.fat prev) (MacroNutrients.calories prev)
  | fat => MacroNutrients.mk (MacroNutrients.protein prev)
             (MacroNutrients.carbs prev) numValue (MacroNutrients.calories prev)
  | calories => MacroNutrients.mk (MacroNutrients.protein prev)
                  (MacroNutrients.carbs prev) (MacroNutrients.fat prev) numValue
  end.

Definition weightedCalories (m : MacroNutrients.t) : Q :=
  Math_round ((MacroNutrients.protein m * Constants.PROTEIN_KCAL_PER_GRAM)
              + (MacroNutrients.carbs m * Constants.CARBS_KCAL_PER_GRAM)
              + (MacroNutrients.fat m * Constants.FAT_KCAL_PER_GRAM)).

(** The state update of [handleMacroChange] in [EditProfileModal], for the
    number [numValue = parseFloat(value) || 0] read from the input. *)
Definition handleMacroChange (name : MacroKey) (numValue : Q)
           (prev : MacroNutrients.t) : MacroNutrients.t :=
  let newMacros := setMacro name numValue prev in
  match name with
  | protein | carbs | fat => setMacro calories (weightedCalories newMacros) newMacros
  | calories => newMacros
  end.

(** The same update in [OnboardingQuiz]: the test is [name !== 'calories']
    and the weights are written as 4, 4 and 9. *)
Definition handleMacroChangeQuiz (name : MacroKey) (numValue : Q)
           (prev : MacroNutrients.t) : MacroNutrients.t :=
  let newMacros := setMacro name numValue prev in
  match name with
  | calories => newMacros
  | _ =>
      setMacro calories
        (Math_round ((MacroNutrients.protein newMacros * 4)
                     + (MacroNutrients.carbs newMacros * 4)
                     + (MacroNutrients.fat newMacros * 9)))
        newMacros
  end.

End MacroForm.

(* ================================================================== *)
(** ** components/FoodLogger.tsx: the daily logs *)
(* ================================================================== *)

Module DailyLog.
Record t := mk {
  date : string;
  foodEntries : list FoodEntry.t;
  isRefeedDay : bool;
  effectiveCaloriesGoal : Q;
  effectiveMacrosGoal : MacroNutrients.t;
  totals : MacroNutrients.t
}.
End DailyLog.

(** [Partial<DailyLog>]: a field that is absent is [None]. *)
Module Updates.
Record t := mk {
  date : option string;
  foodEntries : option (list FoodEntry.t);
  isRefeedDay : option bool;
  effectiveCaloriesGoal : option Q;
  effectiveMacrosGoal : option MacroNutrients.t;
  totals : option MacroNutrients.t
}.
End Updates.

(** [Omit<FoodEntry, 'id' | 'loggedAt'>]: the entry form. *)
Module EntryForm.
Record t := mk {
  name : string;
  calories : Q;
  protein : Q;
  carbs : Q;
  fat : Q;
  servingSize : string;
  quantity : Q;
  mealTime : string
}.
End EntryForm.

Module DailyLogs.

Import JS JSMath Constants NutritionCalculator FoodLogger.
Local Open Scope Q_scope.

(** [{}] *)
Definition noUpdates : Updates.t :=
  Updates.mk None None None None None None.

(** [Object.keys(updates).length > 0] *)
Definition hasKeys (u : Updates.t) : bool :=
  match Updates.date u, Updates.foodEntries u, Updates.isRefeedDay u,
        Updates.effectiveCaloriesGoal u, Updates.effectiveMacrosGoal u,
        Updates.totals u with
  | None, None, None, None, None, None => false
  | _, _, _, _, _, _ => true
  end.

(** [{...log, ...updates}] *)
Definition spread (log : DailyLog.t) (updates : Updates.t) : DailyLog.t :=
  {| DailyLog.date := default (DailyLog.date log) (Updates.date updates);
     DailyLog.foodEntries :=
       default (DailyLog.foodEntries log) (Updates.foodEntries updates);
     DailyLog.isRefeedDay :=
       default (DailyLog.isRefeedDay log) (Updates.isRefeedDay updates);
     DailyLog.effectiveCaloriesGoal :=
       default (DailyLog.effectiveCaloriesGoal log)
               (Updates.effectiveCaloriesGoal updates);
     DailyLog.effectiveMacrosGoal :=
       default (DailyLog.effectiveMacrosGoal log)
               (Updates.effectiveMacrosGoal updates);
     DailyLog.totals := default (DailyLog.totals log) (Updates.totals updates) |}.

Definition set_totals (v : MacroNutrients.t) (log : DailyLog.t) : DailyLog.t :=
  DailyLog.mk (DailyLog.date log) (DailyLog.foodEntries log)
              (DailyLog.isRefeedDay log) (DailyLog.effectiveCaloriesGoal log)
              (DailyLog.effectiveMacrosGoal log) v.

Definition set_goals (v : MacroNutrients.t) (log : DailyLog.t) : DailyLog.t :=
  DailyLog.mk (DailyLog.date log) (DailyLog.foodEntries log)
              (DailyLog.isRefeedDay log) (MacroNutrients.calories v) v
              (DailyLog.totals log).

(** [field !== undefined], and the truthiness of an optional object. *)
Definition present {A : Type} (o : option A) : bool :=
  match o with Some _ => true | None => false end.

(** [log => log.date === date] *)
Definition onDate (date : string) (log : DailyLog.t) : bool :=
  String.eqb (DailyLog.date log) date.

(** [logs.findIndex(p)]; [None] stands for -1. *)
Fixpoint findIndex {A : Type} (p : A -> bool) (l : list A) : option nat :=
  match l with
  | [] => None
  | x :: r => if p x then Some 0%nat else option_map S (findIndex p r)
  end.

(** The log that replaces an existing one.  An array is truthy, so
    [updates.foodEntries] is truthy whenever it is present, and the fallback
    of [updatedLog.foodEntries || ..] is never taken. *)
Definition updatedLogOf (existing : DailyLog.t) (updates : Updates.t)
  : DailyLog.t :=
  let updatedLog := spread existing updates in
  if present (Updates.foodEntries updates) || present (Updates.totals updates)
  then set_totals (sumFoodEntryMacros (DailyLog.foodEntries updatedLog)) updatedLog
  else updatedLog.

(** The log that is appended for a date without one. *)
Definition newLogOf (userProfile : option UserProfile.t) (date : string)
           (updates : Updates.t) : DailyLog.t :=
  let baseGoals :=
    determineEffectiveGoals userProfile
      (default false (Updates.isRefeedDay updates)) in
  let newLog :=
    spread {| DailyLog.date := date;
              DailyLog.foodEntries := [];
              DailyLog.isRefeedDay := false;
              DailyLog.effectiveCaloriesGoal := MacroNutrients.calories baseGoals;
              DailyLog.effectiveMacrosGoal := baseGoals;
              DailyLog.totals := zeroMacros |}
           updates in
  let newLog :=
    match DailyLog.foodEntries newLog with
    | [] => newLog
    | _ :: _ =>
        set_totals (sumFoodEntryMacros (DailyLog.foodEntries newLog)) newLog
    end in
  match Updates.isRefeedDay updates with
  | Some isRefeedDay =>
      set_goals (determineEffectiveGoals userProfile isRefeedDay) newLog
  | None => newLog
  end.

(** The state update of [updateDailyLog(date, updates)]. *)
Definition updateDailyLog (userProfile : option UserProfile.t) (date : string)
           (updates : Updates.t) (prevLogs : list DailyLog.t)
  : list DailyLog.t :=
  match findIndex (onDate date) prevLogs with
  | Some existingLogIndex =>
      match prevLogs !! existingLogIndex with
      | Some existing =>
          <[existingLogIndex := updatedLogOf existing updates]> prevLogs
      | None => prevLogs
      end
  | None =>
      match userProfile with
      | Some _ => prevLogs ++ [newLogOf userProfile date updates]
      | None => prevLogs
      end
  end.

(** [a !== b] on numbers *)
Definition differ (a b : Q) : bool := negb (Qeq_bool a b).

(** [JSON.stringify(a) !== JSON.stringify(b)] on two macro records: every
    writer of these records lists the keys in the same order, so the texts
    differ exactly when one of the four numbers differs. *)
Definition stringifyDiffer (a b : MacroNutrients.t) : bool :=
  differ (MacroNutrients.calories a) (MacroNutrients.calories b)
  || differ (MacroNutrients.protein a) (MacroNutrients.protein b)
  || differ (MacroNutrients.carbs a) (MacroNutrients.carbs b)
  || differ (MacroNutrients.fat a) (MacroNutrients.fat b).

(** The effect that runs on every change of the selected date, the profile
    or the logs (lines 102-131): the logs it leaves behind. *)
Definition reconcileEffect (userProfile : option UserProfile.t)
           (selectedDate : string) (dailyLogs : list DailyLog.t)
  : list DailyLog.t :=
  match userProfile with
  | None => dailyLogs
  | Some _ =>
      match List.find (onDate selectedDate) dailyLogs with
      | None =>
          let effectiveGoals := determineEffectiveGoals userProfile false in
          let modifications :=
            {| Updates.date := None;
               Updates.foodEntries := Some [];
               Updates.isRefeedDay := Some false;
               Updates.effectiveCaloriesGoal :=
                 Some (MacroNutrients.calories effectiveGoals);
               Updates.effectiveMacrosGoal := Some effectiveGoals;
               Updates.totals := Some zeroMacros |} in
          updateDailyLog userProfile selectedDate modifications dailyLogs
      | Some logForSelectedDate =>
          let expectedEffectiveGoals :=
            determineEffectiveGoals userProfile
              (DailyLog.isRefeedDay logForSelectedDate) in
          let goalsStale :=
            differ (DailyLog.effectiveCaloriesGoal logForSelectedDate)
                   (MacroNutrients.calories expectedEffectiveGoals)
            || stringifyDiffer (DailyLog.effectiveMacrosGoal logForSelectedDate)
                               expectedEffectiveGoals in
          let calculatedTotals :=
            sumFoodEntryMacros (DailyLog.foodEntries logForSelectedDate) in
          let totalsStale :=
            stringifyDiffer (DailyLog.totals logForSelectedDate) calculatedTotals in
          let modifications :=
            {| Updates.date := None;
               Updates.foodEntries := None;
               Updates.isRefeedDay := None;
               Updates.effectiveCaloriesGoal :=
                 if goalsStale
                 then Some (MacroNutrients.calories expectedEffectiveGoals)
                 else None;
               Updates.effectiveMacrosGoal :=
                 if goalsStale then Some expectedEffectiveGoals else None;
               Updates.totals :=
                 if totalsStale then Some calculatedTotals else None |} in
          if hasKeys modifications
          then updateDailyLog userProfile selectedDate modifications dailyLogs
          else dailyLogs
      end
  end.

Definition toggleRefeedDay (userProfile : option UserProfile.t)
           (selectedDate : string) (dailyLogs : list DailyLog.t)
  : list DailyLog.t :=
  match userProfile with
  | None => dailyLogs
  | Some profile =>
      if negb (DietaryPreferences.interestedInRefeedDays
                 (UserProfile.dietaryPreferences profile))
      then dailyLogs
      else
        let log := List.find (onDate selectedDate) dailyLogs in
        let newIsRefeedDay :=
          negb (match log with
                | Some l => DailyLog.isRefeedDay l
                | None => false
                end) in
        let newEffectiveGoals :=
          determineEffectiveGoals userProfile newIsRefeedDay in
        updateDailyLog userProfile selectedDate
          {| Updates.date := None;
             Updates.foodEntries := None;
             Updates.isRefeedDay := Some newIsRefeedDay;
             Updates.effectiveCaloriesGoal :=
               Some (MacroNutrients.calories newEffectiveGoals);
             Updates.effectiveMacrosGoal := Some newEffectiveGoals;
             Updates.totals := None |}
          dailyLogs
  end.

(** [{ foodEntries: entries }] *)
Definition entriesUpdate (entries : list FoodEntry.t) : Updates.t :=
  Updates.mk None (Some entries) None None None None.

(** What [handleDeleteFoodEntry] does once the deletion is confirmed. *)
Definition handleDeleteFoodEntry (userProfile : option UserProfile.t)
           (selectedDate : string) (entryId : string)
           (dailyLogs : list DailyLog.t) : list DailyLog.t :=
  match List.find (onDate selectedDate) dailyLogs with
  | None => dailyLogs
  | Some log =>
      let updatedEntries :=
        List.filter (fun entry => negb (String.eqb (FoodEntry.id entry) entryId))
                    (DailyLog.foodEntries log) in
      updateDailyLog userProfile selectedDate (entriesUpdate updatedEntries)
                     dailyLogs
  end.

(** [{...entry, ...entryDataToSave, loggedAt: entry.loggedAt}] *)
Definition overwriteEntry (entry : FoodEntry.t) (data : EntryForm.t)
  : FoodEntry.t :=
  {| FoodEntry.id := FoodEntry.id entry;
     FoodEntry.name := EntryForm.name data;
     FoodEntry.calories := EntryForm.calories data;
     FoodEntry.protein := EntryForm.protein data;
     FoodEntry.carbs := EntryForm.carbs data;
     FoodEntry.fat := EntryForm.fat data;
     FoodEntry.servingSize := EntryForm.servingSize data;
     FoodEntry.quantity := EntryForm.quantity data;
     FoodEntry.loggedAt := FoodEntry.loggedAt entry;
     FoodEntry.mealTime := EntryForm.mealTime data |}.

(** [{...entryDataToSave, id: .., loggedAt: ..}] *)
Definition newEntryOf (data : EntryForm.t) (id loggedAt : string)
  : FoodEntry.t :=
  {| FoodEntry.id := id;
     FoodEntry.name := EntryForm.name data;
     FoodEntry.calories := EntryForm.calories data;
     FoodEntry.protein := EntryForm.protein data;
     FoodEntry.carbs := EntryForm.carbs data;
     FoodEntry.fat := EntryForm.fat data;
     FoodEntry.servingSize := EntryForm.servingSize data;
     FoodEntry.quantity := EntryForm.quantity data;
     FoodEntry.loggedAt := loggedAt;
     FoodEntry.mealTime := EntryForm.mealTime data |}.

(** [handleAddOrUpdateFoodEntry]; [uuid] is what [crypto.randomUUID()]
    returns and [now] the text of the current instant.  An empty
    [editingEntryId] is falsy, like [null]. *)
Definition handleAddOrUpdateFoodEntry (userProfile : option UserProfile.t)
           (selectedDate : string) (currentFoodEntry : EntryForm.t)
           (selectedMealTime : string) (editingEntryId : option string)
           (uuid now : string) (dailyLogs : list DailyLog.t)
  : list DailyLog.t :=
  match userProfile with
  | None => dailyLogs
  | Some _ =>
      let logForDay := List.find (onDate selectedDate) dailyLogs in
      let entries :=
        match logForDay with
        | Some l => DailyLog.foodEntries l
        | None => []
        end in
      let entryDataToSave :=
        {| EntryForm.name := EntryForm.name currentFoodEntry;
           EntryForm.calories := EntryForm.calories currentFoodEntry;
           EntryForm.protein := EntryForm.protein currentFoodEntry;
           EntryForm.carbs := EntryForm.carbs currentFoodEntry;
           EntryForm.fat := EntryForm.fat currentFoodEntry;
           EntryForm.servingSize := EntryForm.servingSize currentFoodEntry;
           EntryForm.quantity := EntryForm.quantity currentFoodEntry;
           EntryForm.mealTime := selectedMealTime |} in
      let editing :=
        match editingEntryId with
        | Some id => if String.eqb id "" then None else Some id
        | None => None
        end in
      let newFoodEntries :=
        match editing with
        | Some id =>
            List.map (fun entry =>
                        if String.eqb (FoodEntry.id entry) id
                        then overwriteEntry entry entryDataToSave
                        else entry)
                     entries
        | None => entries ++ [newEntryOf entryDataToSave uuid now]
        end in
      updateDailyLog userProfile selectedDate (entriesUpdate newFoodEntries)
                     dailyLogs
  end.

(** [calculateProgress(consumed, goal)] *)
Definition calculateProgress (consumed goal : Q) : Q :=
  if gt goal 0 then Math_min 100 ((consumed / goal) * 100) else 0.

End DailyLogs.

(* ================================================================== *)
(** ** components/IFTimerDisplay.tsx: the display effect and the controls *)
(* ================================================================== *)

Module TimerView.

Import JS Constants IFProtocol FastingTimerState IFTimerDisplay.
Local Open Scope Z_scope.

(** The non-null assertion [protocol.fastingHours!] (or [eatingHours!]) of
    the paused branch: the hours of the current phase as they are. *)
Definition phaseHours (timerState : FastingTimerState.t) : option Z :=
  match currentPhase timerState with
  | FASTING => fastingHours (protocol timerState)
  | EATING => eatingHours (protocol timerState)
  end.

(** The flip of the phase with its two readings of the clock told apart:
    [started] is what [new Date()] reads on line 32, [later] what
    [Date.now()] reads on line 33. *)
Definition flipPhaseAt (started later : Z) (prev : FastingTimerState.t)
  : FastingTimerState.t :=
  let newPhase :=
    match currentPhase prev with FASTING => EATING | EATING => FASTING end in
  let phaseDurationHours :=
    match newPhase with
    | FASTING => or_int (fastingHours (protocol prev)) 0
    | EATING => or_int (eatingHours (protocol prev)) 0
    end in
  let phaseDurationMs := phaseDurationHours * 60 * 60 * 1000 in
  let newStartTime := started in
  let newEndTime := later + phaseDurationMs in
  {| status := status prev;
     currentPhase := newPhase;
     startTime := Some newStartTime;
     endTime := Some newEndTime;
     phaseStartTime := Some newStartTime;
     pausedDurationMs := 0;
     lastPauseTime := lastPauseTime prev;
     protocol := protocol prev |}.

(** One sampling of the clock with its three readings: [now] on line 23
    and, when the phase has run out, the two readings of the flip. *)
Definition calculateRemainingTimeAt (now started later : Z)
           (timerState : FastingTimerState.t)
  : string * FastingTimerState.t :=
  match status timerState, endTime timerState with
  | ACTIVE, Some end_ =>
      let diff := end_ - now in
      if diff <=? 0
      then ("00:00:00"%string, flipPhaseAt started later timerState)
      else (formatRemaining diff, timerState)
  | _, _ => ("00:00:00"%string, timerState)
  end.

(** The effect that sets the displayed time (lines 57-83): the text it
    sets at once and the timer state it leaves; [now], [started] and
    [later] are the readings of the clock a sampling takes.  The paused
    branch reads no clock.  Missing hours make its arithmetic [NaN], which
    is displayed as such. *)
Definition remainingTimeEffect (now started later : Z)
           (timerState : FastingTimerState.t)
  : string * FastingTimerState.t :=
  match status timerState with
  | ACTIVE => calculateRemainingTimeAt now started later timerState
  | PAUSED =>
      match endTime timerState, lastPauseTime timerState,
            phaseStartTime timerState with
      | Some _, Some lastPause, Some phaseStartTimeMs =>
          match phaseHours timerState with
          | Some hours =>
              let originalDurationMs := hours * 60 * 60 * 1000 in
              let intendedEndTimeWithoutPauses :=
                phaseStartTimeMs + originalDurationMs in
              let currentTime := lastPause in
              let diff :=
                (intendedEndTimeWithoutPauses + pausedDurationMs timerState)
                - currentTime in
              let diff := if diff <? 0 then 0 else diff in
              (formatRemaining diff, timerState)
          | None => ("NaN:NaN:NaN"%string, timerState)
          end
      | _, _, _ => ("00:00:00"%string, timerState)
      end
  | NOT_ACTIVE => ("00:00:00"%string, timerState)
  end.

(** The three numbers [calculateRemainingTime] prints (lines 47-51). *)
Definition remainingParts (diff : Z) : Z * Z * Z :=
  let hours := diff / (1000 * 60 * 60) in
  let diff := diff - hours * (1000 * 60 * 60) in
  let minutes := diff / (1000 * 60) in
  let diff := diff - minutes * (1000 * 60) in
  let seconds := diff / 1000 in
  (hours, minutes, seconds).

Definition isTimerControlsDisabled (timerState : FastingTimerState.t) : bool :=
  match status timerState with
  | ACTIVE | PAUSED => true
  | NOT_ACTIVE => false
  end.

(** What the rendered card lets happen in a state: the start button is
    there only for a timer that is not active, the pause and end buttons
    only for one that is; the protocol picker and the custom-hours inputs
    are disabled while the timer runs or is paused, and the inputs are
    rendered only for a Custom protocol; the clock is sampled only while
    the timer is Active. *)
Definition offered (a : action) (timerState : FastingTimerState.t) : bool :=
  match a with
  | StartFast _ _ =>
      match status timerState with NOT_ACTIVE => true | _ => false end
  | PauseResumeFast _ | EndFast _ =>
      match status timerState with NOT_ACTIVE => false | _ => true end
  | ProtocolChange _ _ => negb (isTimerControlsDisabled timerState)
  | CustomHoursChange _ _ _ =>
      negb (isTimerControlsDisabled timerState)
      && match type (protocol timerState) with CUSTOM => true | _ => false end
  | Sample _ =>
      match status timerState with ACTIVE => true | _ => false end
  | Reset _ => true
  end.

(** The instant at which an action reads the clock. *)
Definition instant (a : action) : option Z :=
  match a with
  | StartFast _ now | PauseResumeFast now | Sample now => Some now
  | _ => None
  end.

(** [reaches t s]: with a clock that never runs backwards and now shows
    [t], the card can have brought the timer into state [s].  A handler
    reads the clock once; a sampling reads it up to three times, and the
    clock may move between the readings. *)
Inductive reaches : Z -> FastingTimerState.t -> Prop :=
| reaches_initial (protocol : option IFProtocol.t) (t : Z) :
    reaches t (INITIAL_FASTING_TIMER_STATE protocol)
| reaches_later (t t' : Z) (s : FastingTimerState.t) :
    reaches t s -> t <= t' -> reaches t' s
| reaches_step (t : Z) (s : FastingTimerState.t) (a : action) :
    reaches t s -> offered a s = true ->
    (forall now, instant a = Some now -> now = t) ->
    reaches t (step a s)
| reaches_sample (t started later : Z) (s : FastingTimerState.t) :
    reaches t s -> status s = ACTIVE -> t <= started -> started <= later ->
    reaches later (snd (calculateRemainingTimeAt t started later s)).

(** By how much the stored end of the phase lies after the start of the
    phase plus its hours plus the time spent paused. *)
Definition skew (s : FastingTimerState.t) : option Z :=
  match endTime s, phaseStartTime s with
  | Some e, Some ps =>
      Some (e - (ps + or_int (phaseHours s) 0 * 3600000 + pausedDurationMs s))
  | _, _ => None
  end.

(** The flip of the phase, [n] times over. *)
Fixpoint flips (n : nat) (phase : FastingPhase) : FastingPhase :=
  match n with
  | O => phase
  | S n => flips n (match phase with FASTING => EATING | EATING => FASTING end)
  end.

(** The instants of a run of samples: none before [t], none before the one
    in front of it. *)
Fixpoint inOrderFrom (t : Z) (instants : list Z) : bool :=
  match instants with
  | [] => true
  | now :: rest => (t <=? now) && inOrderFrom now rest
  end.

(** What holds of the timer whenever the card is at rest, the clock
    showing [t]: a timer that is not active has no pause time; a running or
    paused timer has its end no earlier than the start of the phase plus
    the hours of the phase plus the time spent paused, which is not
    negative; the pause time is set exactly while the timer is paused, and
    no instant lies in the future. *)
Definition timerInvariant (t : Z) (s : FastingTimerState.t) : Prop :=
  match status s with
  | NOT_ACTIVE => lastPauseTime s = None /\ 0 <= pausedDurationMs s
  | ACTIVE =>
      lastPauseTime s = None /\
      exists e ps,
        endTime s = Some e /\ phaseStartTime s = Some ps /\
        ps + or_int (phaseHours s) 0 * 3600000 + pausedDurationMs s <= e /\
        0 <= pausedDurationMs s /\ ps <= t
  | PAUSED =>
      exists e ps lp,
        endTime s = Some e /\ phaseStartTime s = Some ps /\
        lastPauseTime s = Some lp /\
        ps + or_int (phaseHours s) 0 * 3600000 + pausedDurationMs s <= e /\
        0 <= pausedDurationMs s /\ ps <= lp /\ lp <= t
  end.

End TimerView.

(* ================================================================== *)
(** ** App.tsx: keeping the timer in step with the profile *)
(* ================================================================== *)

Module App.

Import JS Constants IFProtocol FastingTimerState.

Definition sameHours (a b : option Z) : bool :=
  match a, b with
  | Some x, Some y => (x =? y)%Z
  | None, None => true
  | _, _ => false
  end.

Definition sameType (a b : IFProtocolType) : bool :=
  match a, b with
  | SIXTEEN_EIGHT, SIXTEEN_EIGHT | EIGHTEEN_SIX, EIGHTEEN_SIX
  | CUSTOM, CUSTOM => true
  | _, _ => false
  end.

(** [JSON.stringify(a) === JSON.stringify(b)] on two protocols; every
    writer of a protocol lists the keys in the order type, fastingHours,
    eatingHours, and a missing field is left out of the text. *)
Definition sameJson (a b : IFProtocol.t) : bool :=
  sameType (type a) (type b)
  && sameHours (fastingHours a) (fastingHours b)
  && sameHours (eatingHours a) (eatingHours b).

(** The effect of lines 32-41: the timer state it leaves. *)
Definition timerEffect (userProfile : option UserProfile.t)
           (fastingTimerState : FastingTimerState.t) : FastingTimerState.t :=
  match userProfile with
  | None => fastingTimerState
  | Some profile =>
      let prefs := UserProfile.dietaryPreferences profile in
      if DietaryPreferences.interestedInIF prefs then
        match status fastingTimerState with
        | NOT_ACTIVE =>
            if negb (sameJson (protocol fastingTimerState)
                              (DietaryPreferences.ifProtocol prefs))
            then INITIAL_FASTING_TIMER_STATE
                   (Some (DietaryPreferences.ifProtocol prefs))
            else fastingTimerState
        | _ => fastingTimerState
        end
      else
        match status fastingTimerState with
        | NOT_ACTIVE => fastingTimerState
        | _ => INITIAL_FASTING_TIMER_STATE
                 (Some (DEFAULT_IF_PROTOCOLS SIXTEEN_EIGHT))
        end
  end.

End App.

(* ================================================================== *)
(** ** components/IFTimerDisplay.tsx: the custom-hours inputs *)
(* ================================================================== *)

Module CustomHoursView.

Import JS Constants IFProtocol FastingTimerState IFTimerDisplay.
Local Open Scope Z_scope.

(** [n.toString()] for an integer [n] (below 10^21 in size, where the text
    of a number is its sign and its decimal digits). *)
Definition toString (n : Z) : string :=
  if n <? 0 then String "-"%char (String_of (- n)) else String_of n.

(** The values the component's own state starts with (lines 16-17). *)
Definition initialCustomHours (timerState : FastingTimerState.t) : CustomHours :=
  {| customFastingHours := or_int (fastingHours (protocol timerState)) 16;
     customEatingHours := or_int (eatingHours (protocol timerState)) 8 |}.

(** The effect of lines 85-90, run when the protocol of the timer or the
    profile has changed: the component's own state it leaves. *)
Definition customHoursEffect (userProfile : option UserProfile.t)
           (timerState : FastingTimerState.t) (custom : CustomHours)
  : CustomHours :=
  match type (protocol timerState), userProfile with
  | CUSTOM, Some profile =>
      match type (DietaryPreferences.ifProtocol
                    (UserProfile.dietaryPreferences profile)) with
      | CUSTOM =>
          {| customFastingHours :=
               or_int (fastingHours (protocol timerState)) 16;
             customEatingHours :=
               or_int (eatingHours (protocol timerState)) 8 |}
      | _ => custom
      end
  | _, _ => custom
  end.

(** The number behind the input [name], and the hours of the protocol the
    input edits. *)
Definition hoursOf (name : CustomHoursName) (custom : CustomHours) : Z :=
  match name with
  | customFastingHoursName => customFastingHours custom
  | customEatingHoursName => customEatingHours custom
  end.

Definition storedHours (name : CustomHoursName) (p : IFProtocol.t) : option Z :=
  match name with
  | customFastingHoursName => fastingHours p
  | customEatingHoursName => eatingHours p
  end.

(** The text in the input [name] (lines 205-206). *)
Definition displayed (name : CustomHoursName) (custom : CustomHours) : string :=
  toString (hoursOf name custom).

(** What the effect puts in place of hours that are zero or missing. *)
Definition fallbackHours (name : CustomHoursName) : Z :=
  match name with
  | customFastingHoursName => 16
  | customEatingHoursName => 8
  end.

(** A profile with fasting enabled and the given protocol. *)
Definition profileWith (protocol : IFProtocol.t) : UserProfile.t :=
  {| UserProfile.personalDetails := PersonalDetails.mk 30 "Male" 175 70;
     UserProfile.activityLevel :=
       "Moderately active (moderate exercise/sports 3-5 days/week)";
     UserProfile.goals :=
       UserGoals.mk 70 "2026-01-31" "General fitness and health improvement.";
     UserProfile.dietaryPreferences := DietaryPreferences.mk true protocol false;
     UserProfile.calculatedNutrition := CalculatedNutrition.mk 1649 2556;
     UserProfile.targetMacros := DEFAULT_INITIAL_MACROS;
     UserProfile.quizCompleted := true |}.

End CustomHoursView.

(* ================================================================== *)
(** ** Property access on an object literal *)
(* ================================================================== *)

Module JSObject.

(** The properties an object literal inherits from [Object.prototype]:
    those of ECMAScript, Annex B included.  Each of them holds a function
    (or, for [__proto__], the prototype object). *)
Definition Object_prototype : list string :=
  ["constructor"; "hasOwnProperty"; "isPrototypeOf"; "propertyIsEnumerable";
   "toLocaleString"; "toString"; "valueOf"; "__proto__";
   "__defineGetter__"; "__defineSetter__"; "__lookupGetter__";
   "__lookupSetter__"]%string.

Definition inherited (key : string) : bool :=
  existsb (String.eqb key) Object_prototype.

(** What [object[key]] finds: an own property, an inherited one, or
    nothing ([undefined]). *)
Inductive property (A : Type) : Type :=
| Own (value : A)
| Inherited
| Undefined.
Arguments Own {A} value.
Arguments Inherited {A}.
Arguments Undefined {A}.

(** [object[key]] for an object literal with the own properties [own]. *)
Definition get {A : Type} (own : gmap string A) (key : string) : property A :=
  match own !! key with
  | Some value => Own value
  | None => if inherited key then Inherited else Undefined
  end.

End JSObject.

(* ================================================================== *)
(** ** The calculator on binary64 numbers *)
(* ================================================================== *)

(** The functions whose results depend on the rounding of the floating
    point operations, with a [number] as the IEEE 754 binary64 value it is:
    the operations are those of the hardware, [NaN] and the infinities are
    values like the others, and a table lookup finds inherited properties
    too. *)
Module Double.

Import Floats JSObject.
Local Open Scope float_scope.

(** The float that holds the integer [n], for [|n| <= 2^53]. *)
Definition of_int (n : Z) : float :=
  if (n <? 0)%Z then - of_uint63 (Uint63.of_Z (- n))
  else of_uint63 (Uint63.of_Z n).

(** [Math.round x]: [x] itself when it is not finite or is an integer;
    otherwise the integer nearest to [x], ties towards +infinity, computed
    on the exact value [m * 2^e] of [x]; a result of zero keeps the sign of
    [x]. *)
Definition Math_round (x : float) : float :=
  match Prim2SF x with
  | S754_finite s m e =>
      if (0 <=? e)%Z then x
      else
        let twice := ((if s then Z.neg m else Z.pos m) * 2)%Z in
        let n := ((twice + 2 ^ (- e)) / 2 ^ (1 - e))%Z in
        if (n =? 0)%Z then (if s then -0 else 0) else of_int n
  | _ => x
  end.

(** [!x] on a number: zero and [NaN] are falsy. *)
Definition falsy (x : float) : bool := (x =? 0) || negb (x =? x).

Module PersonalDetails.
Record t := mk {
  age : float;
  sex : string;
  heightCm : float;
  currentWeightKg : float
}.
End PersonalDetails.

Module CalculatedNutrition.
Record t := mk { bmr : float; tdee : float }.
End CalculatedNutrition.

Module MacroNutrients.
Record t := mk {
  protein : float;
  carbs : float;
  fat : float;
  calories : float
}.
End MacroNutrients.

Module UserGoals.
Record t := mk {
  targetWeightKg : float;
  targetDate : string;
  planDescription : string
}.
End UserGoals.

Module UserProfile.
Record t := mk {
  personalDetails : PersonalDetails.t;
  activityLevel : string;
  goals : UserGoals.t;
  dietaryPreferences : DietaryPreferences.t;
  calculatedNutrition : CalculatedNutrition.t;
  targetMacros : MacroNutrients.t;
  quizCompleted : bool
}.
End UserProfile.

Module Coeffs.
Record t := mk { weight : float; height : float; age : float; constant : float }.
End Coeffs.

Definition MIFFLIN_ST_JEOR_COEFFICIENTS : gmap string Coeffs.t :=
  <[ "Male"%string := Coeffs.mk 10 6.25 5 5 ]>
    (<[ "Female"%string := Coeffs.mk 10 6.25 5 (-161) ]> ∅).

Definition ACTIVITY_LEVEL_MULTIPLIERS : gmap string float :=
  <[ "Sedentary (little or no exercise)"%string := 1.2 ]>
 (<[ "Lightly active (light exercise/sports 1-3 days/week)"%string := 1.375 ]>
 (<[ "Moderately active (moderate exercise/sports 3-5 days/week)"%string := 1.55 ]>
 (<[ "Very active (hard exercise/sports 6-7 days a week)"%string := 1.725 ]>
 (<[ "Extra active (very hard exercise/sports & physical job)"%string := 1.9 ]>
    ∅)))).

Definition DEFAULT_INITIAL_MACROS : MacroNutrients.t :=
  {| MacroNutrients.calories := 2000;
     MacroNutrients.protein := 150;
     MacroNutrients.carbs := 200;
     MacroNutrients.fat := 67 |}.

(** [calculateBMR] (lines 4-15).  An inherited property is an object or a
    function: it is truthy, so nothing is thrown, and its [weight],
    [height], [age] and [constant] are [undefined], so the sum is [NaN]. *)
Definition calculateBMR (details : PersonalDetails.t) : JS.result float :=
  let age := PersonalDetails.age details in
  let sex := PersonalDetails.sex details in
  let heightCm := PersonalDetails.heightCm details in
  let currentWeightKg := PersonalDetails.currentWeightKg details in
  match get MIFFLIN_ST_JEOR_COEFFICIENTS sex with
  | Undefined => JS.Throw "Invalid sex provided for BMR calculation."
  | Inherited => JS.Ok nan
  | Own coeffs =>
      let bmr := (Coeffs.weight coeffs * currentWeightKg)
                 + (Coeffs.height coeffs * heightCm)
                 - (Coeffs.age coeffs * age)
                 + Coeffs.constant coeffs in
      JS.Ok (Math_round bmr)
  end.

(** [calculateTDEE] (lines 17-21).  The product of a number and an
    inherited property is [NaN]. *)
Definition calculateTDEE (bmr : float) (activityLevel : string)
  : JS.result float :=
  match get ACTIVITY_LEVEL_MULTIPLIERS activityLevel with
  | Undefined => JS.Throw "Invalid activity level provided for TDEE calculation."
  | Inherited => JS.Ok nan
  | Own multiplier =>
      if falsy multiplier
      then JS.Throw "Invalid activity level provided for TDEE calculation."
      else JS.Ok (Math_round (bmr * multiplier))
  end.

(** The multipliers of the table. *)
Definition multipliers : list float := [1.2; 1.375; 1.55; 1.725; 1.9].

(** The TDEE of a BMR of [n] kcal lies between the BMR and
    [round (n * 1.9)], for every multiplier of the table. *)
Definition tdeeInRange (n : nat) : bool :=
  let bmr := of_int (Z.of_nat n) in
  let highest := Math_round (bmr * 1.9) in
  forallb (fun multiplier =>
             let tdee := Math_round (bmr * multiplier) in
             (bmr <=? tdee) && (tdee <=? highest))
          multipliers.

(** [determineEffectiveGoals] of [FoodLogger] (lines 52-65). *)
Definition determineEffectiveGoals (userProfile : option UserProfile.t)
           (isRefeed : bool) : MacroNutrients.t :=
  match userProfile with
  | None => DEFAULT_INITIAL_MACROS
  | Some userProfile =>
      let targetMacros := UserProfile.targetMacros userProfile in
      if isRefeed
         && DietaryPreferences.interestedInRefeedDays
              (UserProfile.dietaryPreferences userProfile)
      then
        let refeedCalories :=
          Math_round (CalculatedNutrition.tdee
                        (UserProfile.calculatedNutrition userProfile) * 1.15) in
        let calorieRatio :=
          if 0 <? MacroNutrients.calories targetMacros
          then refeedCalories / MacroNutrients.calories targetMacros
          else 1 in
        {| MacroNutrients.calories := refeedCalories;
           MacroNutrients.protein :=
             Math_round (MacroNutrients.protein targetMacros * calorieRatio);
           MacroNutrients.carbs :=
             Math_round (MacroNutrients.carbs targetMacros * calorieRatio);
           MacroNutrients.fat :=
             Math_round (MacroNutrients.fat targetMacros * calorieRatio) |}
      else targetMacros
  end.

(** [effectiveGoals(isRefeedDay, targetMacros, tdee, refeedEnabled)] in
    the words of the specification: the ratio is 1 if the target calories
    are 0. *)
Definition effectiveGoals (isRefeedDay : bool) (targetMacros : MacroNutrients.t)
           (tdee : float) (refeedEnabled : bool) : MacroNutrients.t :=
  if isRefeedDay && refeedEnabled then
    let refeedCalories := Math_round (tdee * 1.15) in
    let ratio :=
      if MacroNutrients.calories targetMacros =? 0 then 1
      else refeedCalories / MacroNutrients.calories targetMacros in
    {| MacroNutrients.calories := refeedCalories;
       MacroNutrients.protein :=
         Math_round (MacroNutrients.protein targetMacros * ratio);
       MacroNutrients.carbs :=
         Math_round (MacroNutrients.carbs targetMacros * ratio);
       MacroNutrients.fat :=
         Math_round (MacroNutrients.fat targetMacros * ratio) |}
  else targetMacros.

(** A profile with the given target macros, TDEE and refeed preference. *)
Definition profile (targetMacros : MacroNutrients.t) (tdee : float)
           (refeed : bool) : UserProfile.t :=
  {| UserProfile.personalDetails := PersonalDetails.mk 30 "Male" 175 70;
     UserProfile.activityLevel :=
       "Moderately active (moderate exercise/sports 3-5 days/week)";
     UserProfile.goals :=
       UserGoals.mk 70 "2026-01-31" "General fitness and health improvement.";
     UserProfile.dietaryPreferences :=
       DietaryPreferences.mk
         true (Constants.DEFAULT_IF_PROTOCOLS IFProtocol.SIXTEEN_EIGHT) refeed;
     UserProfile.calculatedNutrition := CalculatedNutrition.mk 1649 tdee;
     UserProfile.targetMacros := targetMacros;
     UserProfile.quizCompleted := true |}.

End Double.

(* ================================================================== *)
(** * Properties *)
(* ================================================================== *)

(** ** Numbers *)

Section Numbers.

Import JS.
Local Open Scope Q_scope.

Lemma Math_round_comp (x y : Q) : x == y -> Math_round x = Math_round y.
Proof.
  intros E. unfold Math_round. f_equal.
  apply Qfloor_comp. rewrite E. reflexivity.
Qed.

Lemma Math_round_mono (x y : Q) :
  x <= y -> Math_round x <= Math_round y.
Proof.
  intros L. unfold Math_round.
  rewrite <- Zle_Qle. apply Qfloor_resp_le. lra.
Qed.

(** Rounding leaves an integer where it is. *)
Lemma Math_round_integer (z : Z) : Math_round (inject_Z z) = inject_Z z.
Proof.
  unfold Math_round. f_equal.
  unfold Qplus, Qfloor, inject_Z; cbn [Qnum Qden].
  change (Z.pos (1 * 2)) with 2%Z.
  rewrite Z.mul_1_l.
  rewrite Z.add_comm, Z.div_add by lia. reflexivity.
Qed.

Lemma Math_round_idempotent (x : Q) :
  Math_round (Math_round x) = Math_round x.
Proof. unfold Math_round at 2 3. apply Math_round_integer. Qed.

(** The nearest integer: within one half, the upper one at a tie. *)
Lemma Math_round_nearest (x : Q) :
  x - (1 # 2) < Math_round x /\ Math_round x <= x + (1 # 2).
Proof.
  unfold Math_round. split.
  - pose proof (Qlt_floor (x + (1 # 2))) as H.
    rewrite inject_Z_plus in H. change (inject_Z 1) with 1 in H. lra.
  - apply Qfloor_le.
Qed.

Lemma Math_max_lub (a b : Q) : a <= Math_max a b /\ b <= Math_max a b.
Proof.
  unfold Math_max. destruct (Qle_bool a b) eqn:E.
  - apply Qle_bool_iff in E. split; lra.
  - split; [lra|].
    destruct (Qlt_le_dec a b) as [L|L]; [|exact L].
    assert (Qle_bool a b = true) by (apply Qle_bool_iff; lra). congruence.
Qed.

Lemma lt_spec (a b : Q) : lt a b = true <-> a < b.
Proof.
  unfold lt. rewrite negb_true_iff. split.
  - intros E. apply Qnot_le_lt. intros L.
    apply Qle_bool_iff in L. congruence.
  - intros L. destruct (Qle_bool b a) eqn:E; [|reflexivity].
    apply Qle_bool_iff in E. lra.
Qed.

Lemma lt_false (a b : Q) : lt a b = false <-> b <= a.
Proof.
  unfold lt. rewrite negb_false_iff. apply Qle_bool_iff.
Qed.

Lemma truthy_spec (x : Q) : truthy x = true <-> ~ x == 0.
Proof.
  unfold truthy. rewrite negb_true_iff. split.
  - intros E. apply Qeq_bool_neq. exact E.
  - intros N. destruct (Qeq_bool x 0) eqn:E; [|reflexivity].
    apply Qeq_bool_iff in E. contradiction.
Qed.

(** [x || 0] is [x] whatever [x] is. *)
Lemma or_num_zero (x : Q) : or_num x 0 == x.
Proof.
  unfold or_num, truthy. destruct (Qeq_bool x 0) eqn:E; cbn.
  - apply Qeq_bool_iff in E. symmetry. exact E.
  - reflexivity.
Qed.

(** [x || 1] is [x] except at zero. *)
Lemma or_num_one (x : Q) : ~ x == 0 -> or_num x 1 = x.
Proof.
  intros N. unfold or_num. apply truthy_spec in N. rewrite N. reflexivity.
Qed.

Lemma or_int_zero (h : option Z) : or_int h 0 = default 0%Z h.
Proof.
  destruct h as [v|]; cbn; [|reflexivity].
  destruct (Z.eqb_spec v 0); congruence.
Qed.

End Numbers.

(** ** Energy calculator *)

Section Energy.

Import Floats JSObject Double.
Local Open Scope float_scope.





(** A value of [sex] that names no property at all: the call throws. *)
Example calculateBMR_unrecognised :
  calculateBMR (PersonalDetails.mk 30 "Other" 175 70)
  = JS.Throw "Invalid sex provided for BMR calculation.".
Proof. vm_compute. reflexivity. Qed.

Example calculateBMR_female :
  calculateBMR (PersonalDetails.mk 30 "Female" 165 60) = JS.Ok 1320.
Proof. vm_compute. reflexivity. Qed.

(** The sum is rounded at every operation: 40.3 kg, 150 cm and 18 years
    give a sum just above 1255.5, where the exact sum of these numbers is
    just below it. *)
Example calculateBMR_rounding :
  calculateBMR (PersonalDetails.mk 18 "Male" 150 40.3) = JS.Ok 1256.
Proof. vm_compute. reflexivity. Qed.

(** The calculator chained as the profile forms chain it: BMR, then TDEE
    for a moderately active user. *)
Example energy_pipeline :
  calculateBMR (PersonalDetails.mk 30 "Male" 175 70) = JS.Ok 1649 /\
  calculateTDEE 1649 "Moderately active (moderate exercise/sports 3-5 days/week)"
  = JS.Ok 2556 /\
  calculateTDEE 1649 "Couch" =
    JS.Throw "Invalid activity level provided for TDEE calculation.".
Proof. vm_compute. repeat split. Qed.

Lemma multipliers_get (level : string) :
  match get ACTIVITY_LEVEL_MULTIPLIERS level with
  | Own m => In m multipliers /\ ACTIVITY_LEVEL_MULTIPLIERS !! level = Some m
  | Inherited => ACTIVITY_LEVEL_MULTIPLIERS !! level = None /\ inherited level = true
  | Undefined => ACTIVITY_LEVEL_MULTIPLIERS !! level = None /\ inherited level = false
  end.
Proof.
  unfold get.
  destruct (ACTIVITY_LEVEL_MULTIPLIERS !! level) as [m|] eqn:E.
  - split; [|reflexivity]. revert E. unfold ACTIVITY_LEVEL_MULTIPLIERS.
    rewrite !lookup_insert_Some, lookup_empty. unfold multipliers. cbn.
    intros [[_ <-]|[_ [[_ <-]|[_ [[_ <-]|[_ [[_ <-]|[_ [[_ <-]|[_ H]]]]]]]]]];
      try discriminate H; tauto.
  - destruct (inherited level); split; reflexivity.
Qed.

Lemma multipliers_truthy (m : float) : In m multipliers -> falsy m = false.
Proof.
  unfold multipliers. cbn.
  intros [<-|[<-|[<-|[<-|[<-|[]]]]]]; vm_compute; reflexivity.
Qed.

Lemma tdeeInRange_all : forallb tdeeInRange (seq 0 (Z.to_nat 10001)) = true.
Proof. vm_cast_no_check (eq_refl true). Qed.

(** X1.  [calculateTDEE] throws exactly for an activity level that names no
    property of the multiplier table, own or inherited; for an inherited
    name nothing is thrown and the result is [NaN]; for a key of the table
    the result is [round (bmr * m)] with the key's multiplier [m], the
    product being the binary64 one.  For a BMR that is a whole number of
    kilocalories from 0 to 10000 that result lies between the BMR and
    [round (bmr * 1.9)]. *)
Theorem calculateTDEE_range (bmr : float) (activityLevel : string) :
  ((exists msg, calculateTDEE bmr activityLevel = JS.Throw msg) <->
     ACTIVITY_LEVEL_MULTIPLIERS !! activityLevel = None /\
     inherited activityLevel = false) /\
  (ACTIVITY_LEVEL_MULTIPLIERS !! activityLevel = None ->
   inherited activityLevel = true ->
   calculateTDEE bmr activityLevel = JS.Ok nan) /\
  (forall m, ACTIVITY_LEVEL_MULTIPLIERS !! activityLevel = Some m ->
     calculateTDEE bmr activityLevel = JS.Ok (Math_round (bmr * m)) /\
     forall n : Z, (0 <= n <= 10000)%Z -> bmr = of_int n ->
       (bmr <=? Math_round (bmr * m)) = true /\
       (Math_round (bmr * m) <=? Math_round (bmr * 1.9)) = true).
Proof.
  unfold calculateTDEE.
  pose proof (multipliers_get activityLevel) as G.
  destruct (get ACTIVITY_LEVEL_MULTIPLIERS activityLevel) as [m| |].
  - destruct G as [I L]. rewrite (multipliers_truthy m I), L.
    split; [|split].
    + split; [intros [msg E]; discriminate E | intros [E _]; discriminate E].
    + intros E. discriminate E.
    + intros m' [= <-]. split; [reflexivity|].
      intros n R ->.
      pose proof tdeeInRange_all as A. rewrite forallb_forall in A.
      specialize (A (Z.to_nat n)).
      assert (J : In (Z.to_nat n) (seq 0 (Z.to_nat 10001)))
        by (apply in_seq; lia).
      specialize (A J). unfold tdeeInRange in A. cbv zeta in A.
      rewrite Z2Nat.id in A by lia.
      rewrite forallb_forall in A. specialize (A m I).
      apply andb_true_iff in A. exact A.
  - destruct G as [L I]. rewrite L, I. split; [|split].
    + split; [intros [msg E]; discriminate E | intros [_ E]; discriminate E].
    + reflexivity.
    + intros m E. discriminate E.
  - destruct G as [L I]. rewrite L, I. split; [|split].
    + split; [intros _; split; reflexivity | intros _; eexists; reflexivity].
    + intros _ E. discriminate E.
    + intros m E. discriminate E.
Qed.

Lemma calculateTDEE_range_witness :
  calculateTDEE 1649 "Moderately active (moderate exercise/sports 3-5 days/week)"
  = JS.Ok (Math_round (1649 * 1.55)) /\
  (1649 <=? Math_round (1649 * 1.55)) = true /\
  (Math_round (1649 * 1.55) <=? Math_round (1649 * 1.9)) = true.
Proof.
  destruct (proj2 (proj2 (calculateTDEE_range 1649
    "Moderately active (moderate exercise/sports 3-5 days/week)"))
    1.55 eq_refl) as [E R].
  split; [exact E|]. apply (R 1649%Z); [lia | reflexivity].
Defined.

End Energy.

(** ** Macro planner *)

Section MacroPlanner.

Import JS Constants NutritionCalculator.
Local Open Scope Q_scope.

Lemma targetCalories_floor tdee goals w :
  1200 <= targetCalories tdee goals w.
Proof. unfold targetCalories. apply Math_max_lub. Qed.

(** The adjustment of step 2: 500 off to lose more than a kilogram, 300
    more to gain more than one, nothing in between. *)
Lemma targetCalories_cases tdee goals w :
  let delta := UserGoals.targetWeightKg goals - w in
  (delta < -1 /\ targetCalories tdee goals w = Math_max 1200 (tdee - 500)) \/
  (1 < delta /\ targetCalories tdee goals w = Math_max 1200 (tdee + 300)) \/
  (-1 <= delta <= 1 /\ targetCalories tdee goals w = Math_max 1200 tdee).
Proof.
  cbv zeta. unfold targetCalories, gt.
  destruct (lt (UserGoals.targetWeightKg goals - w) (-1)) eqn:E1.
  - left. apply lt_spec in E1. split; [exact E1 | reflexivity].
  - apply lt_false in E1.
    destruct (lt 1 (UserGoals.targetWeightKg goals - w)) eqn:E2.
    + right; left. apply lt_spec in E2. split; [exact E2 | reflexivity].
    + right; right. apply lt_false in E2. split; [split; assumption | reflexivity].
Qed.

(** The grams are integers, so the weighted sum of the grams is one too
    and the final rounding does not move it. *)
Lemma macrosOfSplit_calories (c : Q) (split : MacroSplit.t) :
  let m := macrosOfSplit c split in
  MacroNutrients.calories m
  == MacroNutrients.protein m * 4 + MacroNutrients.carbs m * 4
     + MacroNutrients.fat m * 9.
Proof.
  cbv zeta. unfold macrosOfSplit; cbn [MacroNutrients.calories
    MacroNutrients.protein MacroNutrients.carbs MacroNutrients.fat].
  unfold PROTEIN_KCAL_PER_GRAM, CARBS_KCAL_PER_GRAM, FAT_KCAL_PER_GRAM.
  set (p := Qfloor (c * MacroSplit.proteinRatio split / 4 + (1 # 2))).
  set (k := Qfloor (c * MacroSplit.carbRatio split / 4 + (1 # 2))).
  set (f := Qfloor (c * MacroSplit.fatRatio split / 9 + (1 # 2))).
  unfold Math_round at 2 3 4. fold p k f.
  rewrite (Math_round_comp _ (inject_Z (p * 4 + k * 4 + f * 9))).
  - rewrite Math_round_integer.
    rewrite !inject_Z_plus, !inject_Z_mult. reflexivity.
  - rewrite !inject_Z_plus, !inject_Z_mult. reflexivity.
Qed.

(** C3.  The calories [suggestMacros] returns are the rounded weighted sum
    of the grams it returns (4 kcal per gram of protein and of carbs, 9
    per gram of fat), and, the grams being integers, that sum itself. *)
Theorem suggestMacros_calories_consistent
        (tdee : Q) (goals : UserGoals.t) (currentWeightKg : Q) :
  let m := suggestMacros tdee goals currentWeightKg in
  Math_round (MacroNutrients.protein m * 4 + MacroNutrients.carbs m * 4
              + MacroNutrients.fat m * 9)
  = MacroNutrients.calories m /\
  MacroNutrients.calories m
  == MacroNutrients.protein m * 4 + MacroNutrients.carbs m * 4
     + MacroNutrients.fat m * 9.
Proof.
  cbv zeta. split.
  - reflexivity.
  - apply macrosOfSplit_calories.
Qed.

Lemma macrosOfSplit_mono (c1 c2 : Q) (split : MacroSplit.t) :
  0 <= MacroSplit.proteinRatio split ->
  0 <= MacroSplit.carbRatio split ->
  0 <= MacroSplit.fatRatio split ->
  c1 <= c2 ->
  MacroNutrients.calories (macrosOfSplit c1 split)
  <= MacroNutrients.calories (macrosOfSplit c2 split).
Proof.
  intros Hp Hc Hf L.
  unfold macrosOfSplit; cbn [MacroNutrients.calories].
  unfold PROTEIN_KCAL_PER_GRAM, CARBS_KCAL_PER_GRAM, FAT_KCAL_PER_GRAM.
  assert (M : forall r k, 0 <= r -> 0 < k ->
            Math_round (c1 * r / k) <= Math_round (c2 * r / k)).
  { intros r k Hr Hk. apply Math_round_mono.
    unfold Qdiv. apply Qmult_le_compat_r.
    - apply Qmult_le_compat_r; assumption.
    - apply Qlt_le_weak, Qinv_lt_0_compat, Hk. }
  pose proof (M _ 4 Hp eq_refl) as M1.
  pose proof (M _ 4 Hc eq_refl) as M2.
  pose proof (M _ 9 Hf eq_refl) as M3.
  apply Math_round_mono. lra.
Qed.

Lemma selectSplit_cases (d : string) :
  selectSplit d = DEFAULT_MACRO_SPLIT_MUSCLE_GAIN \/
  selectSplit d = DEFAULT_MACRO_SPLIT_KETO \/
  selectSplit d = DEFAULT_MACRO_SPLIT_WEIGHT_LOSS \/
  selectSplit d = DEFAULT_MACRO_SPLIT_GENERAL.
Proof.
  unfold selectSplit.
  destruct (_ || _); [tauto|].
  destruct (_ || _); [tauto|].
  destruct (_ || _); tauto.
Qed.

(** C4, as the code has it.  The floor of 1200 holds for the calorie
    target before the split; the calories returned are recomputed from the
    rounded grams and stay at or above 1200 for the General, Muscle-Gain
    and Weight-Loss splits, and at or above 1197 for the Keto split. *)
Theorem suggestMacros_calorie_floor
        (tdee : Q) (goals : UserGoals.t) (currentWeightKg : Q) :
  let m := suggestMacros tdee goals currentWeightKg in
  1200 <= targetCalories tdee goals currentWeightKg /\
  1197 <= MacroNutrients.calories m /\
  (1200 <= MacroNutrients.calories m \/
   selectSplit (UserGoals.planDescription goals) = DEFAULT_MACRO_SPLIT_KETO).
Proof.
  cbv zeta. unfold suggestMacros.
  pose proof (targetCalories_floor tdee goals currentWeightKg) as F.
  set (c := targetCalories tdee goals currentWeightKg) in *.
  split; [exact F|].
  assert (B : forall split b,
             0 <= MacroSplit.proteinRatio split ->
             0 <= MacroSplit.carbRatio split ->
             0 <= MacroSplit.fatRatio split ->
             b <= MacroNutrients.calories (macrosOfSplit 1200 split) ->
             b <= MacroNutrients.calories (macrosOfSplit c split)).
  { intros split b Hp Hc Hf Hb.
    eapply Qle_trans; [exact Hb|].
    apply macrosOfSplit_mono; assumption. }
  destruct (selectSplit_cases (UserGoals.planDescription goals))
    as [E|[E|[E|E]]]; rewrite E.
  - split; [|left]; apply B; vm_compute; discriminate.
  - split; [|right; reflexivity]. apply B; vm_compute; discriminate.
  - split; [|left]; apply B; vm_compute; discriminate.
  - split; [|left]; apply B; vm_compute; discriminate.
Qed.

(** C4, as stated, fails: a user of 80 kg aiming at 70 kg on a keto plan,
    with a TDEE of 1600, is handed 75 g protein, 15 g carbs and 93 g fat,
    that is 1197 kcal. *)
Lemma suggestMacros_below_1200 :
  let m := suggestMacros 1600 (UserGoals.mk 70 "2026-01-31" "Keto, fat loss") 80 in
  MacroNutrients.protein m = 75 /\ MacroNutrients.carbs m = 15 /\
  MacroNutrients.fat m = 93 /\ MacroNutrients.calories m = 1197 /\
  ~ 1200 <= MacroNutrients.calories m.
Proof.
  vm_compute. repeat split. intros H. apply H. reflexivity.
Qed.

End MacroPlanner.

(** ** Plan descriptions *)

Section PlanDescription.

Import JS Constants NutritionCalculator PlannerSpec.
Local Open Scope Q_scope.

Lemma prefix_app (k s : string) :
  String.prefix k s = true <-> exists post, s = k +:+ post.
Proof.
  revert s. induction k as [|a k IH]; intros s.
  - split; [intros _; exists s; reflexivity|].
    intros _. destruct s; reflexivity.
  - destruct s as [|b s]; cbn.
    + split; [discriminate | intros [post E]; discriminate].
    + destruct (ascii_dec a b) as [->|N].
      * rewrite IH. split; intros [post E]; exists post.
        -- rewrite E. reflexivity.
        -- injection E as E. exact E.
      * split; [discriminate|]. intros [post E]. injection E as E _.
        congruence.
Qed.

(** [includes] finds exactly the occurrences of the key. *)
Lemma includes_occurs (s k : string) :
  includes s k = true <-> exists pre post, s = pre +:+ k +:+ post.
Proof.
  induction s as [|c s IH].
  - cbn [includes]. rewrite orb_false_r, prefix_app. split.
    + intros [post E]. exists EmptyString, post. exact E.
    + intros [pre [post E]]. destruct pre; [|discriminate].
      exists post. exact E.
  - cbn [includes]. rewrite orb_true_iff, prefix_app, IH. split.
    + intros [[post E]|[pre [post E]]].
      * exists EmptyString, post. exact E.
      * exists (String c pre), post. rewrite E. reflexivity.
    + intros [pre [post E]]. destruct pre as [|c' pre].
      * left. exists post. exact E.
      * right. injection E as _ E. exists pre, post. exact E.
Qed.

Lemma toLowerCase_app (a b : string) :
  toLowerCase (a +:+ b) = toLowerCase a +:+ toLowerCase b.
Proof.
  induction a as [|c a IH]; [reflexivity|].
  change (String (lowerChar c) (toLowerCase (a +:+ b))
          = String (lowerChar c) (toLowerCase a +:+ toLowerCase b)).
  f_equal. exact IH.
Qed.

Lemma toLowerCase_split (s a b : string) :
  toLowerCase s = a +:+ b ->
  exists a' b', s = a' +:+ b' /\ toLowerCase a' = a /\ toLowerCase b' = b.
Proof.
  revert s. induction a as [|c a IH]; intros s E.
  - exists EmptyString, s. repeat split. exact E.
  - destruct s as [|c' s]; [discriminate|].
    cbn in E. injection E as Ec E.
    destruct (IH _ E) as [a' [b' [-> [Ea Eb]]]].
    exists (String c' a'), b'. repeat split.
    + cbn. rewrite Ec, Ea. reflexivity.
    + exact Eb.
Qed.

Lemma includes_toLowerCase (d k : string) :
  includes (toLowerCase d) k = true <-> containsIgnoringCase d k.
Proof.
  rewrite includes_occurs. unfold containsIgnoringCase. split.
  - intros [pre [post E]].
    destruct (toLowerCase_split _ _ _ E) as [pre' [r [-> [_ Er]]]].
    destruct (toLowerCase_split _ _ _ Er) as [mid [post' [-> [Em _]]]].
    exists pre', mid, post'. split; [reflexivity | exact Em].
  - intros [pre [mid [post [-> Em]]]].
    exists (toLowerCase pre), (toLowerCase post).
    rewrite !toLowerCase_app, Em. reflexivity.
Qed.

Lemma includes_toLowerCase_false (d k : string) :
  includes (toLowerCase d) k = false <-> ~ containsIgnoringCase d k.
Proof.
  rewrite <- includes_toLowerCase. destruct (includes _ _); split;
    congruence.
Qed.

(** C7.  [suggestMacros] picks its split from the plan description by
    case-insensitive substring match, first match winning: "muscle" or
    "gain" give 0.35/0.45/0.2, else "keto" or "low carb" give
    0.25/0.05/0.7, else "lose weight", "fat loss" or "cut" give
    0.4/0.3/0.3, else 0.3/0.4/0.3; "Lose weight and tone up" gets the
    Weight-Loss split. *)
Theorem selectSplit_precedence (d : string) :
  splitFor d (selectSplit d) /\
  selectSplit "Lose weight and tone up" = MacroSplit.mk 0.4 0.3 0.3 /\
  (forall tdee goals w,
      UserGoals.planDescription goals = d ->
      suggestMacros tdee goals w
      = macrosOfSplit (targetCalories tdee goals w) (selectSplit d)).
Proof.
  split; [|split; [vm_compute; reflexivity | intros ? ? ? <-; reflexivity]].
  unfold selectSplit.
  destruct (includes (toLowerCase d) "muscle") eqn:E1;
    [apply SplitMuscleGain; left; apply includes_toLowerCase, E1|].
  destruct (includes (toLowerCase d) "gain") eqn:E2;
    [apply SplitMuscleGain; right; apply includes_toLowerCase, E2|].
  apply includes_toLowerCase_false in E1, E2.
  assert (N1 : ~ (containsIgnoringCase d "muscle"
                  \/ containsIgnoringCase d "gain")) by tauto.
  cbn [orb].
  destruct (includes (toLowerCase d) "keto") eqn:E3;
    [apply SplitKeto; [exact N1 | left; apply includes_toLowerCase, E3]|].
  destruct (includes (toLowerCase d) "low carb") eqn:E4;
    [apply SplitKeto; [exact N1 | right; apply includes_toLowerCase, E4]|].
  apply includes_toLowerCase_false in E3, E4.
  assert (N2 : ~ (containsIgnoringCase d "keto"
                  \/ containsIgnoringCase d "low carb")) by tauto.
  cbn [orb].
  destruct (includes (toLowerCase d) "lose weight") eqn:E5;
    [apply SplitWeightLoss; [exact N1 | exact N2
                            | left; apply includes_toLowerCase, E5]|].
  destruct (includes (toLowerCase d) "fat loss") eqn:E6;
    [apply SplitWeightLoss; [exact N1 | exact N2
                            | right; left; apply includes_toLowerCase, E6]|].
  destruct (includes (toLowerCase d) "cut") eqn:E7;
    [apply SplitWeightLoss; [exact N1 | exact N2
                            | right; right; apply includes_toLowerCase, E7]|].
  apply includes_toLowerCase_false in E5, E6, E7.
  apply SplitGeneral; tauto.
Qed.

Lemma selectSplit_precedence_witness :
  suggestMacros 2000 (UserGoals.mk 60 "2026-01-31" "Lose weight and tone up") 70
  = macrosOfSplit 1500 (MacroSplit.mk 0.4 0.3 0.3).
Proof.
  rewrite (proj2 (proj2 (selectSplit_precedence "Lose weight and tone up"))
             2000 (UserGoals.mk 60 "2026-01-31" "Lose weight and tone up") 70
             eq_refl).
  vm_compute. reflexivity.
Defined.

(** The rule picks one split only. *)
Lemma splitFor_functional (d : string) (s1 s2 : MacroSplit.t) :
  splitFor d s1 -> splitFor d s2 -> s1 = s2.
Proof.
  intros H1 H2. destruct H1; destruct H2; try reflexivity; tauto.
Qed.

(** Precedence at work: a description that names both muscle and fat
    loss gets the Muscle-Gain split, whatever the case of its letters. *)
Example selectSplit_muscle_first :
  selectSplit "Fat loss, then MUSCLE" = DEFAULT_MACRO_SPLIT_MUSCLE_GAIN /\
  selectSplit "Low Carb to cut" = DEFAULT_MACRO_SPLIT_KETO /\
  selectSplit "Executive wellness" = DEFAULT_MACRO_SPLIT_WEIGHT_LOSS /\
  selectSplit "General fitness and health improvement."
  = DEFAULT_MACRO_SPLIT_GENERAL.
Proof. vm_compute. repeat split. Qed.

End PlanDescription.

(** ** Daily ledger *)

Section Ledger.

Import JS Constants NutritionCalculator FoodLogger LedgerSpec.
Local Open Scope Q_scope.

Lemma weightedSum_cons (qty field : FoodEntry.t -> Q) e entries :
  weightedSum qty field (e :: entries)
  = field e * qty e + weightedSum qty field entries.
Proof. reflexivity. Qed.

Lemma fold_addEntry (entries : list FoodEntry.t) (acc : MacroNutrients.t) :
  sameMacros
    (fold_left addEntry entries acc)
    {| MacroNutrients.calories :=
         MacroNutrients.calories acc
         + weightedSum appliedQuantity FoodEntry.calories entries;
       MacroNutrients.protein :=
         MacroNutrients.protein acc
         + weightedSum appliedQuantity FoodEntry.protein entries;
       MacroNutrients.carbs :=
         MacroNutrients.carbs acc
         + weightedSum appliedQuantity FoodEntry.carbs entries;
       MacroNutrients.fat :=
         MacroNutrients.fat acc
         + weightedSum appliedQuantity FoodEntry.fat entries |}.
Proof.
  revert acc. induction entries as [|e entries IH]; intros acc.
  - unfold sameMacros; cbn -[Qplus Qmult Qeq]. repeat split; ring.
  - cbn [fold_left]. specialize (IH (addEntry acc e)).
    unfold sameMacros in *;
      cbn -[Qplus Qmult Qeq appliedQuantity or_num weightedSum] in *.
    rewrite !weightedSum_cons.
    destruct IH as (Hc & Hp & Hk & Hf).
    rewrite Hc, Hp, Hk, Hf.
    pose proof (or_num_zero (FoodEntry.calories e)) as Zc.
    pose proof (or_num_zero (FoodEntry.protein e)) as Zp.
    pose proof (or_num_zero (FoodEntry.carbs e)) as Zk.
    pose proof (or_num_zero (FoodEntry.fat e)) as Zf.
    rewrite Zc, Zp, Zk, Zf. repeat split; ring.
Qed.

(** What the code computes: every entry weighs in with
    [entry.quantity || 1]. *)
Lemma sumFoodEntryMacros_applied (entries : list FoodEntry.t) :
  sameMacros (sumFoodEntryMacros entries)
             (weightedTotals appliedQuantity entries).
Proof.
  pose proof (fold_addEntry entries zeroMacros) as H.
  unfold sumFoodEntryMacros, sameMacros in *;
    cbn -[Qplus Qmult Qeq appliedQuantity] in *.
  destruct H as (Hc & Hp & Hk & Hf).
  rewrite Hc, Hp, Hk, Hf. repeat split; ring.
Qed.

Lemma weightedSum_ext (q1 q2 field : FoodEntry.t -> Q) entries :
  Forall (fun e => q1 e == q2 e) entries ->
  weightedSum q1 field entries == weightedSum q2 field entries.
Proof.
  induction 1 as [|e entries E _ IH]; [reflexivity|].
  rewrite !weightedSum_cons, E, IH. reflexivity.
Qed.

(** Away from quantity zero the totals are the specified ones; the empty
    list sums to zero. *)
Lemma sumFoodEntryMacros_totals (entries : list FoodEntry.t) :
  Forall (fun e => ~ FoodEntry.quantity e == 0) entries ->
  sameMacros (sumFoodEntryMacros entries) (totals entries).
Proof.
  intros N.
  assert (E : Forall (fun e => appliedQuantity e == FoodEntry.quantity e) entries).
  { eapply Forall_impl; [exact N|]. intros e Ne. cbn in Ne.
    unfold appliedQuantity. rewrite or_num_one by exact Ne. reflexivity. }
  pose proof (sumFoodEntryMacros_applied entries) as (Hc & Hp & Hk & Hf).
  unfold sameMacros, totals, weightedTotals in *;
    cbn -[Qplus Qmult Qeq appliedQuantity] in *.
  rewrite Hc, Hp, Hk, Hf.
  repeat split; apply weightedSum_ext; exact E.
Qed.

Lemma sumFoodEntryMacros_empty : sumFoodEntryMacros [] = zeroMacros.
Proof. reflexivity. Qed.

(** C5 at quantity zero.  An entry saved with quantity 0 is shown in the
    list as contributing nothing and contributes nothing to the specified
    totals, but [sumFoodEntryMacros] counts it as one serving. *)
Theorem sumFoodEntryMacros_quantity_zero :
  let entries := [Samples.rice 0; Samples.egg 2] in
  sumFoodEntryMacros entries = MacroNutrients.mk 16 46.2 11 356 /\
  totals entries = MacroNutrients.mk 12 1.2 10 156 /\
  displayedEntryMacros (Samples.rice 0) = MacroNutrients.mk 0 0 0 0 /\
  ~ sameMacros (sumFoodEntryMacros entries) (totals entries).
Proof.
  vm_compute. repeat split. intros (H & _). discriminate H.
Qed.

(** Without a profile the default macros are the goals. *)
Lemma determineEffectiveGoals_no_profile (isRefeed : bool) :
  determineEffectiveGoals None isRefeed = DEFAULT_INITIAL_MACROS.
Proof. reflexivity. Qed.

End Ledger.

(** ** Effective goals of a refeed day *)

Section RefeedGoals.

Import Floats Double.
Local Open Scope float_scope.

(** A number that is not negative is zero or positive, and not both. *)
Lemma nonneg_positive_or_zero (c : float) :
  (0 <=? c) = true -> (0 <? c) = negb (c =? 0).
Proof.
  rewrite leb_spec, ltb_spec, eqb_spec.
  replace (Prim2SF 0) with (S754_zero false) by reflexivity.
  destruct (Prim2SF c) as [[]|[]| |[] m e]; cbn; intros H;
    try reflexivity; discriminate H.
Qed.

(** C6.  The effective goals are the target macros unless the day is a
    refeed day and refeed days are enabled in the preferences.  Then the
    calories are [round (tdee * 1.15)] and protein, carbs and fat are each
    [round (target * ratio)], with
    [ratio = round (tdee * 1.15) / targetMacros.calories] when the target
    calories are positive and [ratio = 1] when they are not (zero,
    negative or [NaN]); products and quotient are the binary64 ones.  So
    the computation agrees with the specified one whenever the target
    calories are not negative; for a TDEE of 2500 and targets
    2000/150/200/67 it yields 2875/216/288/96. *)
Theorem determineEffectiveGoals_spec
        (userProfile : UserProfile.t) (isRefeed : bool) :
  let targetMacros := UserProfile.targetMacros userProfile in
  let tdee := CalculatedNutrition.tdee
                (UserProfile.calculatedNutrition userProfile) in
  let refeedEnabled := DietaryPreferences.interestedInRefeedDays
                         (UserProfile.dietaryPreferences userProfile) in
  let refeedCalories := Math_round (tdee * 1.15) in
  let scaled ratio :=
    {| MacroNutrients.calories := refeedCalories;
       MacroNutrients.protein :=
         Math_round (MacroNutrients.protein targetMacros * ratio);
       MacroNutrients.carbs :=
         Math_round (MacroNutrients.carbs targetMacros * ratio);
       MacroNutrients.fat :=
         Math_round (MacroNutrients.fat targetMacros * ratio) |} in
  let goals := determineEffectiveGoals (Some userProfile) isRefeed in
  (isRefeed && refeedEnabled = false -> goals = targetMacros) /\
  (isRefeed && refeedEnabled = true ->
     ((0 <? MacroNutrients.calories targetMacros) = true ->
        goals = scaled (refeedCalories / MacroNutrients.calories targetMacros)) /\
     ((0 <? MacroNutrients.calories targetMacros) = false -> goals = scaled 1)) /\
  ((0 <=? MacroNutrients.calories targetMacros) = true ->
     goals = effectiveGoals isRefeed targetMacros tdee refeedEnabled) /\
  determineEffectiveGoals
    (Some (profile (MacroNutrients.mk 150 200 67 2000) 2500 true)) true
  = MacroNutrients.mk 216 288 96 2875.
Proof.
  cbv zeta. unfold determineEffectiveGoals, effectiveGoals.
  set (t := UserProfile.targetMacros userProfile).
  set (en := DietaryPreferences.interestedInRefeedDays _).
  split; [|split; [|split]].
  - intros ->. reflexivity.
  - intros ->. split; intros ->; reflexivity.
  - intros P. destruct (isRefeed && en); [|reflexivity].
    rewrite (nonneg_positive_or_zero _ P).
    destruct (MacroNutrients.calories t =? 0); reflexivity.
  - vm_compute. reflexivity.
Qed.

Lemma determineEffectiveGoals_spec_witness :
  determineEffectiveGoals
    (Some (profile (MacroNutrients.mk 150 200 67 2000) 2500 true)) true
  = effectiveGoals true (MacroNutrients.mk 150 200 67 2000) 2500 true.
Proof.
  apply (proj1 (proj2 (proj2
           (determineEffectiveGoals_spec
              (profile (MacroNutrients.mk 150 200 67 2000) 2500 true)
              true)))).
  vm_compute. reflexivity.
Defined.

(** C6, as stated, fails.  Target calories of -2000 (the calories field of
    the profile form stores [parseFloat(value) || 0]) make the specified
    ratio 2875 / -2000 and the specified protein goal -216; the code
    takes the ratio to be 1 and returns a protein goal of 150. *)
Lemma determineEffectiveGoals_negative_target :
  let targetMacros := MacroNutrients.mk 150 200 67 (-2000) in
  let goals :=
    determineEffectiveGoals (Some (profile targetMacros 2500 true)) true in
  MacroNutrients.protein goals = 150 /\
  MacroNutrients.protein (effectiveGoals true targetMacros 2500 true) = -216 /\
  Math_round (150 * (Math_round (2500 * 1.15) / -2000)) = -216 /\
  MacroNutrients.protein goals
  <> Math_round (150 * (Math_round (2500 * 1.15) / -2000)).
Proof.
  vm_compute. repeat split. discriminate.
Qed.

(** The products are rounded to binary64 before [Math.round] sees them:
    2570 * 1.15 is 2955.4999999999995, so a TDEE of 2570 gives 2955
    calories and not 2956; with a TDEE of 1200 and the default targets
    the ratio 1380 / 2000 is just below 0.69 and the protein goal is 103,
    not 104. *)
Example determineEffectiveGoals_rounding :
  2570 * 1.15 = 2955.4999999999995 /\
  determineEffectiveGoals
    (Some (profile (MacroNutrients.mk 150 200 67 2000) 2570 true)) true
  = MacroNutrients.mk 222 296 99 2955 /\
  determineEffectiveGoals (Some (profile DEFAULT_INITIAL_MACROS 1200 true)) true
  = MacroNutrients.mk 103 138 46 1380.
Proof. vm_compute. repeat split. Qed.

(** Without a profile the default macros are the goals. *)
Lemma determineEffectiveGoals_default (isRefeed : bool) :
  determineEffectiveGoals None isRefeed = DEFAULT_INITIAL_MACROS.
Proof. reflexivity. Qed.

End RefeedGoals.

(** ** Custom fasting and eating hours *)

Section CustomHoursEdit.

Import JS Constants IFProtocol FastingTimerState IFTimerDisplay.
Local Open Scope Z_scope.

Lemma digitValue_nonneg (c : ascii) (d : Z) : digitValue c = Some d -> 0 <= d.
Proof.
  unfold digitValue. repeat destruct (_ && _)%bool; intros [= <-]; lia.
Qed.

Lemma parseDigits_nonneg (R : Z) (s : string) (acc : option Z) (n : Z) :
  0 <= R ->
  (forall a, acc = Some a -> 0 <= a) ->
  parseDigits R s acc = Some n -> 0 <= n.
Proof.
  intros HR. revert acc. induction s as [|c s IH]; intros acc Hacc E.
  - cbn in E. auto.
  - cbn [parseDigits] in E.
    destruct (digitValue c) as [d|] eqn:D; [|auto].
    destruct (d <? R); [|auto].
    apply (IH _) in E; [exact E|].
    intros a [= <-]. apply digitValue_nonneg in D.
    assert (0 <= default 0 acc) by (destruct acc; cbn; auto; lia).
    nia.
Qed.

(** [parseInt] reads a non-negative integer unless the text, after its
    leading white space, starts with a minus sign; then it reads a
    non-positive one. *)
Lemma parseInt_sign (s : string) (n : Z) :
  parseInt s = Some n ->
  if startsWithMinus s then n <= 0 else 0 <= n.
Proof.
  unfold parseInt, startsWithMinus.
  assert (P : forall R t m, (R = 10 \/ R = 16) ->
                parseDigits R t None = Some m -> 0 <= m).
  { intros R t m HR. apply parseDigits_nonneg; [lia | discriminate]. }
  assert (D : forall t m,
             (let '(R, S2) :=
                match t with
                | String "0"%char (String "x"%char r) => (16, r)
                | String "0"%char (String "X"%char r) => (16, r)
                | _ => (10, t)
                end in parseDigits R S2 None) = Some m -> 0 <= m).
  { intros t m. destruct t as [|c t]; [discriminate|].
    destruct (ascii_dec c "0"%char) as [->|N0].
    - destruct t as [|c' t]; [apply P; auto|].
      destruct (ascii_dec c' "x"%char) as [->|Nx]; [apply P; auto|].
      destruct (ascii_dec c' "X"%char) as [->|NX]; [apply P; auto|].
      intros E. apply (P 10 (String "0"%char (String c' t))); [auto|].
      rewrite <- E. clear E.
      destruct c' as [[] [] [] [] [] [] [] []]; try reflexivity;
        exfalso; (apply Nx; reflexivity) || (apply NX; reflexivity).
    - intros E. apply (P 10 (String c t)); [auto|].
      rewrite <- E. clear E.
      destruct c as [[] [] [] [] [] [] [] []]; try reflexivity;
        exfalso; apply N0; reflexivity. }
  set (S0 := trimStart s).
  destruct S0 as [|c S1].
  - cbn. discriminate.
  - destruct (ascii_dec c "-"%char) as [->|Nm].
    + specialize (D S1).
      destruct (match S1 with
                | String "0"%char (String "x"%char r) => (16, r)
                | String "0"%char (String "X"%char r) => (16, r)
                | _ => (10, S1)
                end) as [R S2].
      destruct (parseDigits R S2 None) as [m|]; [|discriminate].
      intros [= <-]. specialize (D m eq_refl). lia.
    + destruct (ascii_dec c "+"%char) as [->|Np].
      * specialize (D S1).
        destruct (match S1 with
                  | String "0"%char (String "x"%char r) => (16, r)
                  | String "0"%char (String "X"%char r) => (16, r)
                  | _ => (10, S1)
                  end) as [R S2].
        destruct (parseDigits R S2 None) as [m|]; [|discriminate].
        intros [= <-]. specialize (D m eq_refl). lia.
      * assert (E : (match String c S1 with
                     | String "-"%char r => (-1, r)
                     | String "+"%char r => (1, r)
                     | _ => (1, String c S1)
                     end) = (1, String c S1)).
        { destruct c as [[] [] [] [] [] [] [] []]; try reflexivity;
            exfalso; (apply Nm; reflexivity) || (apply Np; reflexivity). }
        rewrite E.
        assert (F : (match String c S1 with
                     | String "-"%char _ => true
                     | _ => false
                     end) = false).
        { destruct c as [[] [] [] [] [] [] [] []]; try reflexivity;
            exfalso; apply Nm; reflexivity. }
        rewrite F.
        specialize (D (String c S1)).
        destruct (match String c S1 with
                  | String "0"%char (String "x"%char r) => (16, r)
                  | String "0"%char (String "X"%char r) => (16, r)
                  | _ => (10, String c S1)
                  end) as [R S2].
        destruct (parseDigits R S2 None) as [m|]; [|discriminate].
        intros [= <-]. specialize (D m eq_refl). lia.
Qed.

(** The hours stored by an edit: the integer read, 0 when none is read. *)
Lemma stored_hours_sign (value : string) :
  let hours := or_int (parseInt value) 0 in
  (parseInt value = None -> hours = 0) /\
  (forall n, parseInt value = Some n -> hours = n) /\
  (if startsWithMinus value then hours <= 0 else 0 <= hours).
Proof.
  cbv zeta. pose proof (parseInt_sign value) as S.
  destruct (parseInt value) as [n|]; cbn.
  - specialize (S n eq_refl). split; [discriminate|]. split.
    + intros m [= <-]. destruct (Z.eqb_spec n 0); congruence.
    + destruct (Z.eqb_spec n 0); destruct (startsWithMinus value); lia.
  - split; [reflexivity|]. split; [discriminate|].
    destruct (startsWithMinus value); lia.
Qed.

(** C9, as the code has it.  An edit of a custom-hours field makes the
    protocol Custom, stores [parseInt(value)] in the edited field (0 when
    nothing can be read) and keeps the other field (0 when it was
    missing).  The stored number is at least 0 unless the text starts,
    after white space, with a minus sign, in which case it is at most 0;
    so an edit without a minus sign keeps two non-negative hour fields
    non-negative. *)
Theorem handleCustomHoursChange_hours
        (name : CustomHoursName) (value : string)
        (custom : CustomHours) (timerState : FastingTimerState.t) :
  let hours := or_int (parseInt value) 0 in
  let custom' := fst (handleCustomHoursChange name value custom timerState) in
  let protocol' :=
    protocol (snd (handleCustomHoursChange name value custom timerState)) in
  let edited p := match name with
                  | customFastingHoursName => fastingHours p
                  | customEatingHoursName => eatingHours p
                  end in
  let other p := match name with
                 | customFastingHoursName => eatingHours p
                 | customEatingHoursName => fastingHours p
                 end in
  type protocol' = CUSTOM /\
  edited protocol' = Some hours /\
  other protocol' = Some (default 0 (other (protocol timerState))) /\
  match name with
  | customFastingHoursName => customFastingHours custom'
  | customEatingHoursName => customEatingHours custom'
  end = hours /\
  (parseInt value = None -> hours = 0) /\
  (forall n, parseInt value = Some n -> hours = n) /\
  (if startsWithMinus value then hours <= 0 else 0 <= hours) /\
  (startsWithMinus value = false ->
   0 <= default 0 (fastingHours (protocol timerState)) ->
   0 <= default 0 (eatingHours (protocol timerState)) ->
   exists f e, fastingHours protocol' = Some f /\ eatingHours protocol' = Some e
               /\ 0 <= f /\ 0 <= e).
Proof.
  cbv zeta.
  pose proof (stored_hours_sign value) as (HN & HS & Hsign).
  set (hours := or_int (parseInt value) 0) in *.
  assert (Hedit : match name with
                  | customFastingHoursName =>
                      fastingHours (protocol (snd (handleCustomHoursChange
                        name value custom timerState)))
                  | customEatingHoursName =>
                      eatingHours (protocol (snd (handleCustomHoursChange
                        name value custom timerState)))
                  end = Some hours)
    by (destruct name; reflexivity).
  assert (Hother : match name with
                   | customFastingHoursName =>
                       eatingHours (protocol (snd (handleCustomHoursChange
                         name value custom timerState)))
                   | customEatingHoursName =>
                       fastingHours (protocol (snd (handleCustomHoursChange
                         name value custom timerState)))
                   end = Some (default 0
                                 match name with
                                 | customFastingHoursName =>
                                     eatingHours (protocol timerState)
                                 | customEatingHoursName =>
                                     fastingHours (protocol timerState)
                                 end))
    by (destruct name; cbn; rewrite or_int_zero; reflexivity).
  split; [reflexivity|]. split; [exact Hedit|]. split; [exact Hother|].
  split; [destruct name; reflexivity|].
  split; [exact HN|]. split; [exact HS|]. split; [exact Hsign|].
  intros M Hf He. rewrite M in Hsign.
  destruct name; eexists _, _;
    (split; [reflexivity|]); (split; [reflexivity|]);
    split; first [exact Hsign | rewrite or_int_zero; assumption].
Qed.

Lemma handleCustomHoursChange_hours_witness :
  exists f e,
    fastingHours (protocol (snd (handleCustomHoursChange
      customFastingHoursName " 14h" (Build_CustomHours 16 8)
      (INITIAL_FASTING_TIMER_STATE None)))) = Some f /\
    eatingHours (protocol (snd (handleCustomHoursChange
      customFastingHoursName " 14h" (Build_CustomHours 16 8)
      (INITIAL_FASTING_TIMER_STATE None)))) = Some e /\
    0 <= f /\ 0 <= e.
Proof.
  apply (handleCustomHoursChange_hours customFastingHoursName " 14h"
           (Build_CustomHours 16 8) (INITIAL_FASTING_TIMER_STATE None)).
  - reflexivity.
  - vm_compute. discriminate.
  - vm_compute. discriminate.
Defined.

(** C9, as stated, fails: typing "-5" into the fasting-hours field stores
    -5 fasting hours. *)
Lemma handleCustomHoursChange_negative :
  let result := handleCustomHoursChange customFastingHoursName "-5"
                  (Build_CustomHours 16 8) (INITIAL_FASTING_TIMER_STATE None) in
  fastingHours (protocol (snd result)) = Some (-5) /\
  customFastingHours (fst result) = -5 /\
  ~ (forall h, fastingHours (protocol (snd result)) = Some h -> 0 <= h).
Proof.
  cbv zeta. split; [reflexivity|]. split; [reflexivity|].
  intros H. specialize (H (-5) eq_refl). lia.
Qed.

(** Text that cannot be read gives 0 hours; a hexadecimal prefix and
    trailing text are read the way [parseInt] reads them. *)
Example stored_hours_examples :
  or_int (parseInt "") 0 = 0 /\ or_int (parseInt "abc") 0 = 0 /\
  or_int (parseInt "16") 0 = 16 /\ or_int (parseInt "  7.5") 0 = 7 /\
  or_int (parseInt "0x10") 0 = 16 /\ or_int (parseInt "-0") 0 = 0.
Proof. vm_compute. repeat split. Qed.

End CustomHoursEdit.

(** ** Fasting timer *)

Section Timer.

Import JS Constants IFProtocol FastingTimerState IFTimerDisplay.
Local Open Scope Z_scope.

Ltac timer_cases s :=
  destruct s as [st ph t0 te tp pd lp pr]; cbn in *;
  try destruct st; try destruct te; try destruct tp; try destruct lp;
  cbn in *; try discriminate; try reflexivity.

(** Every action keeps the instants of a running or paused timer in
    place. *)
Lemma step_stamped (a : action) (s : FastingTimerState.t) :
  stamped s = true -> stamped (step a s) = true.
Proof.
  intros W.
  destruct a as [user now|now|user|custom value|name value custom|now|pr];
    cbn [step].
  - unfold handleStartFast. destruct user; [reflexivity | exact W].
  - unfold handlePauseResumeFast. timer_cases s.
  - unfold handleEndFast. destruct user; [reflexivity | exact W].
  - exact W.
  - exact W.
  - unfold calculateRemainingTime.
    timer_cases s; destruct (_ <=? 0); reflexivity.
  - reflexivity.
Qed.

Lemma run_stamped (l : list action) (s : FastingTimerState.t) :
  stamped s = true -> stamped (run l s) = true.
Proof.
  revert s. induction l as [|a l IH]; intros s W; [exact W|].
  cbn. apply IH, step_stamped, W.
Qed.

Lemma not_active_stamped (s : FastingTimerState.t) :
  status s = NOT_ACTIVE -> stamped s = true.
Proof. unfold stamped. intros ->. reflexivity. Qed.

(** Pause at [tp], then resume at [tr]: the state that results. *)
Lemma pause_then_resume (s : FastingTimerState.t) (tp tr e p : Z) :
  status s = ACTIVE -> endTime s = Some e -> phaseStartTime s = Some p ->
  handlePauseResumeFast tr (handlePauseResumeFast tp s)
  = {| status := ACTIVE;
       currentPhase := currentPhase s;
       startTime := startTime s;
       endTime := Some (e + (tr - tp));
       phaseStartTime := Some p;
       pausedDurationMs := pausedDurationMs s + (tr - tp);
       lastPauseTime := None;
       protocol := protocol s |}.
Proof.
  destruct s as [st ph t0 te tps pd lp pr]; cbn.
  intros -> -> ->. reflexivity.
Qed.

(** C1.  For every Active state the timer reaches, a pause at [tp]
    followed by a resume at [tr] adds [tr - tp] to [pausedDurationMs],
    moves [endTime] forward by [tr - tp], clears [lastPauseTime] and sets
    the status back to Active; the remaining time [endTime - now] right
    after the resume is the remaining time at the pause. *)
Theorem pause_resume_preserves_remaining
        (s0 : FastingTimerState.t) (l : list action) (tp tr : Z) :
  status s0 = NOT_ACTIVE ->
  let s := run l s0 in
  status s = ACTIVE ->
  let paused := handlePauseResumeFast tp s in
  let resumed := handlePauseResumeFast tr paused in
  (status paused = PAUSED /\ lastPauseTime paused = Some tp /\
   endTime paused = endTime s /\ phaseStartTime paused = phaseStartTime s) /\
  (status resumed = ACTIVE /\ lastPauseTime resumed = None /\
   pausedDurationMs resumed = pausedDurationMs s + (tr - tp) /\
   exists e, endTime s = Some e /\ endTime resumed = Some (e + (tr - tp))) /\
  (exists r, remainingMs tp s = Some r /\ remainingMs tr resumed = Some r).
Proof.
  intros N s A paused resumed.
  pose proof (run_stamped l s0 (not_active_stamped s0 N)) as W.
  fold s in W. unfold stamped in W. rewrite A in W.
  destruct (endTime s) as [e|] eqn:Ee; [|discriminate].
  destruct (phaseStartTime s) as [p|] eqn:Ep; [|discriminate].
  assert (R : resumed = _) by exact (pause_then_resume s tp tr e p A Ee Ep).
  assert (P : paused = set_lastPauseTime (Some tp) (set_status PAUSED s)).
  { unfold paused, handlePauseResumeFast. rewrite A. reflexivity. }
  split; [|split].
  - rewrite P. cbn. repeat split; [exact Ee | exact Ep].
  - rewrite R. cbn. repeat split. exists e. split; reflexivity.
  - exists (e - tp). unfold remainingMs. rewrite Ee, R. cbn.
    split; [reflexivity|]. f_equal. lia.
Qed.

Lemma pause_resume_preserves_remaining_witness :
  let user := Some (Samples.profile DEFAULT_INITIAL_MACROS 2500 true) in
  let s := run [StartFast user 0] (INITIAL_FASTING_TIMER_STATE None) in
  exists r,
    remainingMs 3600000 s = Some r /\
    remainingMs 10800000
                (handlePauseResumeFast 10800000
                   (handlePauseResumeFast 3600000 s)) = Some r.
Proof.
  apply (pause_resume_preserves_remaining
           (INITIAL_FASTING_TIMER_STATE None)
           [StartFast (Some (Samples.profile DEFAULT_INITIAL_MACROS 2500 true)) 0]
           3600000 10800000); reflexivity.
Defined.

(** The scenario of the specification: a 16-hour fast paused after one
    hour and resumed two hours later has 15 hours left at the pause and
    15 hours left at the resume. *)
Example pause_resume_scenario :
  let user := Some (Samples.profile DEFAULT_INITIAL_MACROS 2500 true) in
  let hour := 3600000 in
  let s := handleStartFast user 0 (INITIAL_FASTING_TIMER_STATE None) in
  let resumed := handlePauseResumeFast (3 * hour)
                   (handlePauseResumeFast (1 * hour) s) in
  remainingMs (1 * hour) s = Some (15 * hour) /\
  remainingMs (3 * hour) resumed = Some (15 * hour) /\
  endTime resumed = Some (18 * hour) /\
  pausedDurationMs resumed = 2 * hour /\
  fst (calculateRemainingTime (3 * hour) resumed) = "15:00:00"%string.
Proof. vm_compute. repeat split. Qed.

(** A second pause adds to the pause time of the phase. *)
Example pause_twice :
  let user := Some (Samples.profile DEFAULT_INITIAL_MACROS 2500 true) in
  let s := run [StartFast user 0; PauseResumeFast 1000; PauseResumeFast 4000;
                PauseResumeFast 5000; PauseResumeFast 7000]
               (INITIAL_FASTING_TIMER_STATE None) in
  status s = ACTIVE /\ pausedDurationMs s = 5000 /\
  endTime s = Some (16 * 3600000 + 5000).
Proof. vm_compute. repeat split. Qed.



(** Sampling a timer that is not Active, or has no end time, changes
    nothing. *)
Lemma no_flip_unless_active (s : FastingTimerState.t) (now : Z) :
  status s <> ACTIVE \/ endTime s = None ->
  calculateRemainingTime now s = ("00:00:00"%string, s).
Proof.
  unfold calculateRemainingTime. intros [N| ->].
  - destruct (status s); try reflexivity. contradiction.
  - destruct (status s); reflexivity.
Qed.

(** C10.  When the flip fires, [startTime] is overwritten with the
    instant of the flip, the value [phaseStartTime] gets as well, so it
    no longer holds the start of the overall timer; [status],
    [lastPauseTime] and [protocol] are kept, and nothing else of the old
    state survives: the new state is a function of the old phase, these
    three fields and the instant. *)
Theorem flip_overwrites_startTime (s : FastingTimerState.t) (now e : Z) :
  status s = ACTIVE -> endTime s = Some e -> e <= now ->
  let s' := snd (calculateRemainingTime now s) in
  (startTime s' = Some now /\ phaseStartTime s' = Some now /\
   startTime s' = phaseStartTime s') /\
  (forall t0, startTime s = Some t0 -> t0 < now -> startTime s' <> startTime s) /\
  (status s' = status s /\ lastPauseTime s' = lastPauseTime s /\
   protocol s' = protocol s) /\
  currentPhase s' <> currentPhase s /\
  (forall r er,
      status r = ACTIVE -> endTime r = Some er -> er <= now ->
      currentPhase r = currentPhase s ->
      status r = status s -> lastPauseTime r = lastPauseTime s ->
      protocol r = protocol s ->
      snd (calculateRemainingTime now r) = s').
Proof.
  intros A E L. cbv zeta.
  assert (F : forall r er, status r = ACTIVE -> endTime r = Some er ->
                           er <= now ->
                           snd (calculateRemainingTime now r) = flipPhase now r).
  { intros r er Ar Er Lr. unfold calculateRemainingTime. rewrite Ar, Er.
    assert (T : (er - now <=? 0) = true) by (apply Z.leb_le; lia).
    rewrite T. reflexivity. }
  rewrite (F s e A E L). split; [|split; [|split; [|split]]].
  - cbn. repeat split.
  - intros t0 -> Lt. cbn. intros [= ->]. lia.
  - cbn. repeat split.
  - cbn. destruct (currentPhase s); discriminate.
  - intros r er Ar Er Lr Hp Hs Hl Hpr. rewrite (F r er Ar Er Lr).
    unfold flipPhase. rewrite Hp, Hs, Hl, Hpr. reflexivity.
Qed.

Lemma flip_overwrites_startTime_witness :
  let user := Some (Samples.profile DEFAULT_INITIAL_MACROS 2500 true) in
  let s := handleStartFast user 0 (INITIAL_FASTING_TIMER_STATE None) in
  let s' := snd (calculateRemainingTime 57600000 s) in
  startTime s' = Some 57600000 /\ phaseStartTime s' = Some 57600000 /\
  startTime s' = phaseStartTime s'.
Proof.
  apply (proj1 (flip_overwrites_startTime
                  (handleStartFast
                     (Some (Samples.profile DEFAULT_INITIAL_MACROS 2500 true))
                     0 (INITIAL_FASTING_TIMER_STATE None))
                  57600000 57600000 eq_refl eq_refl ltac:(lia))).
Defined.

(** A 16:8 timer started at instant 0: after the flip at the sixteenth
    hour the start of the overall timer is no longer in the state. *)
Example startTime_after_first_flip :
  let user := Some (Samples.profile DEFAULT_INITIAL_MACROS 2500 true) in
  let s := run [StartFast user 0; Sample 57599000; Sample 57600000]
               (INITIAL_FASTING_TIMER_STATE None) in
  startTime s = Some 57600000 /\ currentPhase s = EATING /\
  endTime s = Some (57600000 + 8 * 3600000).
Proof. vm_compute. repeat split. Qed.

End Timer.

(* ================================================================== *)
(** * Further properties of the code *)
(* ================================================================== *)

(** ** Rounding *)

Section Rounding.

Import JS JSMath.
Local Open Scope Q_scope.

Lemma Qfloor_unique (x : Q) (z : Z) :
  inject_Z z <= x -> x < inject_Z (z + 1) -> Qfloor x = z.
Proof.
  intros L U.
  pose proof (Qfloor_le x) as Fl. pose proof (Qlt_floor x) as Fu.
  assert (A : (Qfloor x < z + 1)%Z).
  { rewrite Zlt_Qlt. eapply Qle_lt_trans; [exact Fl | exact U]. }
  assert (B : (z < Qfloor x + 1)%Z).
  { rewrite Zlt_Qlt. eapply Qle_lt_trans; [exact L | exact Fu]. }
  lia.
Qed.

Lemma Qfloor_shift (x : Q) (k : Z) : Qfloor (x + inject_Z k) = (Qfloor x + k)%Z.
Proof.
  apply Qfloor_unique.
  - rewrite inject_Z_plus. pose proof (Qfloor_le x). lra.
  - pose proof (Qlt_floor x) as H.
    rewrite !inject_Z_plus in *. lra.
Qed.


Lemma Math_round_nonneg (x : Q) : 0 <= x -> 0 <= Math_round x.
Proof.
  intros H. change 0 with (inject_Z 0). rewrite <- (Math_round_integer 0).
  apply Math_round_mono. exact H.
Qed.

Lemma truncate_nonneg (x : Q) : 0 <= x -> truncate x = Qfloor x.
Proof.
  intros H. unfold truncate.
  assert (E : Qle_bool 0 x = true) by (apply Qle_bool_iff; exact H).
  rewrite E. reflexivity.
Qed.

Lemma Math_min_glb (a b : Q) : Math_min a b <= a /\ Math_min a b <= b.
Proof.
  unfold Math_min. destruct (Qle_bool a b) eqn:E.
  - apply Qle_bool_iff in E. split; lra.
  - split; [|lra].
    destruct (Qlt_le_dec b a) as [L|L]; [lra|].
    assert (Qle_bool a b = true) by (apply Qle_bool_iff; exact L). congruence.
Qed.

End Rounding.

(** ** Energy calculator: the shape of the BMR in exact arithmetic *)

Section EnergyMore.

Import JS JSMath Constants NutritionCalculator.
Local Open Scope Q_scope.

Lemma coefficients_lookup (sex : string) :
  MIFFLIN_ST_JEOR_COEFFICIENTS !! sex =
    if String.eqb sex "Male" then Some (Coeffs.mk 10 6.25 5 5)
    else if String.eqb sex "Female" then Some (Coeffs.mk 10 6.25 5 (-161))
    else None.
Proof.
  unfold MIFFLIN_ST_JEOR_COEFFICIENTS.
  destruct (String.eqb_spec sex "Male") as [->|NM].
  - apply lookup_insert_eq.
  - rewrite lookup_insert_ne by congruence.
    destruct (String.eqb_spec sex "Female") as [->|NF].
    + apply lookup_insert_eq.
    + rewrite lookup_insert_ne by congruence. apply lookup_empty.
Qed.

Lemma calculateBMR_value (a h w : Q) (sex : string) :
  calculateBMR (PersonalDetails.mk a sex h w)
  = if String.eqb sex "Male"
    then Ok (Math_round (10 * w + 6.25 * h - 5 * a + 5))
    else if String.eqb sex "Female"
    then Ok (Math_round (10 * w + 6.25 * h - 5 * a + -161))
    else Throw "Invalid sex provided for BMR calculation.".
Proof.
  unfold calculateBMR. rewrite coefficients_lookup. cbn.
  destruct (String.eqb sex "Male"); [reflexivity|].
  destruct (String.eqb sex "Female"); reflexivity.
Qed.


(** X3.  The BMR never decreases when weight or height grow and never
    increases with age: a heavier, taller or younger person of the same
    sex is not given a lower BMR. *)
Theorem calculateBMR_monotone (sex : string) (a1 a2 h1 h2 w1 w2 b1 b2 : Q) :
  w1 <= w2 -> h1 <= h2 -> a2 <= a1 ->
  calculateBMR (PersonalDetails.mk a1 sex h1 w1) = Ok b1 ->
  calculateBMR (PersonalDetails.mk a2 sex h2 w2) = Ok b2 ->
  b1 <= b2.
Proof.
  intros Hw Hh Ha. rewrite !calculateBMR_value.
  destruct (String.eqb sex "Male").
  - intros [= <-] [= <-]. apply Math_round_mono. lra.
  - destruct (String.eqb sex "Female"); [|discriminate].
    intros [= <-] [= <-]. apply Math_round_mono. lra.
Qed.

Lemma calculateBMR_monotone_witness : (1649 : Q) <= 1699.
Proof.
  apply (calculateBMR_monotone "Male" 30 30 175 175 70 75 1649 1699);
    try (vm_compute; discriminate); vm_compute; reflexivity.
Defined.

(** The macros suggested for the TDEE of 2556 of a moderately active
    30-year-old male of 175 cm and 70 kg. *)
Example suggestMacros_pipeline :
  suggestMacros 2556 (UserGoals.mk 70 "2026-01-31"
                        "General fitness and health improvement.") 70
  = MacroNutrients.mk 192 256 85 2557.
Proof. vm_compute. reflexivity. Qed.

End EnergyMore.

(** ** Unit conversion *)

Section Units.

Import JS JSMath UnitConversion.
Local Open Scope Q_scope.

(** X4.  In exact arithmetic a weight converted to the other unit and back
    is the weight itself, in both directions, and a conversion to the same
    unit changes nothing; one kilogram is more than two pounds. *)
Theorem convertWeight_round_trip (value : Q) (u v : WeightUnit) :
  convertWeight (convertWeight value u v) v u == value /\
  convertWeight value u u = value /\
  (0 < value -> convertWeight value lbs kg < value /\
                value < convertWeight value kg lbs).
Proof.
  split; [|split].
  - destruct u, v; cbn; try reflexivity; field.
  - destruct u; reflexivity.
  - intros P. cbn. split.
    + lra.
    + unfold Qdiv.
      assert (E : / 0.453592 == 1000000 # 453592) by reflexivity.
      rewrite E. lra.
Qed.

Lemma convertWeight_round_trip_witness :
  convertWeight 154 lbs kg < 154 /\ 154 < convertWeight 154 kg lbs.
Proof.
  apply (convertWeight_round_trip 154 kg lbs). reflexivity.
Defined.

Lemma rem_nonneg (t : Q) :
  0 <= t ->
  rem t 12 == t - 12 * inject_Z (Qfloor (t / 12)) /\
  0 <= rem t 12 /\ rem t 12 < 12.
Proof.
  intros P. unfold rem. remember (t / 12) as q eqn:Hq.
  assert (Eq : t == 12 * q) by (rewrite Hq; field).
  assert (D : 0 <= q) by lra.
  rewrite (truncate_nonneg _ D).
  pose proof (Qfloor_le q) as L.
  pose proof (Qlt_floor q) as U.
  rewrite inject_Z_plus in U. change (inject_Z 1) with 1 in U.
  split; [reflexivity|]. split; lra.
Qed.

(** Feet and inches of [convertHeight] for a height that is not negative. *)
Lemma convertHeight_parts (valueCm : Q) :
  0 <= valueCm ->
  exists feet inches : Z,
    convertHeight valueCm ft_in = FeetInches (inject_Z feet) (inject_Z inches) /\
    (0 <= feet)%Z /\ (0 <= inches <= 12)%Z /\
    inject_Z (feet * 12 + inches) == Math_round (valueCm / 2.54).
Proof.
  intros P. cbn [convertHeight].
  remember (valueCm / 2.54) as t eqn:Ht.
  assert (Pt : 0 <= t).
  { assert (E : t == valueCm * (100 # 254)) by (rewrite Ht; field). lra. }
  destruct (rem_nonneg t Pt) as (Er & R0 & R12).
  remember (rem t 12) as r eqn:Hr.
  remember (t / 12) as q eqn:Hq.
  assert (D : 0 <= q).
  { assert (E : q == t * (1 # 12)) by (rewrite Hq; field). lra. }
  exists (Qfloor q), (Qfloor (r + (1 # 2))).
  split; [reflexivity|]. split; [|split].
  - change 0%Z with (Qfloor 0). apply Qfloor_resp_le. exact D.
  - split.
    + change 0%Z with (Qfloor 0). apply Qfloor_resp_le. lra.
    + change 12%Z with (Qfloor (12 + (1 # 2))). apply Qfloor_resp_le. lra.
  - unfold Math_round. apply inject_Z_injective.
    assert (E : r + (1 # 2) == (t + (1 # 2)) + inject_Z (- (12 * Qfloor q))).
    { rewrite Er, inject_Z_opp, inject_Z_mult. change (inject_Z 12) with 12.
      ring. }
    rewrite (Qfloor_comp _ _ E), Qfloor_shift.
    f_equal. lia.
Qed.

(** X5.  For a height that is not negative, [convertHeight] returns feet and
    inches that are whole numbers with [0 <= inches <= 12] and
    [feet * 12 + inches = round (cm / 2.54)]: the total is the height rounded
    to the inch, but the inches are not carried into the feet, so that 182 cm
    comes out as 5 feet 12 inches. *)
Theorem convertHeight_feet_inches (valueCm : Q) :
  0 <= valueCm ->
  exists feet inches : Z,
    convertHeight valueCm ft_in = FeetInches (inject_Z feet) (inject_Z inches) /\
    (0 <= feet)%Z /\ (0 <= inches <= 12)%Z /\
    inject_Z (feet * 12 + inches) == Math_round (valueCm / 2.54) /\
    convertHeight 182 ft_in = FeetInches 5 12.
Proof.
  intros P.
  destruct (convertHeight_parts valueCm P) as (f & i & E & F & I & T).
  exists f, i.
  split; [exact E|]. split; [exact F|]. split; [exact I|]. split; [exact T|].
  vm_compute. reflexivity.
Qed.

Lemma convertHeight_feet_inches_witness :
  exists feet inches : Z,
    convertHeight 170 ft_in = FeetInches (inject_Z feet) (inject_Z inches) /\
    (0 <= feet)%Z /\ (0 <= inches <= 12)%Z /\
    inject_Z (feet * 12 + inches) == Math_round (170 / 2.54) /\
    convertHeight 182 ft_in = FeetInches 5 12.
Proof.
  apply (convertHeight_feet_inches 170). vm_compute. discriminate.
Defined.

(** X6.  The forms store [round ((feet * 12 + inches) * 2.54)] centimetres
    for a height typed in feet and inches.  For whole numbers of feet and
    inches that are not negative, [convertHeight] gives that height back as
    the same total number of inches. *)
Theorem height_form_round_trip (feet inches : Z) :
  (0 <= feet)%Z -> (0 <= inches)%Z ->
  exists feet' inches' : Z,
    convertHeight (heightCmOfFeetInches (inject_Z feet) (inject_Z inches)) ft_in
    = FeetInches (inject_Z feet') (inject_Z inches') /\
    (feet' * 12 + inches' = feet * 12 + inches)%Z.
Proof.
  intros Pf Pi.
  set (n := (feet * 12 + inches)%Z).
  assert (En : inject_Z feet * 12 + inject_Z inches == inject_Z n).
  { unfold n. rewrite inject_Z_plus, inject_Z_mult. reflexivity. }
  unfold heightCmOfFeetInches.
  remember (Math_round ((inject_Z feet * 12 + inject_Z inches) * 2.54)) as c eqn:Hc.
  assert (B : inject_Z n * 2.54 - (1 # 2) < c /\ c <= inject_Z n * 2.54 + (1 # 2)).
  { rewrite Hc.
    pose proof (Math_round_nearest
                  ((inject_Z feet * 12 + inject_Z inches) * 2.54)) as [L U].
    split; lra. }
  assert (Pn : 0 <= inject_Z n).
  { change 0 with (inject_Z 0). rewrite <- Zle_Qle. unfold n. lia. }
  assert (Pc : 0 <= c).
  { rewrite Hc. apply Math_round_nonneg. rewrite En. lra. }
  destruct (convertHeight_parts c Pc) as (f & i & E & _ & _ & T).
  exists f, i. split; [exact E|].
  apply inject_Z_injective. rewrite T.
  unfold Math_round. apply inject_Z_injective. f_equal.
  apply Qfloor_unique.
  - assert (Ec : c / 2.54 == c * (100 # 254)) by field. rewrite Ec. lra.
  - assert (Ec : c / 2.54 == c * (100 # 254)) by field. rewrite Ec.
    rewrite inject_Z_plus. change (inject_Z 1) with 1. lra.
Qed.

Lemma height_form_round_trip_witness :
  exists feet' inches' : Z,
    convertHeight (heightCmOfFeetInches (inject_Z 5) (inject_Z 0)) ft_in
    = FeetInches (inject_Z feet') (inject_Z inches') /\
    (feet' * 12 + inches' = 5 * 12 + 0)%Z.
Proof.
  apply (height_form_round_trip 5 0); lia.
Defined.

(** Five feet typed into the form come back as 4 feet 12 inches. *)
Example five_feet_comes_back_as_four_twelve :
  heightCmOfFeetInches 5 0 = 152 /\
  convertHeight (heightCmOfFeetInches 5 0) ft_in = FeetInches 4 12.
Proof. vm_compute. split; reflexivity. Qed.



End Units.

(** ** The macro fields of the profile forms *)

Section MacroFields.

Import JS Constants NutritionCalculator MacroForm.
Local Open Scope Q_scope.

(** X7.  The two profile forms update the macros in the same way: an edit
    of protein, carbs or fat sets the calories to the rounded weighted sum
    of the three, an edit of the calories leaves the three as they are.
    The macros [suggestMacros] proposes are stable under it: typing one of
    the proposed gram values again changes nothing. *)
Theorem handleMacroChange_consistent
        (name : MacroKey) (numValue : Q) (prev : MacroNutrients.t) :
  let m := handleMacroChange name numValue prev in
  handleMacroChangeQuiz name numValue prev = m /\
  (name <> calories ->
   MacroNutrients.calories m
   = Math_round (MacroNutrients.protein m * 4 + MacroNutrients.carbs m * 4
                 + MacroNutrients.fat m * 9)) /\
  (name = calories ->
   m = MacroNutrients.mk (MacroNutrients.protein prev) (MacroNutrients.carbs prev)
                         (MacroNutrients.fat prev) numValue) /\
  (forall tdee goals weightKg,
      prev = suggestMacros tdee goals weightKg ->
      handleMacroChange protein (MacroNutrients.protein prev) prev = prev /\
      handleMacroChange carbs (MacroNutrients.carbs prev) prev = prev /\
      handleMacroChange fat (MacroNutrients.fat prev) prev = prev).
Proof.
  cbv zeta. split; [|split; [|split]].
  - destruct name; reflexivity.
  - intros N. destruct name; try reflexivity. contradiction.
  - intros ->. reflexivity.
  - intros tdee goals weightKg ->. repeat split.
Qed.

Lemma handleMacroChange_consistent_witness :
  MacroNutrients.calories (handleMacroChange protein 160 DEFAULT_INITIAL_MACROS)
  = Math_round (160 * 4 + 200 * 4 + 67 * 9).
Proof.
  apply (proj1 (proj2 (handleMacroChange_consistent
                         protein 160 DEFAULT_INITIAL_MACROS))).
  discriminate.
Defined.

End MacroFields.

(** ** Lists of daily logs *)

Section LogLists.

Import DailyLogs.

Lemma findIndex_spec {A : Type} (p : A -> bool) (l : list A) :
  match findIndex p l with
  | Some i =>
      exists x, l !! i = Some x /\ p x = true /\ List.find p l = Some x /\
                forall j y, (j < i)%nat -> l !! j = Some y -> p y = false
  | None => List.find p l = None /\ Forall (fun x => p x = false) l
  end.
Proof.
  induction l as [|a l IH]; cbn.
  - split; [reflexivity | constructor].
  - destruct (p a) eqn:Pa.
    + exists a. repeat split; try reflexivity; try assumption.
      intros j y Hj. lia.
    + destruct (findIndex p l) as [i|]; cbn.
      * destruct IH as (x & Hx & Px & Fx & Before).
        exists x. repeat split; try assumption.
        intros [|j] y Hj Hy; cbn in Hy.
        -- congruence.
        -- apply (Before j y); [lia | exact Hy].
      * destruct IH as [F N]. split; [exact F|]. constructor; assumption.
Qed.

Lemma find_findIndex {A : Type} (p : A -> bool) (l : list A) (x : A) :
  List.find p l = Some x ->
  exists i, findIndex p l = Some i /\ l !! i = Some x.
Proof.
  intros F. pose proof (findIndex_spec p l) as S.
  destruct (findIndex p l) as [i|].
  - destruct S as (y & Hy & _ & Fy & _). exists i. split; [reflexivity|].
    congruence.
  - destruct S as [N _]. congruence.
Qed.

Lemma find_none_findIndex {A : Type} (p : A -> bool) (l : list A) :
  List.find p l = None -> findIndex p l = None.
Proof.
  intros F. pose proof (findIndex_spec p l) as S.
  destruct (findIndex p l) as [i|]; [|reflexivity].
  destruct S as (y & _ & _ & Fy & _). congruence.
Qed.

(** Replacing the first match by another match keeps it the first match. *)
Lemma findIndex_insert {A : Type} (p : A -> bool) (l : list A) (i : nat) (y : A) :
  findIndex p l = Some i -> p y = true ->
  findIndex p (<[i := y]> l) = Some i /\ List.find p (<[i := y]> l) = Some y.
Proof.
  revert i. induction l as [|a l IH]; intros i F Py; [discriminate|].
  cbn in F. destruct (p a) eqn:Pa.
  - injection F as <-. cbn. rewrite Py. split; reflexivity.
  - destruct (findIndex p l) as [k|] eqn:Fk; [|discriminate].
    cbn in F. injection F as <-.
    destruct (IH k eq_refl Py) as [I1 I2].
    change (<[S k := y]> (a :: l)) with (a :: <[k := y]> l).
    cbn [findIndex List.find]. rewrite Pa, I1, I2. split; reflexivity.
Qed.

Lemma findIndex_app_new {A : Type} (p : A -> bool) (l : list A) (y : A) :
  findIndex p l = None -> p y = true ->
  findIndex p (l ++ [y]) = Some (length l) /\ List.find p (l ++ [y]) = Some y.
Proof.
  induction l as [|a l IH]; intros F Py; cbn.
  - rewrite Py. split; reflexivity.
  - cbn in F. destruct (p a); [discriminate|].
    destruct (findIndex p l); [discriminate|].
    destruct (IH eq_refl Py) as [I1 I2]. rewrite I1, I2. split; reflexivity.
Qed.

Lemma onDate_true (date : string) (log : DailyLog.t) :
  onDate date log = true <-> DailyLog.date log = date.
Proof. unfold onDate. apply String.eqb_eq. Qed.

End LogLists.

(** ** The daily logs *)

Section Logs.

Import JS JSMath Constants NutritionCalculator FoodLogger LedgerSpec DailyLogs.
Local Open Scope Q_scope.

Lemma updatedLogOf_date (existing : DailyLog.t) (updates : Updates.t) :
  Updates.date updates = None ->
  DailyLog.date (updatedLogOf existing updates) = DailyLog.date existing.
Proof.
  intros E. unfold updatedLogOf. destruct (_ || _); cbn; rewrite E; reflexivity.
Qed.

Lemma newLogOf_date userProfile (date : string) (updates : Updates.t) :
  Updates.date updates = None ->
  DailyLog.date (newLogOf userProfile date updates) = date.
Proof.
  intros E. unfold newLogOf.
  destruct (Updates.isRefeedDay updates);
    destruct (DailyLog.foodEntries _); cbn; rewrite E; reflexivity.
Qed.

(** How [updateDailyLog] changes the list: the log of the date is replaced
    where it stands, or a log is appended when the date has none and there
    is a profile, or nothing happens. *)
Lemma updateDailyLog_cases userProfile (date : string) (updates : Updates.t)
      (prevLogs : list DailyLog.t) :
  (exists i existing,
      findIndex (onDate date) prevLogs = Some i /\
      prevLogs !! i = Some existing /\ DailyLog.date existing = date /\
      List.find (onDate date) prevLogs = Some existing /\
      updateDailyLog userProfile date updates prevLogs
      = <[i := updatedLogOf existing updates]> prevLogs) \/
  (findIndex (onDate date) prevLogs = None /\
   List.find (onDate date) prevLogs = None /\
   Forall (fun log => DailyLog.date log <> date) prevLogs /\
   updateDailyLog userProfile date updates prevLogs
   = match userProfile with
     | Some _ => prevLogs ++ [newLogOf userProfile date updates]
     | None => prevLogs
     end).
Proof.
  unfold updateDailyLog.
  pose proof (findIndex_spec (onDate date) prevLogs) as S.
  destruct (findIndex (onDate date) prevLogs) as [i|].
  - destruct S as (x & Hx & Px & Fx & _). left. exists i, x.
    rewrite Hx. apply onDate_true in Px. repeat split; assumption.
  - destruct S as [F N]. right. repeat split; try assumption.
    eapply Forall_impl; [exact N|]. intros log H D.
    apply onDate_true in D. cbn in H. congruence.
Qed.

(** X8.  [updateDailyLog] with updates that carry no date never makes a
    second log for a date: dates that were distinct stay distinct, the
    list grows by one log at most, and the logs of the other dates stay
    where they are, unchanged. *)
Theorem updateDailyLog_one_log_per_date
        (userProfile : option UserProfile.t) (date : string)
        (updates : Updates.t) (prevLogs : list DailyLog.t) :
  Updates.date updates = None ->
  let logs := updateDailyLog userProfile date updates prevLogs in
  (DailyLog.date <$> logs = DailyLog.date <$> prevLogs \/
   (DailyLog.date <$> logs = (DailyLog.date <$> prevLogs) ++ [date] /\
    date ∉ DailyLog.date <$> prevLogs)) /\
  (NoDup (DailyLog.date <$> prevLogs) -> NoDup (DailyLog.date <$> logs)) /\
  (forall j log, prevLogs !! j = Some log -> DailyLog.date log <> date ->
                 logs !! j = Some log).
Proof.
  intros E logs.
  assert (Dates :
    DailyLog.date <$> logs = DailyLog.date <$> prevLogs \/
    (DailyLog.date <$> logs = (DailyLog.date <$> prevLogs) ++ [date] /\
     date ∉ DailyLog.date <$> prevLogs)).
  { unfold logs.
    destruct (updateDailyLog_cases userProfile date updates prevLogs)
      as [(i & old & Fi & Hi & Di & _ & ->)|(Fi & _ & N & ->)].
    - left. rewrite list_fmap_insert, updatedLogOf_date by exact E.
      apply list_insert_id. rewrite list_lookup_fmap, Hi. reflexivity.
    - destruct userProfile; [|left; reflexivity].
      right. rewrite fmap_app. cbn. rewrite newLogOf_date by exact E.
      split; [reflexivity|].
      intros In. apply list_elem_of_fmap in In as (log & Dl & Il).
      rewrite Forall_forall in N. apply (N log Il). congruence. }
  split; [exact Dates|]. split.
  - intros ND. destruct Dates as [->|[-> Nin]]; [exact ND|].
    apply NoDup_app. split; [exact ND|]. split.
    + intros x Ix Ix'. apply list_elem_of_singleton in Ix'. congruence.
    + apply NoDup_singleton.
  - intros j log Hj Dj. unfold logs.
    destruct (updateDailyLog_cases userProfile date updates prevLogs)
      as [(i & old & Fi & Hi & Di & _ & ->)|(Fi & _ & N & ->)].
    + rewrite list_lookup_insert_ne; [exact Hj|].
      intros ->. congruence.
    + destruct userProfile; [|exact Hj].
      apply lookup_app_l_Some. exact Hj.
Qed.

Lemma updateDailyLog_one_log_per_date_witness :
  NoDup (DailyLog.date <$>
           updateDailyLog
             (Some (Samples.profile DEFAULT_INITIAL_MACROS 2500 true))
             "2026-01-31" (entriesUpdate [Samples.rice 1]) []).
Proof.
  apply (updateDailyLog_one_log_per_date
           (Some (Samples.profile DEFAULT_INITIAL_MACROS 2500 true))
           "2026-01-31" (entriesUpdate [Samples.rice 1]) [] eq_refl).
  apply NoDup_nil_2.
Defined.

Lemma updateDailyLog_entries
        (userProfile : option UserProfile.t) (date : string)
        (entries : list FoodEntry.t) (prevLogs : list DailyLog.t) :
  let logs := updateDailyLog userProfile date (entriesUpdate entries) prevLogs in
  match List.find (onDate date) prevLogs, userProfile with
  | None, None => logs = prevLogs
  | found, _ =>
      exists log,
        List.find (onDate date) logs = Some log /\
        DailyLog.date log = date /\
        DailyLog.foodEntries log = entries /\
        DailyLog.totals log = sumFoodEntryMacros entries /\
        match found with
        | Some old =>
            DailyLog.isRefeedDay log = DailyLog.isRefeedDay old /\
            DailyLog.effectiveCaloriesGoal log = DailyLog.effectiveCaloriesGoal old /\
            DailyLog.effectiveMacrosGoal log = DailyLog.effectiveMacrosGoal old
        | None =>
            DailyLog.isRefeedDay log = false /\
            DailyLog.effectiveMacrosGoal log
            = determineEffectiveGoals userProfile false
        end
  end.
Proof.
  cbv zeta.
  destruct (updateDailyLog_cases userProfile date (entriesUpdate entries) prevLogs)
    as [(i & old & Fi & Hi & Di & Fo & ->)|(Fi & Fo & N & ->)]; rewrite Fo.
  - assert (P : onDate date (updatedLogOf old (entriesUpdate entries)) = true).
    { apply onDate_true. rewrite updatedLogOf_date by reflexivity. exact Di. }
    destruct (findIndex_insert _ _ _ _ Fi P) as [_ F'].
    exists (updatedLogOf old (entriesUpdate entries)).
    split; [exact F'|]. cbn. repeat split. exact Di.
  - destruct userProfile as [profile|]; [|reflexivity].
    assert (P : onDate date (newLogOf (Some profile) date (entriesUpdate entries))
                = true).
    { apply onDate_true. apply newLogOf_date. reflexivity. }
    destruct (findIndex_app_new _ _ _ Fi P) as [_ F'].
    eexists. split; [exact F'|].
    unfold newLogOf. cbn. destruct entries; cbn; repeat split.
Qed.

(** X9.  After [updateDailyLog(date, { foodEntries })] the log found for the
    date holds exactly these entries and the totals [sumFoodEntryMacros]
    gives for them; the refeed flag and the goals of a log that was there
    are kept.  Only when the date has no log and there is no profile does
    nothing happen. *)
Theorem updateDailyLog_entries_totals
        (userProfile : option UserProfile.t) (date : string)
        (entries : list FoodEntry.t) (prevLogs : list DailyLog.t) :
  let logs := updateDailyLog userProfile date (entriesUpdate entries) prevLogs in
  match List.find (onDate date) prevLogs, userProfile with
  | None, None => logs = prevLogs
  | found, _ =>
      exists log,
        List.find (onDate date) logs = Some log /\
        DailyLog.date log = date /\
        DailyLog.foodEntries log = entries /\
        DailyLog.totals log = sumFoodEntryMacros entries /\
        match found with
        | Some old =>
            DailyLog.isRefeedDay log = DailyLog.isRefeedDay old /\
            DailyLog.effectiveCaloriesGoal log = DailyLog.effectiveCaloriesGoal old /\
            DailyLog.effectiveMacrosGoal log = DailyLog.effectiveMacrosGoal old
        | None =>
            DailyLog.isRefeedDay log = false /\
            DailyLog.effectiveMacrosGoal log
            = determineEffectiveGoals userProfile false
        end
  end.
Proof.
  cbv zeta.
  pose proof (updateDailyLog_entries userProfile date entries prevLogs) as H.
  destruct (List.find (onDate date) prevLogs) as [old|], userProfile as [profile|];
    exact H.
Qed.

Lemma differ_same (x : Q) : differ x x = false.
Proof.
  unfold differ. rewrite negb_false_iff. apply Qeq_bool_iff. reflexivity.
Qed.

Lemma stringifyDiffer_same (m : MacroNutrients.t) : stringifyDiffer m m = false.
Proof. unfold stringifyDiffer. rewrite !differ_same. reflexivity. Qed.

Lemma differ_false (x y : Q) : differ x y = false <-> x == y.
Proof.
  unfold differ. rewrite negb_false_iff. apply Qeq_bool_iff.
Qed.

Lemma stringifyDiffer_false (a b : MacroNutrients.t) :
  stringifyDiffer a b = false <-> sameMacros a b.
Proof.
  unfold stringifyDiffer, sameMacros.
  rewrite !orb_false_iff, !differ_false. tauto.
Qed.

(** A log that the reconciliation finds in order is left alone. *)
Lemma reconcileEffect_stable (profile : UserProfile.t) (date : string)
      (logs : list DailyLog.t) (log : DailyLog.t) :
  List.find (onDate date) logs = Some log ->
  differ (DailyLog.effectiveCaloriesGoal log)
         (MacroNutrients.calories
            (determineEffectiveGoals (Some profile) (DailyLog.isRefeedDay log)))
  || stringifyDiffer (DailyLog.effectiveMacrosGoal log)
       (determineEffectiveGoals (Some profile) (DailyLog.isRefeedDay log))
  = false ->
  stringifyDiffer (DailyLog.totals log)
                  (sumFoodEntryMacros (DailyLog.foodEntries log)) = false ->
  reconcileEffect (Some profile) date logs = logs.
Proof.
  intros F G T. unfold reconcileEffect. rewrite F. cbv zeta.
  rewrite G, T. reflexivity.
Qed.

(** After the reconciliation the log of the selected date is there and in
    order. *)
Lemma reconcileEffect_post (profile : UserProfile.t) (date : string)
      (logs : list DailyLog.t) :
  exists log,
    List.find (onDate date) (reconcileEffect (Some profile) date logs) = Some log /\
    differ (DailyLog.effectiveCaloriesGoal log)
           (MacroNutrients.calories
              (determineEffectiveGoals (Some profile) (DailyLog.isRefeedDay log)))
    || stringifyDiffer (DailyLog.effectiveMacrosGoal log)
         (determineEffectiveGoals (Some profile) (DailyLog.isRefeedDay log))
    = false /\
    stringifyDiffer (DailyLog.totals log)
                    (sumFoodEntryMacros (DailyLog.foodEntries log)) = false /\
    match List.find (onDate date) logs with
    | Some old => DailyLog.foodEntries log = DailyLog.foodEntries old /\
                  DailyLog.isRefeedDay log = DailyLog.isRefeedDay old
    | None => DailyLog.foodEntries log = [] /\ DailyLog.isRefeedDay log = false
    end.
Proof.
  unfold reconcileEffect.
  destruct (List.find (onDate date) logs) as [old|] eqn:Fo; cbv zeta.
  - set (expected := determineEffectiveGoals (Some profile) (DailyLog.isRefeedDay old)).
    destruct (differ (DailyLog.effectiveCaloriesGoal old)
                     (MacroNutrients.calories expected)
              || stringifyDiffer (DailyLog.effectiveMacrosGoal old) expected)
      eqn:G;
      destruct (stringifyDiffer (DailyLog.totals old)
                  (sumFoodEntryMacros (DailyLog.foodEntries old))) eqn:T;
      cbn [hasKeys Updates.date Updates.foodEntries Updates.isRefeedDay
           Updates.effectiveCaloriesGoal Updates.effectiveMacrosGoal
           Updates.totals].
    4: { exists old. rewrite Fo. fold expected. rewrite G, T. repeat split. }
    all: match goal with
         | |- context [updateDailyLog ?up ?d ?u ?l] =>
             destruct (updateDailyLog_cases up d u l)
               as [(i & old' & Fi & Hi & Di & Fo' & ->)|(Fi & Fo' & _ & _)];
             [|congruence];
             assert (old' = old) by congruence; subst old';
             assert (P : onDate d (updatedLogOf old u) = true)
               by (apply onDate_true; rewrite updatedLogOf_date by reflexivity;
                   exact Di);
             destruct (findIndex_insert _ _ _ _ Fi P) as [_ F'];
             exists (updatedLogOf old u); split; [exact F'|]
         end.
    all: unfold updatedLogOf;
      cbn -[determineEffectiveGoals sumFoodEntryMacros differ stringifyDiffer];
      fold expected;
      rewrite ?differ_same, ?stringifyDiffer_same, ?G, ?T; repeat split.
  - match goal with
    | |- context [updateDailyLog ?up ?d ?u ?l] =>
        destruct (updateDailyLog_cases up d u l)
          as [(i & old' & Fi & Hi & Di & Fo' & _)|(Fi & Fo' & _ & ->)];
        [congruence|];
        assert (P : onDate d (newLogOf up d u) = true)
          by (apply onDate_true; apply newLogOf_date; reflexivity);
        destruct (findIndex_app_new _ _ _ Fi P) as [_ F'];
        exists (newLogOf up d u); split; [exact F'|]
    end.
    unfold newLogOf;
      cbn -[determineEffectiveGoals sumFoodEntryMacros differ stringifyDiffer].
    rewrite ?differ_same, ?stringifyDiffer_same. repeat split.
Qed.

(** X10.  With a profile, the reconciliation leaves a log for the selected
    date whose totals are the sums over its entries and whose goals are the
    effective goals for its refeed flag; the entries and the flag of a log
    that was there are kept, a new log has no entries and is no refeed
    day. *)
Theorem reconcileEffect_reconciles (profile : UserProfile.t) (date : string)
        (logs : list DailyLog.t) :
  exists log,
    List.find (onDate date) (reconcileEffect (Some profile) date logs) = Some log /\
    sameMacros (DailyLog.totals log)
               (sumFoodEntryMacros (DailyLog.foodEntries log)) /\
    DailyLog.effectiveCaloriesGoal log
    == MacroNutrients.calories
         (determineEffectiveGoals (Some profile) (DailyLog.isRefeedDay log)) /\
    sameMacros (DailyLog.effectiveMacrosGoal log)
               (determineEffectiveGoals (Some profile) (DailyLog.isRefeedDay log)) /\
    match List.find (onDate date) logs with
    | Some old => DailyLog.foodEntries log = DailyLog.foodEntries old /\
                  DailyLog.isRefeedDay log = DailyLog.isRefeedDay old
    | None => DailyLog.foodEntries log = [] /\ DailyLog.isRefeedDay log = false
    end.
Proof.
  destruct (reconcileEffect_post profile date logs) as (log & F & G & T & K).
  exists log. split; [exact F|].
  apply orb_false_iff in G as [G1 G2].
  apply differ_false in G1. apply stringifyDiffer_false in G2, T.
  split; [exact T|]. split; [exact G1|]. split; [exact G2 | exact K].
Qed.

(** X11.  The reconciliation settles in one pass: run on its own result it
    changes nothing, so the effect, which runs again whenever the logs
    change, comes to rest. *)
Theorem reconcileEffect_fixed_point (userProfile : option UserProfile.t)
        (date : string) (logs : list DailyLog.t) :
  reconcileEffect userProfile date (reconcileEffect userProfile date logs)
  = reconcileEffect userProfile date logs.
Proof.
  destruct userProfile as [profile|]; [|reflexivity].
  destruct (reconcileEffect_post profile date logs) as (log & F & G & T & _).
  exact (reconcileEffect_stable profile date _ log F G T).
Qed.

Lemma toggleRefeedDay_once (profile : UserProfile.t) (date : string)
      (logs : list DailyLog.t) :
  DietaryPreferences.interestedInRefeedDays
    (UserProfile.dietaryPreferences profile) = true ->
  exists log,
    List.find (onDate date) (toggleRefeedDay (Some profile) date logs) = Some log /\
    DailyLog.isRefeedDay log
    = negb (match List.find (onDate date) logs with
            | Some old => DailyLog.isRefeedDay old
            | None => false
            end) /\
    DailyLog.effectiveMacrosGoal log
    = determineEffectiveGoals (Some profile) (DailyLog.isRefeedDay log) /\
    DailyLog.effectiveCaloriesGoal log
    = MacroNutrients.calories
        (determineEffectiveGoals (Some profile) (DailyLog.isRefeedDay log)) /\
    match List.find (onDate date) logs with
    | Some old => DailyLog.foodEntries log = DailyLog.foodEntries old /\
                  DailyLog.totals log = DailyLog.totals old
    | None => DailyLog.foodEntries log = [] /\ DailyLog.totals log = zeroMacros
    end.
Proof.
  intros En. unfold toggleRefeedDay. rewrite En. cbn [negb].
  match goal with
  | |- context [updateDailyLog ?up ?d ?u ?l] =>
      destruct (updateDailyLog_cases up d u l)
        as [(i & old & Fi & Hi & Di & Fo & ->)|(Fi & Fo & _ & ->)];
      rewrite Fo in *
  end.
  - match goal with
    | |- context [updatedLogOf ?o ?u] =>
        assert (P : onDate date (updatedLogOf o u) = true)
          by (apply onDate_true; rewrite updatedLogOf_date by reflexivity;
              exact Di);
        destruct (findIndex_insert _ _ _ _ Fi P) as [_ F'];
        exists (updatedLogOf o u); split; [exact F'|]
    end.
    unfold updatedLogOf; cbn -[determineEffectiveGoals]. repeat split.
  - match goal with
    | |- context [newLogOf ?up ?d ?u] =>
        assert (P : onDate d (newLogOf up d u) = true)
          by (apply onDate_true; apply newLogOf_date; reflexivity);
        destruct (findIndex_app_new _ _ _ Fi P) as [_ F'];
        exists (newLogOf up d u); split; [exact F'|]
    end.
    unfold newLogOf; cbn -[determineEffectiveGoals]. repeat split.
Qed.

(** X12.  [toggleRefeedDay] does nothing without a profile or when refeed
    days are not enabled in the preferences.  Otherwise it inverts the
    refeed flag of the selected date's log (making a refeed-day log when
    there is none), sets both goal fields, [effectiveMacrosGoal] and
    [effectiveCaloriesGoal], to the effective goals for the new flag and
    their calories, and keeps entries and totals; toggling twice brings
    flag and entries back and leaves both goal fields at the effective
    goals for the original flag. *)
Theorem toggleRefeedDay_flips (userProfile : option UserProfile.t)
        (date : string) (logs : list DailyLog.t) :
  match userProfile with
  | None => toggleRefeedDay userProfile date logs = logs
  | Some profile =>
      if DietaryPreferences.interestedInRefeedDays
           (UserProfile.dietaryPreferences profile)
      then
        (exists log,
            List.find (onDate date) (toggleRefeedDay userProfile date logs)
            = Some log /\
            DailyLog.isRefeedDay log
            = negb (match List.find (onDate date) logs with
                    | Some old => DailyLog.isRefeedDay old
                    | None => false
                    end) /\
            DailyLog.effectiveMacrosGoal log
            = determineEffectiveGoals userProfile (DailyLog.isRefeedDay log) /\
            DailyLog.effectiveCaloriesGoal log
            = MacroNutrients.calories
                (determineEffectiveGoals userProfile (DailyLog.isRefeedDay log)) /\
            match List.find (onDate date) logs with
            | Some old => DailyLog.foodEntries log = DailyLog.foodEntries old /\
                          DailyLog.totals log = DailyLog.totals old
            | None => DailyLog.foodEntries log = []
                      /\ DailyLog.totals log = zeroMacros
            end) /\
        (forall old, List.find (onDate date) logs = Some old ->
           exists log,
             List.find (onDate date)
               (toggleRefeedDay userProfile date
                  (toggleRefeedDay userProfile date logs)) = Some log /\
             DailyLog.isRefeedDay log = DailyLog.isRefeedDay old /\
             DailyLog.foodEntries log = DailyLog.foodEntries old /\
             DailyLog.totals log = DailyLog.totals old /\
             DailyLog.effectiveMacrosGoal log
             = determineEffectiveGoals userProfile (DailyLog.isRefeedDay old) /\
             DailyLog.effectiveCaloriesGoal log
             = MacroNutrients.calories
                 (determineEffectiveGoals userProfile (DailyLog.isRefeedDay old)))
      else toggleRefeedDay userProfile date logs = logs
  end.
Proof.
  destruct userProfile as [profile|]; [|reflexivity].
  destruct (DietaryPreferences.interestedInRefeedDays
              (UserProfile.dietaryPreferences profile)) eqn:En.
  2: { unfold toggleRefeedDay. rewrite En. reflexivity. }
  split.
  - destruct (toggleRefeedDay_once profile date logs En)
      as (log & F & Fl & G & C & K).
    exists log.
    split; [exact F|]. split; [exact Fl|]. split; [exact G|].
    split; [exact C|]. exact K.
  - intros old Fo.
    destruct (toggleRefeedDay_once profile date logs En)
      as (log1 & F1 & Fl1 & _ & _ & K1).
    destruct (toggleRefeedDay_once profile date
                (toggleRefeedDay (Some profile) date logs) En)
      as (log2 & F2 & Fl2 & G2 & C2 & K2).
    rewrite F1 in Fl2, K2. rewrite Fo in Fl1, K1.
    exists log2. split; [exact F2|].
    assert (E : DailyLog.isRefeedDay log2 = DailyLog.isRefeedDay old).
    { rewrite Fl2, Fl1. apply negb_involutive. }
    destruct K1 as [K1a K1b], K2 as [K2a K2b].
    rewrite E in G2, C2.
    split; [exact E|]. split; [congruence|]. split; [congruence|].
    split; [exact G2 | exact C2].
Qed.

(** X13.  A confirmed deletion removes every entry with the given id from
    the log of the selected date, keeps the other entries in their order,
    and recomputes the totals from what is left; an id that no entry has
    leaves the entries as they are, and a date without a log leaves the
    logs untouched. *)
Theorem handleDeleteFoodEntry_removes (userProfile : option UserProfile.t)
        (date entryId : string) (logs : list DailyLog.t) :
  match List.find (onDate date) logs with
  | None => handleDeleteFoodEntry userProfile date entryId logs = logs
  | Some old =>
      exists log,
        List.find (onDate date)
                  (handleDeleteFoodEntry userProfile date entryId logs)
        = Some log /\
        Forall (fun entry => FoodEntry.id entry <> entryId)
               (DailyLog.foodEntries log) /\
        (forall entry, FoodEntry.id entry <> entryId ->
                       (entry ∈ DailyLog.foodEntries log
                        <-> entry ∈ DailyLog.foodEntries old)) /\
        DailyLog.foodEntries log `sublist_of` DailyLog.foodEntries old /\
        (Forall (fun entry => FoodEntry.id entry <> entryId)
                (DailyLog.foodEntries old) ->
         DailyLog.foodEntries log = DailyLog.foodEntries old) /\
        DailyLog.totals log = sumFoodEntryMacros (DailyLog.foodEntries log) /\
        DailyLog.isRefeedDay log = DailyLog.isRefeedDay old
  end.
Proof.
  unfold handleDeleteFoodEntry.
  destruct (List.find (onDate date) logs) as [old|] eqn:Fo; [|reflexivity].
  set (kept := List.filter _ (DailyLog.foodEntries old)).
  pose proof (updateDailyLog_entries userProfile date kept logs) as H.
  cbv zeta in H. rewrite Fo in H.
  destruct H as (log & F & _ & E & T & R & _).
  exists log. split; [exact F|]. rewrite E.
  assert (Keep : forall entry,
             entry ∈ kept <->
             entry ∈ DailyLog.foodEntries old /\ FoodEntry.id entry <> entryId).
  { intros entry. unfold kept.
    rewrite !list_elem_of_In, filter_In, negb_true_iff, String.eqb_neq.
    reflexivity. }
  split; [|split; [|split; [|split; [|split]]]].
  - apply Forall_forall. intros entry In. apply Keep in In. tauto.
  - intros entry N. rewrite Keep. tauto.
  - unfold kept. clear. induction (DailyLog.foodEntries old) as [|a l IH]; cbn.
    + constructor.
    + destruct (negb _); [apply sublist_skip | apply sublist_cons]; exact IH.
  - intros A. unfold kept. clear -A.
    induction A as [|a l Ha _ IH]; cbn; [reflexivity|].
    apply String.eqb_neq in Ha. rewrite Ha. cbn. rewrite IH. reflexivity.
  - rewrite T. reflexivity.
  - exact R.
Qed.

Lemma overwrite_keeps (id : string) (data : EntryForm.t)
      (entries : list FoodEntry.t) :
  let edited :=
    List.map (fun entry => if String.eqb (FoodEntry.id entry) id
                           then overwriteEntry entry data else entry) entries in
  List.map FoodEntry.id edited = List.map FoodEntry.id entries /\
  List.map FoodEntry.loggedAt edited = List.map FoodEntry.loggedAt entries /\
  (forall j entry, entries !! j = Some entry ->
     edited !! j = Some (if String.eqb (FoodEntry.id entry) id
                         then overwriteEntry entry data else entry)).
Proof.
  cbv zeta. induction entries as [|a l (I1 & I2 & I3)]; cbn.
  - repeat split. intros j entry H. destruct j; discriminate H.
  - split; [|split].
    + rewrite I1. destruct (String.eqb _ _); reflexivity.
    + rewrite I2. destruct (String.eqb _ _); reflexivity.
    + intros [|j] entry H; cbn in *.
      * injection H as ->. reflexivity.
      * apply I3. exact H.
Qed.

(** X14.  Saving the entry form with a profile leaves a log for the selected
    date whose totals are the sums over its entries.  Saving a new entry
    appends, after the entries that were there, the entry made of the
    form's name, calories, protein, carbs, fat, serving size and quantity,
    the chosen meal time, the fresh id and the logging time.  Saving an
    edit keeps the number and the order of the entries; an entry with the
    edited id becomes the entry made of the form's values and the chosen
    meal time with its own id and logging time, every other entry stays as
    it is. *)
Theorem handleAddOrUpdateFoodEntry_saves
        (profile : UserProfile.t) (date : string) (form : EntryForm.t)
        (selectedMealTime : string) (editingEntryId : option string)
        (uuid now : string) (logs : list DailyLog.t) :
  let before :=
    match List.find (onDate date) logs with
    | Some old => DailyLog.foodEntries old
    | None => []
    end in
  exists log,
    List.find (onDate date)
      (handleAddOrUpdateFoodEntry (Some profile) date form selectedMealTime
                                  editingEntryId uuid now logs) = Some log /\
    DailyLog.totals log = sumFoodEntryMacros (DailyLog.foodEntries log) /\
    let saved id loggedAt :=
      FoodEntry.mk id (EntryForm.name form) (EntryForm.calories form)
                   (EntryForm.protein form) (EntryForm.carbs form)
                   (EntryForm.fat form) (EntryForm.servingSize form)
                   (EntryForm.quantity form) loggedAt selectedMealTime in
    let appended := DailyLog.foodEntries log = before ++ [saved uuid now] in
    match editingEntryId with
    | Some id =>
        if String.eqb id "" then appended
        else
          length (DailyLog.foodEntries log) = length before /\
          List.map FoodEntry.id (DailyLog.foodEntries log)
          = List.map FoodEntry.id before /\
          List.map FoodEntry.loggedAt (DailyLog.foodEntries log)
          = List.map FoodEntry.loggedAt before /\
          (forall j entry, before !! j = Some entry ->
             DailyLog.foodEntries log !! j
             = Some (if String.eqb (FoodEntry.id entry) id
                     then saved (FoodEntry.id entry) (FoodEntry.loggedAt entry)
                     else entry))
    | None => appended
    end.
Proof.
  cbv zeta. unfold handleAddOrUpdateFoodEntry.
  set (before := match List.find (onDate date) logs with
                 | Some old => DailyLog.foodEntries old
                 | None => []
                 end).
  match goal with
  | |- context [updateDailyLog ?up ?d (entriesUpdate ?es) ?l] =>
      pose proof (updateDailyLog_entries up d es l) as H; set (new := es) in *
  end.
  cbv zeta in H.
  assert (H' : exists log,
             List.find (onDate date)
               (updateDailyLog (Some profile) date (entriesUpdate new) logs)
             = Some log /\
             DailyLog.foodEntries log = new /\
             DailyLog.totals log = sumFoodEntryMacros new).
  { destruct (List.find (onDate date) logs);
      destruct H as (log & F & _ & E & T & _); exists log; auto. }
  clear H. destruct H' as (log & F & E & T).
  exists log. split; [exact F|]. rewrite E. split; [exact T|].
  unfold new. clear.
  destruct editingEntryId as [id|].
  - destruct (String.eqb id "") eqn:Eid.
    + reflexivity.
    + match goal with
      | |- context [List.map ?f before] =>
          pose proof (overwrite_keeps id
                        {| EntryForm.name := EntryForm.name form;
                           EntryForm.calories := EntryForm.calories form;
                           EntryForm.protein := EntryForm.protein form;
                           EntryForm.carbs := EntryForm.carbs form;
                           EntryForm.fat := EntryForm.fat form;
                           EntryForm.servingSize := EntryForm.servingSize form;
                           EntryForm.quantity := EntryForm.quantity form;
                           EntryForm.mealTime := selectedMealTime |}
                        before) as (K1 & K2 & K3)
      end.
      cbv zeta in K1, K2, K3.
      split; [apply length_map|]. split; [exact K1|]. split; [exact K2|].
      intros j entry Hj. rewrite (K3 j entry Hj).
      destruct (String.eqb (FoodEntry.id entry) id); reflexivity.
  - reflexivity.
Qed.

(** X15.  The progress shown for a goal is never above 100; it is 0 for a
    goal that is not positive, at least 0 when nothing negative was
    consumed, and exactly 100 once the consumption reaches a positive
    goal. *)
Theorem calculateProgress_bounds (consumed goal : Q) :
  calculateProgress consumed goal <= 100 /\
  (goal <= 0 -> calculateProgress consumed goal = 0) /\
  (0 <= consumed -> 0 <= calculateProgress consumed goal) /\
  (0 < goal -> goal <= consumed -> calculateProgress consumed goal = 100) /\
  (0 < goal -> consumed <= goal ->
   calculateProgress consumed goal == consumed / goal * 100).
Proof.
  unfold calculateProgress, gt.
  destruct (lt 0 goal) eqn:G.
  - apply lt_spec in G.
    assert (Inv : 0 < / goal) by (apply Qinv_lt_0_compat; exact G).
    assert (One : goal * / goal == 1) by (field; lra).
    pose proof (Math_min_glb 100 (consumed / goal * 100)) as [M1 M2].
    split; [exact M1|]. split; [intros; lra|]. unfold Qdiv in *.
    split; [|split].
    + intros P. unfold Math_min.
      destruct (Qle_bool 100 (consumed * / goal * 100)); [lra | nra].
    + intros _ L. unfold Math_min.
      assert (E : Qle_bool 100 (consumed * / goal * 100) = true).
      { apply Qle_bool_iff.
        assert (1 <= consumed * / goal) by nra. lra. }
      rewrite E. reflexivity.
    + intros _ L. unfold Math_min.
      destruct (Qle_bool 100 (consumed * / goal * 100)) eqn:E; [|reflexivity].
      apply Qle_bool_iff in E.
      assert (consumed * / goal <= 1) by nra. lra.
  - apply lt_false in G.
    split; [lra|]. split; [reflexivity|]. split; [lra|].
    split; intros; lra.
Qed.

Lemma calculateProgress_bounds_witness : calculateProgress 2400 2000 = 100.
Proof.
  apply (calculateProgress_bounds 2400 2000); vm_compute; reflexivity || discriminate.
Defined.

End Logs.

(** ** The fasting timer over time *)

Section TimerLife.

Import JS Constants IFProtocol FastingTimerState IFTimerDisplay TimerView.
Local Open Scope Z_scope.

Lemma timerInvariant_later (t t' : Z) (s : FastingTimerState.t) :
  t <= t' -> timerInvariant t s -> timerInvariant t' s.
Proof.
  intros L. unfold timerInvariant. destruct (status s); [tauto| |].
  - intros (N & e & ps & H1 & H2 & H3 & H4 & H5).
    split; [exact N|]. exists e, ps. repeat split; try assumption. lia.
  - intros (e & ps & lp & H1 & H2 & H3 & H4 & H5 & H6 & H7).
    exists e, ps, lp. repeat split; try assumption. lia.
Qed.

Lemma timerInvariant_step (t : Z) (s : FastingTimerState.t) (a : action) :
  timerInvariant t s -> offered a s = true ->
  (forall now, instant a = Some now -> now = t) ->
  timerInvariant t (step a s).
Proof.
  intros I O T.
  destruct a as [user now|now|user|custom value|name value custom|now|pr];
    cbn [step]; cbn [instant] in T; try specialize (T _ eq_refl); subst.
  - (* start *)
    unfold handleStartFast. destruct user; [|exact I].
    unfold timerInvariant, phaseHours; cbn. split; [reflexivity|].
    eexists _, _. repeat split; lia.
  - (* pause, resume *)
    unfold handlePauseResumeFast, timerInvariant, phaseHours in *.
    destruct s as [st ph t0 te tps pd lp pr]; cbn in *.
    destruct st; [discriminate| |].
    + destruct I as (-> & e & ps & -> & -> & He & Hpd & Hps). cbn.
      exists e, ps, t. repeat split; try assumption; lia.
    + destruct I as (e & ps & l & -> & -> & -> & He & Hpd & Hps & Hl). cbn.
      split; [reflexivity|]. exists (e + (t - l)), ps.
      repeat split; try assumption; lia.
  - (* end *)
    unfold handleEndFast. destruct user; [|exact I].
    split; [reflexivity | cbn; lia].
  - (* protocol *)
    unfold timerInvariant in *. cbn in O.
    unfold isTimerControlsDisabled in O.
    destruct s as [st ph t0 te tps pd lp pr]; cbn in *.
    destruct st; try discriminate. exact I.
  - (* custom hours *)
    unfold timerInvariant in *. cbn in O.
    unfold isTimerControlsDisabled in O.
    destruct s as [st ph t0 te tps pd lp pr]; cbn in *.
    destruct st; try discriminate. exact I.
  - (* sample *)
    unfold calculateRemainingTime, timerInvariant, phaseHours in *.
    destruct s as [st ph t0 te tps pd lp pr]; cbn in *.
    destruct st; try discriminate.
    destruct I as (-> & e & ps & -> & -> & He & Hpd & Hps).
    destruct (e - t <=? 0) eqn:D; cbn.
    + split; [reflexivity|]. eexists _, _.
      split; [reflexivity|]. split; [reflexivity|].
      split; [|lia]. destruct ph; cbn; lia.
    + split; [reflexivity|]. exists e, ps. repeat split; assumption.
  - (* reset *)
    split; [reflexivity | cbn; lia].
Qed.

(** When the clock does not move between the readings, the sampling is
    the one of [calculateRemainingTime]. *)
Lemma calculateRemainingTimeAt_same (now : Z) (s : FastingTimerState.t) :
  calculateRemainingTimeAt now now now s = calculateRemainingTime now s.
Proof. reflexivity. Qed.

Lemma timerInvariant_sample (t started later : Z) (s : FastingTimerState.t) :
  timerInvariant t s -> status s = ACTIVE -> t <= started -> started <= later ->
  timerInvariant later (snd (calculateRemainingTimeAt t started later s)).
Proof.
  intros I A L1 L2.
  unfold calculateRemainingTimeAt, timerInvariant, phaseHours in *.
  destruct s as [st ph t0 te tps pd lp pr]; cbn in *. subst st.
  destruct I as (-> & e & ps & -> & -> & He & Hpd & Hps).
  destruct (e - t <=? 0) eqn:D; cbn.
  - split; [reflexivity|]. eexists _, _.
    split; [reflexivity|]. split; [reflexivity|].
    split; [|lia]. destruct ph; cbn; lia.
  - split; [reflexivity|]. exists e, ps. repeat split; try assumption; lia.
Qed.

Lemma reaches_invariant (t : Z) (s : FastingTimerState.t) :
  reaches t s -> timerInvariant t s.
Proof.
  intros R.
  induction R as [p t|t t' s R IH L|t s a R IH O T|t st lt s R IH A L1 L2].
  - split; [reflexivity | cbn; lia].
  - exact (timerInvariant_later t t' s L IH).
  - exact (timerInvariant_step t s a IH O T).
  - exact (timerInvariant_sample t st lt s IH A L1 L2).
Qed.

(** X16.  Whatever the card lets the user and the clock do, starting from a
    fresh timer and with a clock that does not run backwards, also between
    the readings of one sampling: the stored end of the phase is never
    earlier than the start of the phase plus the hours the protocol gives
    the phase plus the time spent paused in it; the time spent paused is
    never negative; and [lastPauseTime] is set exactly while the timer is
    paused.  The end can be later than that sum: a flip takes the start of
    the phase from one reading of the clock and its end from the next. *)
Theorem reaches_timerInvariant (t : Z) (s : FastingTimerState.t) :
  reaches t s ->
  timerInvariant t s /\
  (status s = PAUSED <-> lastPauseTime s <> None) /\
  0 <= pausedDurationMs s /\
  (status s <> NOT_ACTIVE -> exists d, skew s = Some d /\ 0 <= d) /\
  (let user := Some (Samples.profile DEFAULT_INITIAL_MACROS 2500 true) in
   let flipped :=
     snd (calculateRemainingTimeAt 57600000 57600000 57600001
            (step (StartFast user 0) (INITIAL_FASTING_TIMER_STATE None))) in
   reaches 57600001 flipped /\ skew flipped = Some 1).
Proof.
  intros R.
  pose proof (reaches_invariant t s R) as I.
  split; [exact I|]. clear R. unfold timerInvariant in I. unfold skew.
  split; [|split; [|split]].
  - destruct (status s).
    + destruct I as [-> P]. split; [discriminate | congruence].
    + destruct I as (-> & _). split; [discriminate | congruence].
    + destruct I as (e & ps & lp & _ & _ & -> & _).
      split; [discriminate | reflexivity].
  - destruct (status s).
    + destruct I as [_ P]. exact P.
    + destruct I as (_ & e & ps & _ & _ & _ & P & _). exact P.
    + destruct I as (e & ps & lp & _ & _ & _ & _ & P & _). exact P.
  - intros N. destruct (status s); [contradiction| |].
    + destruct I as (_ & e & ps & -> & -> & H & _).
      eexists. split; [reflexivity|]. lia.
    + destruct I as (e & ps & lp & -> & -> & _ & H & _).
      eexists. split; [reflexivity|]. lia.
  - cbv zeta. split; [|vm_compute; reflexivity].
    apply (reaches_sample 57600000 57600000 57600001); [|reflexivity|lia|lia].
    apply (reaches_later 0); [|lia].
    apply reaches_step; [|reflexivity | intros now [= <-]; reflexivity].
    apply reaches_initial.
Qed.

Lemma reaches_timerInvariant_witness :
  0 <= pausedDurationMs
         (step (PauseResumeFast 9000)
            (step (PauseResumeFast 4000)
               (step (StartFast
                        (Some (Samples.profile DEFAULT_INITIAL_MACROS 2500 true))
                        1000)
                     (INITIAL_FASTING_TIMER_STATE None)))).
Proof.
  apply (reaches_timerInvariant 9000).
  apply reaches_step; [|reflexivity | intros now [= <-]; reflexivity].
  apply (reaches_later 4000); [|lia].
  apply reaches_step; [|reflexivity | intros now [= <-]; reflexivity].
  apply (reaches_later 1000); [|lia].
  apply reaches_step; [|reflexivity | intros now [= <-]; reflexivity].
  apply reaches_initial.
Defined.

Lemma or_int_Some (h : Z) : or_int (Some h) 0 = h.
Proof. cbn. destruct (Z.eqb_spec h 0); congruence. Qed.

(** X17.  The display across a pause.  Take a running timer with time left
    and the hours of its phase set, paused at the instant [t], and let [d]
    be the time by which its stored end lies after the start of the phase
    plus its hours plus the time spent paused ([d] is not negative, and is
    0 unless a flip took its two readings of the clock apart).  At the
    instant of the pause a sampling shows the time to the stored end.
    While the timer is paused the display shows that time less [d], or
    zero if that is negative, whenever it is refreshed: with [d = 0] the
    text does not move.  Once the timer is resumed at [tr], a sampling at
    [te] shows the time that was left at the pause less the time gone
    since the resume, so at [te = tr] again the text of the pause. *)
Theorem paused_display_frozen (t : Z) (s : FastingTimerState.t) (e h d : Z) :
  reaches t s -> status s = ACTIVE -> endTime s = Some e -> t < e ->
  phaseHours s = Some h -> skew s = Some d ->
  let paused := handlePauseResumeFast t s in
  0 <= d /\
  (forall started later,
     fst (calculateRemainingTimeAt t started later s) = formatRemaining (e - t)) /\
  (forall now started later,
     remainingTimeEffect now started later paused
     = (formatRemaining (Z.max 0 (e - t - d)), paused)) /\
  (forall tr te started later,
     t <= tr -> tr <= te -> te - tr < e - t ->
     let resumed := handlePauseResumeFast tr paused in
     status resumed = ACTIVE /\
     remainingTimeEffect te started later resumed
     = (formatRemaining (e - t - (te - tr)), resumed)).
Proof.
  intros R A E L H K.
  pose proof (reaches_invariant t s R) as I.
  unfold timerInvariant in I. rewrite A in I.
  destruct I as (Lp & e' & ps & E' & Ps & He & Hpd & Hps).
  rewrite E in E'. injection E' as <-.
  unfold skew in K. rewrite E, Ps, H, or_int_Some in K. injection K as <-.
  rewrite H, or_int_Some in He.
  destruct s as [st ph t0 te0 tps pd lp pr]; cbn in *. subst.
  cbv zeta. split; [lia|]. split; [|split].
  - intros started later. unfold calculateRemainingTimeAt; cbn.
    assert (D : (e - t <=? 0) = false) by (apply Z.leb_gt; lia).
    rewrite D. reflexivity.
  - intros now started later. unfold handlePauseResumeFast; cbn.
    unfold remainingTimeEffect, phaseHours; cbn. unfold phaseHours in H.
    cbn in H. rewrite H.
    destruct (Z.ltb_spec (ps + h * 60 * 60 * 1000 + pd - t) 0) as [C|C];
      f_equal; f_equal; lia.
  - intros tr te started later L1 L2 L3.
    unfold handlePauseResumeFast; cbn. split; [reflexivity|].
    unfold remainingTimeEffect, calculateRemainingTimeAt; cbn.
    assert (C : (e + (tr - t) - te <=? 0) = false) by (apply Z.leb_gt; lia).
    rewrite C. f_equal. f_equal. lia.
Qed.

Lemma paused_display_frozen_witness :
  let user := Some (Samples.profile DEFAULT_INITIAL_MACROS 2500 true) in
  let s := step (StartFast user 0) (INITIAL_FASTING_TIMER_STATE None) in
  remainingTimeEffect 99000 99000 99000 (handlePauseResumeFast 3600000 s)
  = ("15:00:00"%string, handlePauseResumeFast 3600000 s).
Proof.
  cbv zeta.
  refine (eq_trans
            (proj1 (proj2 (proj2
               (paused_display_frozen 3600000
                  (step (StartFast
                           (Some (Samples.profile DEFAULT_INITIAL_MACROS 2500 true))
                           0)
                        (INITIAL_FASTING_TIMER_STATE None))
                  57600000 16 0 _ eq_refl eq_refl eq_refl eq_refl eq_refl)))
               99000 99000 99000)
            _).
  - apply (reaches_later 0); [|lia].
    apply reaches_step; [|reflexivity | intros now [= <-]; reflexivity].
    apply reaches_initial.
  - vm_compute. reflexivity.
Defined.

Lemma sample_flip (s : FastingTimerState.t) (e now : Z) :
  status s = ACTIVE -> endTime s = Some e -> e <= now ->
  snd (calculateRemainingTime now s) = flipPhase now s.
Proof.
  intros A E L. unfold calculateRemainingTime. rewrite A, E.
  assert (T : (e - now <=? 0) = true) by (apply Z.leb_le; lia).
  rewrite T. reflexivity.
Qed.

Lemma last_default {A : Type} (a : A) (l : list A) (d1 d2 : A) :
  List.last (a :: l) d1 = List.last (a :: l) d2.
Proof.
  revert a. induction l as [|b l IH]; intros a; [reflexivity|].
  change (List.last (b :: l) d1 = List.last (b :: l) d2). apply IH.
Qed.

(** X18.  With a protocol whose fasting and eating hours are both 0 (or
    missing), a timer whose phase has run out flips its phase at every
    sampling of the clock: after [n] samplings the phase has flipped [n]
    times and the timer is still Active, each new phase ending at the
    instant it began. *)
Theorem zero_hours_flip_every_sample
        (instants : list Z) (s : FastingTimerState.t) (e : Z) :
  status s = ACTIVE -> endTime s = Some e ->
  or_int (fastingHours (protocol s)) 0 = 0 ->
  or_int (eatingHours (protocol s)) 0 = 0 ->
  inOrderFrom e instants = true ->
  let s' := run (List.map Sample instants) s in
  status s' = ACTIVE /\
  currentPhase s' = flips (length instants) (currentPhase s) /\
  endTime s' = Some (List.last instants e).
Proof.
  revert s e. induction instants as [|now rest IH]; intros s e A E F G O.
  - cbn. repeat split; assumption.
  - cbn in O. apply andb_true_iff in O as [O1 O2]. apply Z.leb_le in O1.
    cbn [List.map run fold_left step].
    rewrite (sample_flip s e now A E O1).
    assert (E' : endTime (flipPhase now s) = Some now).
    { unfold flipPhase; cbn. destruct (currentPhase s); cbn;
        rewrite ?F, ?G; f_equal; lia. }
    specialize (IH (flipPhase now s) now A E' F G O2).
    cbv zeta in IH. unfold run in IH.
    destruct IH as (I1 & I2 & I3).
    split; [exact I1|]. split.
    + rewrite I2. reflexivity.
    + rewrite I3. destruct rest as [|z rest]; [reflexivity|].
      change (List.last (now :: z :: rest) e) with (List.last (z :: rest) e).
      f_equal. apply last_default.
Qed.

Lemma zero_hours_flip_every_sample_witness :
  let user := Some (Samples.profile DEFAULT_INITIAL_MACROS 2500 true) in
  let s := handleStartFast user 5000
             (INITIAL_FASTING_TIMER_STATE
                (Some (IFProtocol.mk CUSTOM (Some 0) (Some 0)))) in
  currentPhase (run [Sample 5000; Sample 6000; Sample 7000] s) = EATING.
Proof.
  cbv zeta.
  apply (proj1 (proj2
           (zero_hours_flip_every_sample [5000; 6000; 7000]
              (handleStartFast
                 (Some (Samples.profile DEFAULT_INITIAL_MACROS 2500 true)) 5000
                 (INITIAL_FASTING_TIMER_STATE
                    (Some (IFProtocol.mk CUSTOM (Some 0) (Some 0)))))
              5000 eq_refl eq_refl eq_refl eq_refl eq_refl))).
Defined.

Lemma string_length_app (a b : string) :
  String.length (a +:+ b) = (String.length a + String.length b)%nat.
Proof.
  induction a as [|c a IH]; [reflexivity|].
  change (S (String.length (a +:+ b)) = S (String.length a + String.length b)).
  rewrite IH. reflexivity.
Qed.

Lemma padStart2_two_digits (n : Z) :
  0 <= n < 100 -> String.length (padStart2 (String_of n)) = 2%nat.
Proof.
  intros [L U].
  assert (E : n = Z.of_nat (Z.to_nat n)) by lia.
  assert (B : (Z.to_nat n < 100)%nat) by lia.
  rewrite E. generalize dependent (Z.to_nat n). clear. intros k _ B.
  do 100 (destruct k as [|k]; [vm_compute; reflexivity|]).
  lia.
Qed.

Lemma padStart2_length (s : string) :
  (2 <= String.length (padStart2 s))%nat.
Proof.
  unfold padStart2. destruct s as [|c [|c' s]]; cbn; lia.
Qed.

(** X19.  The text for a remaining time that is not negative is made of the
    whole hours, of minutes and seconds between 0 and 59, each padded to two
    digits, and these account for the time up to the last full second.
    Below 100 hours the text is eight characters long; it is never
    shorter. *)
Theorem formatRemaining_parts (diff : Z) :
  0 <= diff ->
  let '(hours, minutes, seconds) := remainingParts diff in
  formatRemaining diff
  = (padStart2 (String_of hours) +:+ ":" +:+ padStart2 (String_of minutes)
       +:+ ":" +:+ padStart2 (String_of seconds))%string /\
  0 <= hours /\ 0 <= minutes < 60 /\ 0 <= seconds < 60 /\
  (hours * 3600 + minutes * 60 + seconds) * 1000 <= diff
  < (hours * 3600 + minutes * 60 + seconds + 1) * 1000 /\
  (8 <= String.length (formatRemaining diff))%nat /\
  (diff < 100 * 3600000 -> String.length (formatRemaining diff) = 8%nat).
Proof.
  intros P. unfold remainingParts, formatRemaining.
  change (1000 * 60 * 60) with 3600000. change (1000 * 60) with 60000.
  set (hours := diff / 3600000).
  set (r1 := diff - hours * 3600000).
  set (minutes := r1 / 60000).
  set (r2 := r1 - minutes * 60000).
  set (seconds := r2 / 1000).
  assert (H0 : 0 <= hours) by (apply Z.div_pos; lia).
  assert (R1 : 0 <= r1 < 3600000).
  { unfold r1, hours. pose proof (Z.mod_pos_bound diff 3600000 eq_refl).
    pose proof (Z.div_mod diff 3600000 ltac:(lia)). lia. }
  assert (M : 0 <= minutes < 60).
  { unfold minutes. split; [apply Z.div_pos; lia|].
    apply Z.div_lt_upper_bound; lia. }
  assert (R2 : 0 <= r2 < 60000).
  { unfold r2, minutes. pose proof (Z.mod_pos_bound r1 60000 eq_refl).
    pose proof (Z.div_mod r1 60000 ltac:(lia)). lia. }
  assert (S0 : 0 <= seconds < 60).
  { unfold seconds. split; [apply Z.div_pos; lia|].
    apply Z.div_lt_upper_bound; lia. }
  assert (S1 : seconds * 1000 <= r2 < seconds * 1000 + 1000).
  { unfold seconds. pose proof (Z.mod_pos_bound r2 1000 eq_refl).
    pose proof (Z.div_mod r2 1000 ltac:(lia)). lia. }
  split; [reflexivity|]. split; [exact H0|]. split; [exact M|].
  split; [exact S0|]. split; [unfold r2, r1 in *; lia|].
  rewrite !string_length_app.
  pose proof (padStart2_length (String_of hours)) as Lh.
  rewrite (padStart2_two_digits minutes ltac:(lia)),
          (padStart2_two_digits seconds ltac:(lia)).
  cbn [String.length]. split; [lia|].
  intros U.
  assert (Hh : 0 <= hours < 100).
  { split; [exact H0|]. unfold hours. apply Z.div_lt_upper_bound; lia. }
  rewrite (padStart2_two_digits hours Hh). reflexivity.
Qed.

Lemma formatRemaining_parts_witness :
  String.length (formatRemaining 54000000) = 8%nat.
Proof.
  pose proof (formatRemaining_parts 54000000 ltac:(lia)) as H.
  destruct (remainingParts 54000000) as [[hours minutes] seconds].
  apply H. lia.
Defined.

End TimerLife.

(** ** The timer and the profile *)

Section TimerAndProfile.

Import JS Constants IFProtocol FastingTimerState IFTimerDisplay TimerView App.
Local Open Scope Z_scope.

Lemma sameHours_eq (a b : option Z) : sameHours a b = true <-> a = b.
Proof.
  destruct a as [x|], b as [y|]; cbn; try (split; congruence).
  rewrite Z.eqb_eq. split; congruence.
Qed.

Lemma sameJson_eq (a b : IFProtocol.t) : sameJson a b = true <-> a = b.
Proof.
  destruct a as [ta fa ea], b as [tb fb eb]. unfold sameJson; cbn.
  rewrite !andb_true_iff, !sameHours_eq. split.
  - intros [[T ->] ->]. destruct ta, tb; try discriminate; reflexivity.
  - intros [= -> -> ->]. destruct tb; repeat split.
Qed.

(** What the effect of [App.tsx] leaves for a profile. *)
Lemma timerEffect_cases (profile : UserProfile.t) (s : FastingTimerState.t) :
  let prefs := UserProfile.dietaryPreferences profile in
  let s' := timerEffect (Some profile) s in
  if DietaryPreferences.interestedInIF prefs
  then (status s <> NOT_ACTIVE /\ s' = s) \/
       (status s = NOT_ACTIVE /\ status s' = NOT_ACTIVE /\
        protocol s' = DietaryPreferences.ifProtocol prefs /\
        (protocol s = DietaryPreferences.ifProtocol prefs -> s' = s))
  else status s' = NOT_ACTIVE /\ (status s = NOT_ACTIVE -> s' = s).
Proof.
  cbv zeta. unfold timerEffect.
  destruct (DietaryPreferences.interestedInIF _).
  - destruct (status s) eqn:St.
    + right. split; [reflexivity|].
      destruct (sameJson (protocol s) _) eqn:J; cbn.
      * apply sameJson_eq in J. repeat split; assumption.
      * repeat split. intros E. apply sameJson_eq in E. congruence.
    + left. split; [discriminate | reflexivity].
    + left. split; [discriminate | reflexivity].
  - destruct (status s) eqn:St; cbn; split; try assumption; try reflexivity;
      intros; discriminate.
Qed.

(** X20.  The effect that keeps the timer in step with the profile settles
    in one pass.  With fasting enabled in the profile it never touches a
    timer that runs or is paused, and leaves a timer that is not active
    with the profile's protocol; with fasting disabled it leaves the timer
    not active; without a profile it does nothing. *)
Theorem timerEffect_settles (userProfile : option UserProfile.t)
        (s : FastingTimerState.t) :
  let s' := timerEffect userProfile s in
  timerEffect userProfile s' = s' /\
  match userProfile with
  | None => s' = s
  | Some profile =>
      let prefs := UserProfile.dietaryPreferences profile in
      if DietaryPreferences.interestedInIF prefs
      then match status s with
           | NOT_ACTIVE => status s' = NOT_ACTIVE /\
                           protocol s' = DietaryPreferences.ifProtocol prefs
           | _ => s' = s
           end
      else status s' = NOT_ACTIVE
  end.
Proof.
  cbv zeta. destruct userProfile as [profile|]; [|split; reflexivity].
  pose proof (timerEffect_cases profile s) as C.
  pose proof (timerEffect_cases profile (timerEffect (Some profile) s)) as C2.
  cbv zeta in C, C2.
  destruct (DietaryPreferences.interestedInIF
              (UserProfile.dietaryPreferences profile)).
  - destruct C as [[N E]|(A & A' & P & _)].
    + rewrite E in *. split.
      * destruct C2 as [[_ E2]|(A2 & _)]; [exact E2 | contradiction].
      * destruct (status s); [contradiction | reflexivity | reflexivity].
    + split.
      * destruct C2 as [[N2 _]|(_ & _ & _ & K)]; [contradiction|].
        apply K. exact P.
      * rewrite A. split; assumption.
  - destruct C as [A K], C2 as [_ K2]. split; [apply K2; exact A | exact A].
Qed.

(** X21.  With fasting enabled in the profile and the timer not active, a
    protocol chosen on the timer card does not last: once the effect of
    [App.tsx] has run, the timer has the protocol of the profile again,
    whatever was picked or typed. *)
Theorem timer_card_protocol_overridden
        (profile : UserProfile.t) (s : FastingTimerState.t)
        (custom : CustomHours) (picked : IFProtocolType)
        (name : CustomHoursName) (typed : string) :
  DietaryPreferences.interestedInIF (UserProfile.dietaryPreferences profile)
  = true ->
  status s = NOT_ACTIVE ->
  let wanted := DietaryPreferences.ifProtocol
                  (UserProfile.dietaryPreferences profile) in
  protocol (timerEffect (Some profile) (handleProtocolChange custom picked s))
  = wanted /\
  protocol (timerEffect (Some profile)
              (snd (handleCustomHoursChange name typed custom s)))
  = wanted.
Proof.
  intros En A. cbv zeta.
  pose proof (timerEffect_cases profile (handleProtocolChange custom picked s)) as C1.
  pose proof (timerEffect_cases profile
                (snd (handleCustomHoursChange name typed custom s))) as C2.
  cbv zeta in C1, C2. rewrite En in C1, C2.
  split.
  - destruct C1 as [[N _]|(_ & _ & P & _)]; [|exact P].
    exfalso. apply N. cbn. exact A.
  - destruct C2 as [[N _]|(_ & _ & P & _)]; [|exact P].
    exfalso. apply N. cbn. exact A.
Qed.

Lemma timer_card_protocol_overridden_witness :
  protocol
    (timerEffect (Some (Samples.profile DEFAULT_INITIAL_MACROS 2500 true))
       (handleProtocolChange (Build_CustomHours 14 10) EIGHTEEN_SIX
          (INITIAL_FASTING_TIMER_STATE None)))
  = DEFAULT_IF_PROTOCOLS SIXTEEN_EIGHT.
Proof.
  apply (proj1 (timer_card_protocol_overridden
                  (Samples.profile DEFAULT_INITIAL_MACROS 2500 true)
                  (INITIAL_FASTING_TIMER_STATE None)
                  (Build_CustomHours 14 10) EIGHTEEN_SIX
                  customFastingHoursName "14" eq_refl eq_refl)).
Defined.

End TimerAndProfile.

(** ** More on the planner and the totals *)

Section PlannerMore.

Import JS JSMath Constants NutritionCalculator LedgerSpec.
Local Open Scope Q_scope.

Lemma Math_max_mono (a x y : Q) : x <= y -> Math_max a x <= Math_max a y.
Proof.
  intros L. unfold Math_max.
  destruct (Qle_bool a x) eqn:E1; destruct (Qle_bool a y) eqn:E2;
    try (apply Qle_bool_iff in E1); try (apply Qle_bool_iff in E2); try lra.
  assert (Qle_bool a y = true) by (apply Qle_bool_iff; lra). congruence.
Qed.

Lemma targetCalories_mono (tdee1 tdee2 : Q) (goals : UserGoals.t) (w : Q) :
  tdee1 <= tdee2 ->
  targetCalories tdee1 goals w <= targetCalories tdee2 goals w.
Proof.
  intros L. unfold targetCalories.
  destruct (lt _ _); [|destruct (gt _ _)]; apply Math_max_mono; lra.
Qed.

Lemma split_ratios (d : string) :
  let split := selectSplit d in
  0 <= MacroSplit.proteinRatio split /\ 0 <= MacroSplit.carbRatio split /\
  0 <= MacroSplit.fatRatio split /\
  MacroSplit.proteinRatio split + MacroSplit.carbRatio split
  + MacroSplit.fatRatio split == 1.
Proof.
  cbv zeta. destruct (selectSplit_cases d) as [E|[E|[E|E]]]; rewrite E;
    repeat split; vm_compute; congruence.
Qed.

(** X22.  A higher TDEE never lowers the calories [suggestMacros] returns,
    goals and weight being the same. *)
Theorem suggestMacros_monotone (tdee1 tdee2 : Q) (goals : UserGoals.t)
        (currentWeightKg : Q) :
  tdee1 <= tdee2 ->
  MacroNutrients.calories (suggestMacros tdee1 goals currentWeightKg)
  <= MacroNutrients.calories (suggestMacros tdee2 goals currentWeightKg).
Proof.
  intros L. unfold suggestMacros.
  destruct (split_ratios (UserGoals.planDescription goals)) as (P & C & F & _).
  apply macrosOfSplit_mono; try assumption.
  apply targetCalories_mono. exact L.
Qed.

Lemma suggestMacros_monotone_witness :
  MacroNutrients.calories
    (suggestMacros 2000 (UserGoals.mk 70 "2026-01-31" "keto") 70)
  <= MacroNutrients.calories
       (suggestMacros 2500 (UserGoals.mk 70 "2026-01-31" "keto") 70).
Proof.
  apply (suggestMacros_monotone 2000 2500). vm_compute. discriminate.
Defined.

(** X23.  The calories [suggestMacros] returns, recomputed from the rounded
    grams, stay within 8.5 kcal of the calorie target it split: the three
    ratios of every split add up to 1 and each gram figure is off by half
    a gram at most. *)
Theorem suggestMacros_near_target (tdee : Q) (goals : UserGoals.t)
        (currentWeightKg : Q) :
  let target := targetCalories tdee goals currentWeightKg in
  let m := suggestMacros tdee goals currentWeightKg in
  target - (17 # 2) <= MacroNutrients.calories m /\
  MacroNutrients.calories m <= target + (17 # 2).
Proof.
  cbv zeta. unfold suggestMacros.
  set (c := targetCalories tdee goals currentWeightKg).
  destruct (split_ratios (UserGoals.planDescription goals)) as (_ & _ & _ & S).
  set (split := selectSplit (UserGoals.planDescription goals)) in *.
  rewrite (macrosOfSplit_calories c split).
  unfold macrosOfSplit; cbn [MacroNutrients.protein MacroNutrients.carbs
                             MacroNutrients.fat].
  unfold PROTEIN_KCAL_PER_GRAM, CARBS_KCAL_PER_GRAM, FAT_KCAL_PER_GRAM.
  remember (c * MacroSplit.proteinRatio split / 4) as x eqn:Hx.
  remember (c * MacroSplit.carbRatio split / 4) as y eqn:Hy.
  remember (c * MacroSplit.fatRatio split / 9) as z eqn:Hz.
  assert (Ex : 4 * x == c * MacroSplit.proteinRatio split) by (rewrite Hx; field).
  assert (Ey : 4 * y == c * MacroSplit.carbRatio split) by (rewrite Hy; field).
  assert (Ez : 9 * z == c * MacroSplit.fatRatio split) by (rewrite Hz; field).
  pose proof (Math_round_nearest x) as [X1 X2].
  pose proof (Math_round_nearest y) as [Y1 Y2].
  pose proof (Math_round_nearest z) as [Z1 Z2].
  assert (T : 4 * x + 4 * y + 9 * z == c).
  { rewrite Ex, Ey, Ez.
    transitivity (c * (MacroSplit.proteinRatio split + MacroSplit.carbRatio split
                       + MacroSplit.fatRatio split)); [ring|].
    rewrite S. ring. }
  split; lra.
Qed.

Lemma weightedSum_app (qty field : FoodEntry.t -> Q) (a b : list FoodEntry.t) :
  weightedSum qty field (a ++ b)
  == weightedSum qty field a + weightedSum qty field b.
Proof.
  induction a as [|e a IH].
  - change ([] ++ b) with b.
    change (weightedSum qty field []) with 0. ring.
  - change ((e :: a) ++ b) with (e :: (a ++ b)).
    rewrite !weightedSum_cons, IH. ring.
Qed.

Lemma weightedSum_perm (qty field : FoodEntry.t -> Q) (a b : list FoodEntry.t) :
  Permutation a b -> weightedSum qty field a == weightedSum qty field b.
Proof.
  induction 1 as [|e a b _ IH|e1 e2 a|a b c _ IH1 _ IH2].
  - reflexivity.
  - rewrite !weightedSum_cons, IH. reflexivity.
  - rewrite !weightedSum_cons. ring.
  - rewrite IH1. exact IH2.
Qed.

(** X24.  In exact arithmetic the totals do not depend on the order of the
    entries, and the totals of two lists put together are the sums of the
    totals of each. *)
Theorem sumFoodEntryMacros_order (a b : list FoodEntry.t) :
  (Permutation a b ->
   sameMacros (sumFoodEntryMacros a) (sumFoodEntryMacros b)) /\
  (let ta := sumFoodEntryMacros a in
   let tb := sumFoodEntryMacros b in
   let t := sumFoodEntryMacros (a ++ b) in
   MacroNutrients.calories t == MacroNutrients.calories ta + MacroNutrients.calories tb /\
   MacroNutrients.protein t == MacroNutrients.protein ta + MacroNutrients.protein tb /\
   MacroNutrients.carbs t == MacroNutrients.carbs ta + MacroNutrients.carbs tb /\
   MacroNutrients.fat t == MacroNutrients.fat ta + MacroNutrients.fat tb).
Proof.
  pose proof (sumFoodEntryMacros_applied a) as (A1 & A2 & A3 & A4).
  pose proof (sumFoodEntryMacros_applied b) as (B1 & B2 & B3 & B4).
  pose proof (sumFoodEntryMacros_applied (a ++ b)) as (C1 & C2 & C3 & C4).
  cbn [weightedTotals MacroNutrients.calories MacroNutrients.protein
       MacroNutrients.carbs MacroNutrients.fat] in *.
  split.
  - intros P. unfold sameMacros.
    rewrite A1, A2, A3, A4, B1, B2, B3, B4.
    repeat split; apply weightedSum_perm; exact P.
  - cbv zeta. rewrite A1, A2, A3, A4, B1, B2, B3, B4, C1, C2, C3, C4.
    repeat split; apply weightedSum_app.
Qed.

Lemma sumFoodEntryMacros_order_witness :
  sameMacros (sumFoodEntryMacros [Samples.rice 1; Samples.egg 2])
             (sumFoodEntryMacros [Samples.egg 2; Samples.rice 1]).
Proof.
  apply (proj1 (sumFoodEntryMacros_order [Samples.rice 1; Samples.egg 2]
                                         [Samples.egg 2; Samples.rice 1])).
  apply perm_swap.
Defined.

End PlannerMore.

(** ** The custom-hours inputs *)

Section ReadBack.

Import JS Constants IFProtocol FastingTimerState IFTimerDisplay CustomHoursView.
Local Open Scope Z_scope.

Lemma parseDigits_acc (d : Decimal.uint) (acc : positive) :
  parseDigits 10 (NilEmpty.string_of_uint d) (Some (Z.pos acc))
  = Some (Z.pos (Pos.of_uint_acc d acc)).
Proof.
  revert acc. induction d as [|d IH|d IH|d IH|d IH|d IH|d IH|d IH|d IH|d IH|d IH];
    intros acc; [reflexivity|..];
    cbn [NilEmpty.string_of_uint parseDigits Pos.of_uint_acc];
    match goal with
    | |- context [digitValue ?c] =>
        let v := eval vm_compute in (digitValue c) in
        change (digitValue c) with v
    end;
    cbn [Z.ltb Z.compare Pos.compare Pos.compare_cont default];
    unfold id; rewrite <- IH; do 2 f_equal; lia.
Qed.

Lemma parseDigits_zero (d : Decimal.uint) :
  parseDigits 10 (NilEmpty.string_of_uint d) (Some 0)
  = Some (Z.of_N (Pos.of_uint d)).
Proof.
  induction d as [|d IH|d IH|d IH|d IH|d IH|d IH|d IH|d IH|d IH|d IH];
    [reflexivity|..];
    cbn [NilEmpty.string_of_uint parseDigits Pos.of_uint];
    match goal with
    | |- context [digitValue ?c] =>
        let v := eval vm_compute in (digitValue c) in
        change (digitValue c) with v
    end;
    cbn [Z.ltb Z.compare Pos.compare Pos.compare_cont default]; unfold id;
    cbn [Z.mul Z.add];
    first [exact IH | apply parseDigits_acc].
Qed.

Lemma parseDigits_fresh (d : Decimal.uint) :
  d <> Decimal.Nil ->
  parseDigits 10 (NilEmpty.string_of_uint d) None
  = Some (Z.of_N (Pos.of_uint d)).
Proof.
  intros N. destruct d; [contradiction|..];
    cbn [NilEmpty.string_of_uint parseDigits Pos.of_uint];
    match goal with
    | |- context [digitValue ?c] =>
        let v := eval vm_compute in (digitValue c) in
        change (digitValue c) with v
    end;
    cbn [Z.ltb Z.compare Pos.compare Pos.compare_cont default]; unfold id;
    cbn [Z.mul Z.add];
    first [apply parseDigits_zero | apply parseDigits_acc].
Qed.

Lemma parseInt_decimal (d : Decimal.uint) :
  d <> Decimal.Nil ->
  parseInt (NilEmpty.string_of_uint d) = Some (Z.of_N (Pos.of_uint d)).
Proof.
  intros N. pose proof (parseDigits_fresh d N) as P.
  unfold parseInt.
  destruct d as [|d|d|d|d|d|d|d|d|d|d]; [contradiction|..];
    cbn [NilEmpty.string_of_uint trimStart] in *;
    match goal with
    | |- context [isWhiteSpace ?c] =>
        let v := eval vm_compute in (isWhiteSpace c) in
        change (isWhiteSpace c) with v
    end; cbv iota.
  2-10: rewrite P; f_equal; lia.
  destruct d; cbn [NilEmpty.string_of_uint] in *; rewrite P; f_equal; lia.
Qed.

Lemma parseInt_negative (d : Decimal.uint) :
  d <> Decimal.Nil ->
  parseInt (String "-"%char (NilEmpty.string_of_uint d))
  = Some (- Z.of_N (Pos.of_uint d)).
Proof.
  intros N. pose proof (parseDigits_fresh d N) as P.
  unfold parseInt.
  change (trimStart (String "-"%char (NilEmpty.string_of_uint d)))
    with (String "-"%char (NilEmpty.string_of_uint d)).
  cbv iota beta.
  destruct d as [|d|d|d|d|d|d|d|d|d|d]; [contradiction|..];
    cbn [NilEmpty.string_of_uint] in *.
  2-10: rewrite P; f_equal; lia.
  destruct d; cbn [NilEmpty.string_of_uint] in *; rewrite P; f_equal; lia.
Qed.

Lemma parseInt_String_of (n : Z) : 0 <= n -> parseInt (String_of n) = Some n.
Proof.
  intros L. unfold String_of, NilZero.string_of_uint.
  pose proof (DecimalN.Unsigned.of_to (Z.to_N n)) as OT.
  unfold N.of_uint in OT.
  destruct (N.to_uint (Z.to_N n)) eqn:E;
    try (rewrite parseInt_decimal by discriminate; rewrite OT; f_equal; lia).
  cbn in OT. vm_compute. f_equal. lia.
Qed.

Lemma parseInt_toString (n : Z) : parseInt (toString n) = Some n.
Proof.
  unfold toString. destruct (Z.ltb_spec n 0) as [Neg|Pos].
  - unfold String_of, NilZero.string_of_uint.
    pose proof (DecimalN.Unsigned.of_to (Z.to_N (- n))) as OT.
    unfold N.of_uint in OT.
    destruct (N.to_uint (Z.to_N (- n))) eqn:E;
      try (rewrite parseInt_negative by discriminate; rewrite OT; f_equal; lia).
    cbn in OT. lia.
  - apply parseInt_String_of. exact Pos.
Qed.

(** X25.  The custom-hours inputs show the component's own state, not the
    hours stored in the protocol.  With a Custom protocol in the profile,
    an edit of an input stores [parseInt(value) || 0] in the protocol of
    the timer and in the component's state; the effect of the component
    then replaces a zero by 16 (fasting) or 8 (eating), so that the input
    shows the stored hours only when they are not zero.  The text an input
    shows reads back as the number it shows (for a number below 2^53 in
    size, which its text and [parseInt] render exactly): entering it again
    stores that number.  And with fasting enabled and the timer not active, once the
    effect of [App] has put the protocol of the profile back and the effect
    of the component has run again, the inputs show the hours of the
    profile, 16 and 8 standing in for hours that are zero or missing,
    whatever was typed. *)
Theorem custom_hours_displayed (name : CustomHoursName) (value : string)
        (custom : CustomHours) (s : FastingTimerState.t)
        (profile : UserProfile.t) :
  let prefs := UserProfile.dietaryPreferences profile in
  let hours := or_int (parseInt value) 0 in
  let edited := handleCustomHoursChange name value custom s in
  let synced := customHoursEffect (Some profile) (snd edited) (fst edited) in
  let settled := App.timerEffect (Some profile) (snd edited) in
  let final := customHoursEffect (Some profile) settled synced in
  type (DietaryPreferences.ifProtocol prefs) = CUSTOM ->
  (hoursOf name (fst edited) = hours /\
   storedHours name (protocol (snd edited)) = Some hours) /\
  hoursOf name synced = (if hours =? 0 then fallbackHours name else hours) /\
  (Z.abs (hoursOf name synced) < 2 ^ 53 ->
   storedHours name
     (protocol (snd (handleCustomHoursChange
                       name (displayed name synced) synced (snd edited))))
   = Some (hoursOf name synced)) /\
  (status s = NOT_ACTIVE -> DietaryPreferences.interestedInIF prefs = true ->
   protocol settled = DietaryPreferences.ifProtocol prefs /\
   final = {| customFastingHours :=
                or_int (fastingHours (DietaryPreferences.ifProtocol prefs)) 16;
              customEatingHours :=
                or_int (eatingHours (DietaryPreferences.ifProtocol prefs)) 8 |}).
Proof.
  cbv zeta. intros C.
  split; [|split; [|split]].
  - destruct name; split; reflexivity.
  - unfold customHoursEffect, handleCustomHoursChange. cbn. rewrite C.
    destruct name; cbn; destruct (or_int (parseInt value) 0 =? 0); reflexivity.
  - intros _. unfold displayed. unfold handleCustomHoursChange at 1.
    rewrite parseInt_toString.
    set (n := hoursOf name _).
    assert (E : or_int (Some n) 0 = n)
      by (cbn; destruct (Z.eqb_spec n 0); congruence).
    rewrite E. destruct name; reflexivity.
  - intros NA IF.
    assert (P : protocol (App.timerEffect (Some profile)
                            (snd (handleCustomHoursChange name value custom s)))
                = DietaryPreferences.ifProtocol
                    (UserProfile.dietaryPreferences profile)).
    { unfold App.timerEffect. rewrite IF.
      unfold handleCustomHoursChange. cbn. rewrite NA.
      match goal with
      | |- context [App.sameJson ?a ?b] =>
          destruct (App.sameJson a b) eqn:J; cbn
      end.
      - apply sameJson_eq in J. exact J.
      - reflexivity. }
    split; [exact P|].
    unfold customHoursEffect at 1. rewrite P, C. reflexivity.
Qed.

Lemma custom_hours_displayed_witness :
  let protocol := IFProtocol.mk CUSTOM (Some 12) (Some 12) in
  let edited :=
    handleCustomHoursChange customFastingHoursName "0"
      (Build_CustomHours 12 12) (INITIAL_FASTING_TIMER_STATE (Some protocol)) in
  storedHours customFastingHoursName (FastingTimerState.protocol (snd edited))
  = Some 0 /\
  displayed customFastingHoursName
    (customHoursEffect (Some (profileWith protocol)) (snd edited) (fst edited))
  = "16"%string.
Proof.
  cbv zeta.
  destruct (custom_hours_displayed customFastingHoursName "0"
              (Build_CustomHours 12 12)
              (INITIAL_FASTING_TIMER_STATE
                 (Some (IFProtocol.mk CUSTOM (Some 12) (Some 12))))
              (profileWith (IFProtocol.mk CUSTOM (Some 12) (Some 12)))
              eq_refl) as ((_ & St) & Sy & _).
  split; [exact St|]. unfold displayed. rewrite Sy. reflexivity.
Defined.

End ReadBack.
